(** * EchoGuard: the detection pipeline, embedded and verified

    A shallow embedding of the acoustic detection pipeline of EchoGuard:

    - [backend/ml/audio_processor.py]  (module [AudioProcessor])
    - [backend/ml/model.py]            (module [EchoGuardModel])
    - [backend/routers/websocket.py]   (module [Websocket])
    - [backend/services/alert_service.py] (module [AlertService])
    - [backend/routers/audio.py]       (module [Audio])

    Numeric arrays are lists of rationals: every finite float is a
    rational, and the properties below are about lengths, positions and
    order, not about rounding.  Python integers are [Z].  Python
    exceptions are the [Raise] branch of a small error monad.  Calls into
    librosa, keras, httpx, the websocket transport and the SQL session
    are fields of environment records: the pipeline is verified for
    every behaviour of those collaborators. *)

From Stdlib Require Import QArith Ascii String DecimalString.
From stdpp Require Import gmap strings list fin_maps.

Local Open Scope string_scope.
Local Open Scope list_scope.
Local Open Scope Z_scope.

(** ** Python values and exceptions *)

Module Py.

(** The exceptions the pipeline raises or handles. *)
Inductive exn : Type :=
| ValueError (msg : string)
| IndexError
| AttributeError
| OSError
| HTTPException (status_code : Z) (detail : string)
| TransportError          (* httpx / websocket send failures *)
| DatabaseError.          (* a failed [db.commit()] *)

Inductive result (A : Type) : Type :=
| Ok (a : A)
| Raise (e : exn).
Arguments Ok {A} a.
Arguments Raise {A} e.

Definition bind {A B} (m : result A) (k : A -> result B) : result B :=
  match m with
  | Ok a => k a
  | Raise e => Raise e
  end.

(** [int(q)]: truncation towards zero. *)
Definition int_of_Q (q : Q) : Z := Z.quot (Qnum q) (Zpos (Qden q)).

(** f"{n}" for an integer. *)
Definition str_of_Z (n : Z) : string := NilZero.string_of_int (Z.to_int n).

(** [str(e)], as used in the 500 handlers. *)
Definition str (e : exn) : string :=
  match e with
  | ValueError msg => msg
  | IndexError => "index out of range"
  | AttributeError => "'NoneType' object has no attribute"
  | OSError => "os error"
  | HTTPException status_code detail => str_of_Z status_code +:+ ": " +:+ detail
  | TransportError => "transport error"
  | DatabaseError => "database error"
  end.

(** [len(l)] *)
Definition len {A} (l : list A) : Z := Z.of_nat (length l).

(** [l[:n]]: a negative bound counts from the end. *)
Definition slice_to {A} (n : Z) (l : list A) : list A :=
  if 0 <=? n then take (Z.to_nat n) l
  else take (Z.to_nat (len l + n)) l.

(** [l[i]] for a non-negative index. *)
Definition index {A} (l : list A) (i : nat) : result A :=
  match l !! i with
  | Some x => Ok x
  | None => Raise IndexError
  end.

(** [np.zeros(n)] *)
Definition np_zeros (n : Z) : list Q := replicate (Z.to_nat n) 0%Q.

(** [np.pad(v, (0, n))]: [n] zeros on the right. *)
Definition np_pad_right (v : list Q) (n : Z) : list Q := v ++ np_zeros n.

(** [m.flatten()] of a two-dimensional array, row-major. *)
Definition flatten (m : list (list Q)) : list Q := concat m.

(** [v.reshape(1, -1)] of a one-dimensional array. *)
Definition reshape_row (v : list Q) : list (list Q) := [v].

(** [s.lower()] on ASCII letters. *)
Definition lower_ascii (c : ascii) : ascii :=
  let n := nat_of_ascii c in
  if ((65 <=? n) && (n <=? 90))%nat then ascii_of_nat (n + 32) else c.

Fixpoint lower (s : string) : string :=
  match s with
  | EmptyString => EmptyString
  | String c s' => String (lower_ascii c) (lower s')
  end.

(** [s.endswith(suffix)] *)
Definition endswith (s suffix : string) : bool :=
  let n := String.length s in
  let m := String.length suffix in
  if (m <=? n)%nat then String.eqb (substring (n - m) m s) suffix else false.

(** Truthiness of a string: only the empty string is falsy. *)
Definition str_truthy (s : string) : bool :=
  match s with
  | EmptyString => false
  | String _ _ => true
  end.

(** Truthiness of an optional number: [None] and zero are falsy. *)
Definition truthy (x : option Q) : bool :=
  match x with
  | Some q => negb (Qeq_bool q 0)
  | None => false
  end.

(** [x or y] on optional numbers. *)
Definition or_else (x y : option Q) : option Q :=
  if truthy x then x else y.

End Py.

Import Py.

Declare Scope result_scope.
Delimit Scope result_scope with result.
Notation "'let*' x := m 'in' k" := (Py.bind m (fun x => k))
  (at level 10, x name, m at level 100, k at level 200) : result_scope.
Notation "'let*' ( x , y ) := m 'in' k" := (Py.bind m (fun '(x, y) => k))
  (at level 10, x name, y name, m at level 100, k at level 200) : result_scope.
Local Open Scope result_scope.

(** ** backend/ml/audio_processor.py *)

Module AudioProcessor.

(** The librosa calls of [extract_features].  Each returns a
    two-dimensional array, given as its list of rows. *)
Record Librosa := {
  melspectrogram : list Q -> Z -> list (list Q);   (* y, sr; n_mels=128, hop_length=512 *)
  power_to_db : list (list Q) -> list (list Q);    (* ref=np.max *)
  mfcc : list Q -> Z -> list (list Q);             (* y, sr; n_mfcc=13 *)
  spectral_centroid : list Q -> Z -> list (list Q);
  spectral_rolloff : list Q -> Z -> list (list Q);
  zero_crossing_rate : list Q -> list (list Q);
  (* librosa.load(io, sr, duration): the decoded samples, or an error *)
  load : list Byte.byte -> Z -> Q -> result (list Q)
}.

Record t := {
  sample_rate : Z;
  duration : Q;
  target_length : Z
}.

(** [__init__] *)
Definition init (sample_rate : Z) (duration : Q) : t :=
  {| sample_rate := sample_rate;
     duration := duration;
     target_length := int_of_Q (inject_Z sample_rate * duration) |}.

(** [target_size = 128 * 87 + 13 * 87 + 87 * 3] *)
Definition target_size : Z := 128 * 87 + 13 * 87 + 87 * 3.

(** The concatenation of the five sub-features, before the final
    pad-or-trim. *)
Definition combined_features (L : Librosa) (self : t) (audio : list Q)
  : result (list Q) :=
  let mel_spec := melspectrogram L audio (sample_rate self) in
  let mel_spec_db := power_to_db L mel_spec in
  let f1 := slice_to (128 * 87) (flatten mel_spec_db) in
  let mfccs := mfcc L audio (sample_rate self) in
  let f2 := slice_to (13 * 87) (flatten mfccs) in
  let* spectral_centroids := index (spectral_centroid L audio (sample_rate self)) 0 in
  let* spectral_rolloff := index (spectral_rolloff L audio (sample_rate self)) 0 in
  let* zero_crossing_rate := index (zero_crossing_rate L audio) 0 in
  let f3 := slice_to 87 spectral_centroids in
  let f4 := slice_to 87 spectral_rolloff in
  let f5 := slice_to 87 zero_crossing_rate in
  Ok (concat [f1; f2; f3; f4; f5]).

(** The final pad-or-trim of [extract_features]. *)
Definition pad_or_trim (feature_vector : list Q) : list Q :=
  if len feature_vector <? target_size
  then np_pad_right feature_vector (target_size - len feature_vector)
  else slice_to target_size feature_vector.

(** [extract_features]: the result has shape (1, target_size). *)
Definition extract_features (L : Librosa) (self : t) (audio : list Q)
  : result (list (list Q)) :=
  let* feature_vector := combined_features L self audio in
  Ok (reshape_row (pad_or_trim feature_vector)).

(** [load_audio_from_bytes]: any decoding error becomes a [ValueError]. *)
Definition load_audio_from_bytes (L : Librosa) (self : t)
    (audio_bytes : list Byte.byte) : result (list Q * Z) :=
  match load L audio_bytes (sample_rate self) (duration self) with
  | Ok y => Ok (y, sample_rate self)
  | Raise e =>
      Raise (ValueError ("Error loading audio from bytes: " +:+ str e))
  end.

(** [preprocess_audio(audio_bytes=...)]; empty bytes are falsy. *)
Definition preprocess_audio (L : Librosa) (self : t)
    (audio_bytes : list Byte.byte) : result (list (list Q)) :=
  match audio_bytes with
  | [] => Raise (ValueError "Either audio_path or audio_bytes must be provided")
  | _ =>
      let* (audio, _sr) := load_audio_from_bytes L self audio_bytes in
      let audio :=
        if len audio <? target_length self
        then np_pad_right audio (target_length self - len audio)
        else slice_to (target_length self) audio in
      extract_features L self audio
  end.

End AudioProcessor.

(** ** backend/ml/model.py *)

Module EchoGuardModel.

Definition CLASSES : list string :=
  [ "marine_life";      (* 0 - Whale, dolphin, etc. *)
    "vessel";           (* 1 - Boat/ship engine *)
    "blast_fishing";    (* 2 - Underwater explosion *)
    "seismic";          (* 3 - Seismic airgun *)
    "ambient" ].        (* 4 - Background noise *)

Definition THREAT_CLASSES : list string :=
  [ "vessel"; "blast_fishing"; "seismic" ].

(** The arrays [predict] is called with: one- or two-dimensional. *)
Inductive ndarray : Type :=
| Vec (v : list Q)
| Mat (rows : list (list Q)).

(** A keras model, given by the batch of score rows its call returns for
    a batch of inputs.  A call that raises has no place in this type: what
    is proved of [predict] is about runs in which the model's call
    returns. *)
Definition keras_model : Type := list (list Q) -> list (list Q).

Record t := {
  model_path : string;
  model : option keras_model
}.

Record Prediction := {
  event_type : string;
  confidence : Q;
  is_threat : bool;
  class_probabilities : list (string * Q)
}.

(** [if len(features.shape) > 1: features = features.flatten()] *)
Definition ensure_flat (features : ndarray) : list Q :=
  match features with
  | Vec v => v
  | Mat rows => flatten rows
  end.

(** The "ensure correct length" step. *)
Definition ensure_length (features : list Q) : list Q :=
  if negb (len features =? 12000) then
    if len features <? 12000 then
      let padding := np_zeros (12000 - len features) in
      features ++ padding
    else slice_to 12000 features
  else features.

(** [np.argmax] on a one-dimensional array: scan left to right and
    move to a later position only when its value is not [<=] the
    running maximum. *)
Fixpoint argmax_scan (mp : Q) (max_ind i : nat) (ip : list Q) : nat :=
  match ip with
  | [] => max_ind
  | x :: rest =>
      if negb (Qle_bool x mp) then argmax_scan x i (S i) rest
      else argmax_scan mp max_ind (S i) rest
  end.

Definition np_argmax (a : list Q) : result nat :=
  match a with
  | [] => Raise (ValueError "attempt to get an argmax of an empty sequence")
  | x :: rest => Ok (argmax_scan x 0 1 rest)
  end.

(** A comprehension whose body may raise. *)
Fixpoint comprehension {A B} (f : A -> result B) (l : list A)
  : result (list B) :=
  match l with
  | [] => Ok []
  | a :: l' =>
      let* b := f a in
      let* bs := comprehension f l' in
      Ok (b :: bs)
  end.

(** [{CLASSES[i]: float(predictions[0][i]) for i in range(len(CLASSES))}] *)
Definition class_probs (row : list Q) : result (list (string * Q)) :=
  comprehension
    (fun i => let* name := index CLASSES i in
              let* p := index row i in
              Ok (name, p))
    (seq 0 (length CLASSES)).

Definition predict (self : t) (features : ndarray) : result Prediction :=
  match model self with
  | None => Raise (ValueError "Model not initialized")
  | Some m =>
      let features := ensure_flat features in
      let features := ensure_length features in
      let features := reshape_row features in
      let predictions := m features in
      let* row := index predictions 0 in
      let* class_idx := np_argmax row in
      let* confidence := index row class_idx in
      let* class_name := index CLASSES class_idx in
      let* class_probs := class_probs row in
      Ok {| event_type := class_name;
            confidence := confidence;
            is_threat := bool_decide (class_name ∈ THREAT_CLASSES);
            class_probabilities := class_probs |}
  end.

(** [predict_batch] *)
Definition predict_batch (self : t) (features_list : list ndarray)
  : result (list Prediction) :=
  comprehension (predict self) features_list.

End EchoGuardModel.

(** ** JSON payloads *)

#[warnings="-register-all"]
Inductive json : Type :=
| JNull
| JBool (b : bool)
| JInt (n : Z)
| JNum (q : Q)
| JStr (s : string)
| JObj (fields : list (string * json)).

(** [x if x is not None else null] for optional numbers. *)
Definition json_opt_num (x : option Q) : json :=
  match x with
  | Some q => JNum q
  | None => JNull
  end.

(** ** backend/routers/websocket.py *)

Module Websocket.

(** A websocket is an object; the manager only uses its identity. *)
Definition WebSocket : Type := nat.

Definition Message : Type := list (string * json).

(** The transport under the manager: which handshakes and which sends
    raise. *)
Record Transport := {
  accept_raises : WebSocket -> bool;
  send_json_raises : WebSocket -> Message -> bool
}.

Record Metadata := {
  client_id : string;
  connected_at : Z
}.

Record ConnectionManager := {
  active_connections : list WebSocket;
  connection_metadata : gmap WebSocket Metadata
}.

(** What has been put on the wire, oldest first. *)
Definition Wire : Type := list (WebSocket * Message).

(** [__init__] *)
Definition init : ConnectionManager :=
  {| active_connections := []; connection_metadata := ∅ |}.

(** [client_id or f"client_{len(self.active_connections)}"]: a missing
    and an empty identifier are both falsy. *)
Definition client_id_or (client_id : option string) (n : Z) : string :=
  match client_id with
  | Some (String c s) => String c s
  | Some EmptyString | None => "client_" +:+ str_of_Z n
  end.

Definition connect (T : Transport) (self : ConnectionManager)
    (websocket : WebSocket) (client_id : option string) (utcnow : Z)
  : result ConnectionManager :=
  if accept_raises T websocket then Raise TransportError
  else
    let active := active_connections self ++ [websocket] in
    Ok {| active_connections := active;
          connection_metadata :=
            <[ websocket :=
                 {| client_id := client_id_or client_id (len active);
                    connected_at := utcnow |} ]>
              (connection_metadata self) |}.

(** [list.remove(x)]: drops the first occurrence. *)
Fixpoint list_remove_first (x : WebSocket) (l : list WebSocket)
  : list WebSocket :=
  match l with
  | [] => []
  | y :: l' => if decide (x = y) then l' else y :: list_remove_first x l'
  end.

Definition disconnect (self : ConnectionManager) (websocket : WebSocket)
  : ConnectionManager :=
  {| active_connections :=
       if bool_decide (websocket ∈ active_connections self)
       then list_remove_first websocket (active_connections self)
       else active_connections self;
     connection_metadata :=
       match connection_metadata self !! websocket with
       | Some _ => delete websocket (connection_metadata self)
       | None => connection_metadata self
       end |}.

Definition send_personal_message (T : Transport) (self : ConnectionManager)
    (message : Message) (websocket : WebSocket) (wire : Wire)
  : ConnectionManager * Wire :=
  if send_json_raises T websocket message then (disconnect self websocket, wire)
  else (self, wire ++ [(websocket, message)]).

(** One iteration of the sending loop of [broadcast]. *)
Definition broadcast_send (T : Transport) (message : Message)
    (acc : Wire * list WebSocket) (connection : WebSocket)
  : Wire * list WebSocket :=
  let '(wire, disconnected) := acc in
  if send_json_raises T connection message
  then (wire, disconnected ++ [connection])
  else (wire ++ [(connection, message)], disconnected).

Definition broadcast (T : Transport) (self : ConnectionManager)
    (message : Message) (wire : Wire) : ConnectionManager * Wire :=
  let '(wire, disconnected) :=
    fold_left (broadcast_send T message) (active_connections self) (wire, []) in
  (* Clean up disconnected clients *)
  (fold_left disconnect disconnected self, wire).

Definition envelope (type : string) (utcnow : Z) (data : Message) : Message :=
  [ ("type", JStr type); ("timestamp", JInt utcnow); ("data", JObj data) ].

Definition broadcast_detection (T : Transport) (self : ConnectionManager)
    (detection_data : Message) (utcnow : Z) (wire : Wire) :=
  broadcast T self (envelope "new_detection" utcnow detection_data) wire.

Definition broadcast_alert (T : Transport) (self : ConnectionManager)
    (alert_data : Message) (utcnow : Z) (wire : Wire) :=
  broadcast T self (envelope "alert" utcnow alert_data) wire.

Definition get_connection_count (self : ConnectionManager) : Z :=
  len (active_connections self).

(** Sequences of registry operations, for reachability statements. *)
Inductive op : Type :=
| Connect (websocket : WebSocket) (client_id : option string)
| Disconnect (websocket : WebSocket).

Fixpoint run (T : Transport) (ops : list op) (self : ConnectionManager)
  : result ConnectionManager :=
  match ops with
  | [] => Ok self
  | Connect ws cid :: ops' =>
      let* self' := connect T self ws cid 0 in
      run T ops' self'
  | Disconnect ws :: ops' => run T ops' (disconnect self ws)
  end.

End Websocket.

(** ** backend/models.py *)

Module Hydrophone.
Record t := {
  id : Z;
  name : string;
  latitude : option Q;
  longitude : option Q;
  depth : option Q;
  status : string;
  created_at : Z
}.
End Hydrophone.

Module Detection.
Record t := {
  id : option Z;                 (* assigned by the database *)
  hydrophone_id : option Z;
  event_type : string;
  confidence : Q;
  timestamp : option Z;          (* default=datetime.utcnow *)
  audio_file_path : option string;
  duration : option Q;
  frequency_range : option json;
  metadata : option (list (string * Q));
  is_threat : bool;
  latitude : option Q;
  longitude : option Q;
  processed : bool
}.

Definition with_row (d : t) (i now : Z) : t :=
  {| id := Some i;
     hydrophone_id := hydrophone_id d;
     event_type := event_type d;
     confidence := confidence d;
     timestamp := Some (default now (timestamp d));
     audio_file_path := audio_file_path d;
     duration := duration d;
     frequency_range := frequency_range d;
     metadata := metadata d;
     is_threat := is_threat d;
     latitude := latitude d;
     longitude := longitude d;
     processed := processed d |}.
End Detection.

Module Alert.
Record t := {
  id : option Z;                 (* assigned by the database *)
  detection_id : option Z;
  alert_type : string;           (* email, webhook, sms *)
  status : string;               (* pending, sent, failed *)
  sent_at : option Z;
  message : option string;
  created_at : option Z          (* default=datetime.utcnow *)
}.

(** [alert.status = s] *)
Definition set_status (a : t) (s : string) : t :=
  {| id := id a;
     detection_id := detection_id a;
     alert_type := alert_type a;
     status := s;
     sent_at := sent_at a;
     message := message a;
     created_at := created_at a |}.

Definition with_row (a : t) (i now : Z) : t :=
  {| id := Some i;
     detection_id := detection_id a;
     alert_type := alert_type a;
     status := status a;
     sent_at := sent_at a;
     message := message a;
     created_at := Some (default now (created_at a)) |}.
End Alert.

(** ** The SQL session

    The committed rows, the number of commits attempted so far, and the
    successive committed states (a ghost log, oldest first).  Whether the
    n-th commit raises is decided by the environment; a commit that
    raises leaves the committed rows as they were, and the objects it
    was to write stay pending for the next commit.  Queries and
    [db.refresh] read the committed rows and do not raise. *)

Module Db.

Record Database := {
  hydrophones : list Hydrophone.t;
  detections : list Detection.t;
  alerts : list Alert.t
}.

Record Session := {
  database : Database;
  commits : nat;
  history : list Database
}.

Definition max_id (ids : list (option Z)) : Z :=
  foldr (fun o m => match o with Some i => Z.max i m | None => m end) 0 ids.

Definition next_detection_id (db : Database) : Z :=
  1 + max_id (Detection.id <$> detections db).

Definition next_alert_id (db : Database) : Z :=
  1 + max_id (Alert.id <$> alerts db).

(** [db.query(Hydrophone).filter(Hydrophone.id == i).first()] *)
Definition hydrophone_row (i : Z) (db : Database) : option Hydrophone.t :=
  find (fun h => bool_decide (Hydrophone.id h = i)) (hydrophones db).

(** [db.query(Detection).filter(Detection.id == i).first()] *)
Definition detection_row (i : Z) (db : Database) : option Detection.t :=
  find (fun d => bool_decide (Detection.id d = Some i)) (detections db).

(** [db.query(Alert).filter(Alert.id == i).first()] *)
Definition alert_row (i : Z) (db : Database) : option Alert.t :=
  find (fun a => bool_decide (Alert.id a = Some i)) (alerts db).

(** [INSERT] and [UPDATE ... WHERE id = ...] on the two tables the
    pipeline writes. *)
Definition insert_detection (d : Detection.t) (db : Database) : Database :=
  {| hydrophones := hydrophones db;
     detections := detections db ++ [d];
     alerts := alerts db |}.

Definition update_detection (d : Detection.t) (db : Database) : Database :=
  {| hydrophones := hydrophones db;
     detections :=
       (fun r => if bool_decide (Detection.id r = Detection.id d)
                 then d else r) <$> detections db;
     alerts := alerts db |}.

Definition insert_alert (a : Alert.t) (db : Database) : Database :=
  {| hydrophones := hydrophones db;
     detections := detections db;
     alerts := alerts db ++ [a] |}.

Definition update_alert (a : Alert.t) (db : Database) : Database :=
  {| hydrophones := hydrophones db;
     detections := detections db;
     alerts :=
       (fun r => if bool_decide (Alert.id r = Alert.id a)
                 then a else r) <$> alerts db |}.

(** The database after flushing an object: a new object is inserted
    under a fresh key with its column defaults, a persistent one replaces
    its row. *)
Definition flush_detection (d : Detection.t) (now : Z) (db : Database)
  : Detection.t * Database :=
  match Detection.id d with
  | None =>
      let d' := Detection.with_row d (next_detection_id db) now in
      (d', insert_detection d' db)
  | Some _ => (d, update_detection d db)
  end.

Definition flush_alert (a : Alert.t) (now : Z) (db : Database)
  : Alert.t * Database :=
  match Alert.id a with
  | None =>
      let a' := Alert.with_row a (next_alert_id db) now in
      (a', insert_alert a' db)
  | Some _ => (a, update_alert a db)
  end.

(** [db.commit()] with the pending state [db'] of the session: either
    it raises and the committed rows stay as they were, or [db'] becomes
    the committed state. *)
Definition commit (commit_raises : nat -> bool) (s : Session)
    (db' : Database) : result unit * Session :=
  if commit_raises (commits s)
  then (Raise DatabaseError,
        {| database := database s;
           commits := S (commits s);
           history := history s |})
  else (Ok (),
        {| database := db';
           commits := S (commits s);
           history := history s ++ [db'] |}).

End Db.

(** ** The process: settings, collaborators and mutable state *)

Module Settings.
Record t := {
  MODEL_PATH : string;
  AUDIO_CHUNK_DURATION : Q;
  SAMPLE_RATE : Z;
  ALERT_WEBHOOK_URL : string;
  ENABLE_ALERTS : bool
}.
End Settings.

(** Everything outside the pipeline's control. *)
Record Env := {
  settings : Settings.t;
  librosa : AudioProcessor.Librosa;
  ml_model : EchoGuardModel.t;
  commit_raises : nat -> bool;                       (* the n-th [db.commit()] *)
  post_raises : string -> Websocket.Message -> bool; (* httpx post, raise_for_status *)
  transport : Websocket.Transport;
  write_raises : string -> bool;                     (* saving the upload *)
  format_2f : Q -> string                            (* f"{x:.2f}" *)
}.

Record World := {
  session : Db.Session;
  manager : Websocket.ConnectionManager;
  wire : Websocket.Wire;
  outbox : list (string * Websocket.Message);        (* accepted webhook posts *)
  files : list (string * list Byte.byte);
  clock : Z
}.

(** State and exceptions together. *)
Definition M (A : Type) : Type := World -> result A * World.

Definition ret {A} (a : A) : M A := fun w => (Ok a, w).
Definition raise {A} (e : exn) : M A := fun w => (Raise e, w).
Definition lift {A} (r : result A) : M A := fun w => (r, w).

Definition mbind' {A B} (m : M A) (k : A -> M B) : M B :=
  fun w =>
    match m w with
    | (Ok a, w') => k a w'
    | (Raise e, w') => (Raise e, w')
    end.

(** [try: body except Exception as e: handler(e)] *)
Definition try_except {A} (body : M A) (handler : exn -> M A) : M A :=
  fun w =>
    match body w with
    | (Ok a, w') => (Ok a, w')
    | (Raise e, w') => handler e w'
    end.

Declare Scope world_scope.
Delimit Scope world_scope with world.
Notation "'let!' x := m 'in' k" := (mbind' m (fun x => k))
  (at level 10, x name, m at level 100, k at level 200) : world_scope.
Notation "m ;;; k" := (mbind' m (fun _ => k))
  (at level 100, right associativity) : world_scope.
Local Open Scope world_scope.

Definition set_session (s : Db.Session) (w : World) : World :=
  {| session := s; manager := manager w; wire := wire w;
     outbox := outbox w; files := files w; clock := clock w |}.

(** [datetime.utcnow()]: the clock is read and moves on. *)
Definition utcnow : M Z :=
  fun w => (Ok (clock w),
            {| session := session w; manager := manager w; wire := wire w;
               outbox := outbox w; files := files w; clock := clock w + 1 |}).

Definition pending_database : M Db.Database :=
  fun w => (Ok (Db.database (session w)), w).

(** [db.commit()] of the pending state [db']. *)
Definition db_commit (E : Env) (db' : Db.Database) : M unit :=
  fun w =>
    let '(r, s) := Db.commit (commit_raises E) (session w) db' in
    (r, set_session s w).

(** [d.isoformat()] on an optional timestamp. *)
Definition isoformat (d : option Z) : result Z :=
  match d with
  | Some z => Ok z
  | None => Raise AttributeError
  end.

Definition json_opt_int (x : option Z) : json :=
  match x with
  | Some n => JInt n
  | None => JNull
  end.

(** ** backend/services/alert_service.py *)

Module AlertService.

Definition alert_message (E : Env) (detection : Detection.t) : string :=
  "Threat detected: " +:+ Detection.event_type detection
    +:+ " (confidence: " +:+ format_2f E (Detection.confidence detection) +:+ ")".

(** The JSON body of the webhook call. *)
Definition payload (detection : Detection.t) (alert : Alert.t) (timestamp : Z)
  : Websocket.Message :=
  [ ("detection_id", json_opt_int (Detection.id detection));
    ("event_type", JStr (Detection.event_type detection));
    ("confidence", JNum (Detection.confidence detection));
    ("timestamp", JInt timestamp);
    ("latitude", json_opt_num (Detection.latitude detection));
    ("longitude", json_opt_num (Detection.longitude detection));
    ("message", match Alert.message alert with
                | Some m => JStr m
                | None => JNull
                end) ].

(** [_send_webhook]: any failure of the post is logged and re-raised. *)
Definition _send_webhook (E : Env) (detection : Detection.t) (alert : Alert.t)
  : M unit :=
  let url := Settings.ALERT_WEBHOOK_URL (settings E) in
  if negb (str_truthy url) then ret ()
  else
    let! timestamp := lift (isoformat (Detection.timestamp detection)) in
    let payload := payload detection alert timestamp in
    if post_raises E url payload then raise TransportError
    else fun w =>
      (Ok (),
       {| session := session w; manager := manager w; wire := wire w;
          outbox := outbox w ++ [(url, payload)];
          files := files w; clock := clock w |}).

(** [db.commit()] with the in-memory [alert] pending; on success the
    object carries its row's key and defaults. *)
Definition commit_alert (E : Env) (alert : Alert.t) : M Alert.t :=
  let! now := utcnow in
  let! db := pending_database in
  let '(alert', db') := Db.flush_alert alert now db in
  db_commit E db' ;;;
  ret alert'.

(** The [except] branch: [alert] is always bound when it runs. *)
Definition on_error (E : Env) (alert : Alert.t) : M unit :=
  let alert := Alert.set_status alert "failed" in
  commit_alert E alert ;;;
  ret ().

Definition send_alert (E : Env) (detection : Detection.t) : M unit :=
  (* Create alert record *)
  let alert :=
    {| Alert.id := None;
       Alert.detection_id := Detection.id detection;
       Alert.alert_type := "webhook";
       Alert.status := "pending";
       Alert.sent_at := None;
       Alert.message := Some (alert_message E detection);
       Alert.created_at := None |} in
  fun w =>
    match commit_alert E alert w with
    | (Raise _, w1) => on_error E alert w1
    | (Ok alert, w1) =>
        (* Send webhook if configured *)
        match (if str_truthy (Settings.ALERT_WEBHOOK_URL (settings E))
               then _send_webhook E detection alert
               else ret ()) w1 with
        | (Raise _, w2) => on_error E alert w2
        | (Ok _, w2) =>
            (* Update alert status *)
            let alert := Alert.set_status alert "sent" in
            match commit_alert E alert w2 with
            | (Raise _, w3) => on_error E alert w3
            | (Ok _, w3) => (Ok (), w3)
            end
        end
    end.

End AlertService.

(** ** backend/utils/audio_utils.py *)

Module AudioUtils.

(** The server's file system as [validate_audio_file] sees it. *)
Record Fs := {
  path_exists : string -> bool;                (* os.path.exists *)
  load_path : string -> result (list Q)        (* librosa.load(path, sr=None, duration=1.0) *)
}.

Definition valid_extensions : list string :=
  [ ".wav"; ".mp3"; ".flac"; ".ogg"; ".m4a"; ".aac" ].

(** [validate_audio_file]: a verdict and, for a refusal, its reason. *)
Definition validate_audio_file (F : Fs) (file_path : string)
  : bool * option string :=
  (* Check file extension *)
  if negb (existsb (endswith (lower file_path)) valid_extensions)
  then (false,
        Some "Unsupported file format. Supported: ('.wav', '.mp3', '.flac', '.ogg', '.m4a', '.aac')")
  (* Check file exists *)
  else if negb (path_exists F file_path)
  then (false, Some "File does not exist")
  else
    (* Try to load audio *)
    match load_path F file_path with
    | Ok y =>
        if len y =? 0 then (false, Some "Audio file appears to be empty")
        else (true, None)
    | Raise e => (false, Some ("Invalid audio file: " +:+ str e))
    end.

End AudioUtils.

(** ** backend/routers/audio.py *)

Module Audio.

Record UploadFile := {
  filename : string;
  content : list Byte.byte
}.

Record Response := {
  r_detection_id : option Z;
  r_event_type : string;
  r_confidence : Q;
  r_is_threat : bool;
  r_class_probabilities : list (string * Q);
  r_timestamp : Z
}.

(** [audio_processor = AudioProcessor(sample_rate=..., duration=...)] *)
Definition audio_processor (E : Env) : AudioProcessor.t :=
  AudioProcessor.init (Settings.SAMPLE_RATE (settings E))
                      (Settings.AUDIO_CHUNK_DURATION (settings E)).

(** [os.makedirs(...)], [aiofiles.open(file_path, 'wb')], [f.write(...)] *)
Definition save_upload (E : Env) (file_path : string)
    (audio_bytes : list Byte.byte) : M unit :=
  fun w =>
    if write_raises E file_path then (Raise OSError, w)
    else (Ok (),
          {| session := session w; manager := manager w; wire := wire w;
             outbox := outbox w;
             files := files w ++ [(file_path, audio_bytes)];
             clock := clock w |}).

(** [db.add(detection); db.commit(); db.refresh(detection)] *)
Definition commit_detection (E : Env) (detection : Detection.t)
  : M Detection.t :=
  let! now := utcnow in
  let! db := pending_database in
  let '(detection', db') := Db.flush_detection detection now db in
  db_commit E db' ;;;
  ret detection'.

(** [manager.broadcast_detection] / [manager.broadcast_alert] on the
    process-wide manager. *)
Definition manager_broadcast (E : Env) (type : string)
    (data : Websocket.Message) : M unit :=
  let! now := utcnow in
  fun w =>
    let '(m, wi) :=
      Websocket.broadcast (transport E) (manager w)
        (Websocket.envelope type now data) (wire w) in
    (Ok (),
     {| session := session w; manager := m; wire := wi;
        outbox := outbox w; files := files w; clock := clock w |}).

(** The hydrophone lookup: a missing and a zero id are both falsy. *)
Definition get_hydrophone (hydrophone_id : option Z) (db : Db.Database)
  : result (option Hydrophone.t) :=
  match hydrophone_id with
  | None => Ok None
  | Some i =>
      if i =? 0 then Ok None
      else
        match Db.hydrophone_row i db with
        | Some h => Ok (Some h)
        | None => Raise (HTTPException 404 "Hydrophone not found")
        end
  end.

(** [os.path.join(upload_dir, f"{datetime.utcnow().timestamp()}_{file.filename}")] *)
Definition upload_path (now : Z) (name : string) : string :=
  "./uploads/" +:+ str_of_Z now +:+ "_" +:+ name.

(** The [Detection(...)] constructor call of [analyze_audio]. *)
Definition new_detection (hydrophone_id : option Z)
    (prediction : EchoGuardModel.Prediction) (file_path : string)
    (latitude longitude : option Q) (hydrophone : option Hydrophone.t)
  : Detection.t :=
  {| Detection.id := None;
     Detection.hydrophone_id := hydrophone_id;
     Detection.event_type := EchoGuardModel.event_type prediction;
     Detection.confidence := EchoGuardModel.confidence prediction;
     Detection.timestamp := None;
     Detection.audio_file_path := Some file_path;
     Detection.duration := None;
     Detection.frequency_range := None;
     Detection.metadata :=
       Some (EchoGuardModel.class_probabilities prediction);
     Detection.is_threat := EchoGuardModel.is_threat prediction;
     Detection.latitude :=
       or_else latitude
         (match hydrophone with
          | Some h => Hydrophone.latitude h
          | None => None
          end);
     Detection.longitude :=
       or_else longitude
         (match hydrophone with
          | Some h => Hydrophone.longitude h
          | None => None
          end);
     Detection.processed := false |}.

Definition supported_format (name : string) : bool :=
  existsb (endswith (lower name)) [ ".wav"; ".mp3"; ".flac"; ".ogg" ].

Definition analyze_audio (E : Env) (file : UploadFile)
    (hydrophone_id : option Z) (latitude longitude : option Q)
  : M Response :=
  try_except
    ((* Read audio file *)
     let audio_bytes := content file in
     (* Validate file type *)
     if negb (supported_format (filename file))
     then raise (HTTPException 400 "Unsupported audio format")
     else
       (* Save uploaded file *)
       let! now := utcnow in
       let file_path := upload_path now (filename file) in
       save_upload E file_path audio_bytes ;;;
       (* Process audio *)
       let! features :=
         lift (AudioProcessor.preprocess_audio
                 (librosa E) (audio_processor E) audio_bytes) in
       (* Run ML prediction *)
       let! prediction :=
         lift (EchoGuardModel.predict (ml_model E) (EchoGuardModel.Mat features)) in
       (* Get hydrophone if provided *)
       let! db := pending_database in
       let! hydrophone := lift (get_hydrophone hydrophone_id db) in
       (* Create detection record *)
       let detection :=
         new_detection hydrophone_id prediction file_path
           latitude longitude hydrophone in
       let! detection := commit_detection E detection in
       (* Send alert if threat detected *)
       (if EchoGuardModel.is_threat prediction
           && Settings.ENABLE_ALERTS (settings E)
        then AlertService.send_alert E detection
        else ret ()) ;;;
       (* Broadcast detection via WebSocket *)
       let! timestamp := lift (isoformat (Detection.timestamp detection)) in
       let detection_data :=
         [ ("detection_id", json_opt_int (Detection.id detection));
           ("event_type", JStr (EchoGuardModel.event_type prediction));
           ("confidence", JNum (EchoGuardModel.confidence prediction));
           ("is_threat", JBool (EchoGuardModel.is_threat prediction));
           ("timestamp", JInt timestamp);
           ("latitude", json_opt_num (Detection.latitude detection));
           ("longitude", json_opt_num (Detection.longitude detection)) ] in
       manager_broadcast E "new_detection" detection_data ;;;
       (* Broadcast alert if threat *)
       (if EchoGuardModel.is_threat prediction
        then manager_broadcast E "alert"
               [ ("detection_id", json_opt_int (Detection.id detection));
                 ("event_type", JStr (EchoGuardModel.event_type prediction));
                 ("confidence", JNum (EchoGuardModel.confidence prediction));
                 ("message",
                  JStr ("Threat detected: "
                          +:+ EchoGuardModel.event_type prediction)) ]
        else ret ()) ;;;
       let! timestamp := lift (isoformat (Detection.timestamp detection)) in
       ret {| r_detection_id := Detection.id detection;
              r_event_type := EchoGuardModel.event_type prediction;
              r_confidence := EchoGuardModel.confidence prediction;
              r_is_threat := EchoGuardModel.is_threat prediction;
              r_class_probabilities :=
                EchoGuardModel.class_probabilities prediction;
              r_timestamp := timestamp |})
    (fun e =>
       raise (HTTPException 500 ("Error processing audio: " +:+ str e))).

(** *** [analyze_audio_batch] *)

Record BatchResult := {
  b_file : string;
  b_detection_id : option Z;
  b_event_type : string;
  b_confidence : Q;
  b_is_threat : bool
}.

Record BatchError := {
  e_file : string;
  e_error : option string
}.

Record BatchResponse := {
  processed : Z;
  errors : Z;
  results : list BatchResult;
  error_details : list BatchError
}.

(** The [Detection(...)] constructor call of the batch loop: no
    position is passed. *)
Definition batch_detection (hydrophone_id : option Z)
    (prediction : EchoGuardModel.Prediction) (file_path : string)
  : Detection.t :=
  {| Detection.id := None;
     Detection.hydrophone_id := hydrophone_id;
     Detection.event_type := EchoGuardModel.event_type prediction;
     Detection.confidence := EchoGuardModel.confidence prediction;
     Detection.timestamp := None;
     Detection.audio_file_path := Some file_path;
     Detection.duration := None;
     Detection.frequency_range := None;
     Detection.metadata :=
       Some (EchoGuardModel.class_probabilities prediction);
     Detection.is_threat := EchoGuardModel.is_threat prediction;
     Detection.latitude := None;
     Detection.longitude := None;
     Detection.processed := false |}.

(** The loop body from reading the file to [db.refresh(detection)]. *)
Definition batch_process (E : Env) (hydrophone_id : option Z)
    (file : UploadFile) : M (Detection.t * EchoGuardModel.Prediction) :=
  (* Read file *)
  let audio_bytes := content file in
  (* Process *)
  let! features :=
    lift (AudioProcessor.preprocess_audio
            (librosa E) (audio_processor E) audio_bytes) in
  let! prediction :=
    lift (EchoGuardModel.predict (ml_model E) (EchoGuardModel.Mat features)) in
  (* Save file *)
  let! now := utcnow in
  let file_path := upload_path now (filename file) in
  save_upload E file_path audio_bytes ;;;
  (* Create detection *)
  let detection := batch_detection hydrophone_id prediction file_path in
  let! detection := commit_detection E detection in
  ret (detection, prediction).

(** One turn of the loop.  [results.append] comes before the alert, so
    an exception from [send_alert] adds the file to [errors] after it
    has been added to [results]. *)
Definition batch_item (E : Env) (F : AudioUtils.Fs) (hydrophone_id : option Z)
    (acc : list BatchResult * list BatchError) (file : UploadFile)
  : World -> (list BatchResult * list BatchError) * World :=
  fun w =>
    let '(results, errors) := acc in
    (* Validate file *)
    match AudioUtils.validate_audio_file F (filename file) with
    | (false, error_msg) =>
        ((results,
          errors ++ [{| e_file := filename file; e_error := error_msg |}]), w)
    | (true, _) =>
        match batch_process E hydrophone_id file w with
        | (Raise e, w1) =>
            ((results,
              errors ++ [{| e_file := filename file;
                            e_error := Some (str e) |}]), w1)
        | (Ok (detection, prediction), w1) =>
            let results :=
              results ++
              [{| b_file := filename file;
                  b_detection_id := Detection.id detection;
                  b_event_type := EchoGuardModel.event_type prediction;
                  b_confidence := EchoGuardModel.confidence prediction;
                  b_is_threat := EchoGuardModel.is_threat prediction |}] in
            (* Send alert if threat *)
            match (if EchoGuardModel.is_threat prediction
                      && Settings.ENABLE_ALERTS (settings E)
                   then AlertService.send_alert E detection
                   else ret ()) w1 with
            | (Raise e, w2) =>
                ((results,
                  errors ++ [{| e_file := filename file;
                                e_error := Some (str e) |}]), w2)
            | (Ok _, w2) => ((results, errors), w2)
            end
        end
    end.

Fixpoint batch_loop (E : Env) (F : AudioUtils.Fs) (hydrophone_id : option Z)
    (files : list UploadFile) (acc : list BatchResult * list BatchError)
  : World -> (list BatchResult * list BatchError) * World :=
  fun w =>
    match files with
    | [] => (acc, w)
    | file :: files' =>
        let '(acc', w') := batch_item E F hydrophone_id acc file w in
        batch_loop E F hydrophone_id files' acc' w'
    end.

Definition analyze_audio_batch (E : Env) (F : AudioUtils.Fs)
    (files : list UploadFile) (hydrophone_id : option Z)
  : World -> BatchResponse * World :=
  fun w =>
    let '((results, errors), w') :=
      batch_loop E F hydrophone_id files ([], []) w in
    ({| processed := len results;
        errors := len errors;
        results := results;
        error_details := errors |}, w').

End Audio.

(** ** backend/routers/notifications.py *)

Module Notifications.

Record AlertResponse := {
  id : Z;
  detection_id : Z;
  alert_type : string;
  status : string;
  message : option string;
  sent_at : option Z;
  created_at : Z
}.

(** A required integer field refuses [None]. *)
Definition required (x : option Z) : result Z :=
  match x with
  | Some z => Ok z
  | None => Raise (ValueError "validation error")
  end.

(** The [AlertResponse(...)] call: [created_at.isoformat()] is evaluated
    before the model is validated. *)
Definition alert_response (alert : Alert.t) : result AlertResponse :=
  let sent_at := Alert.sent_at alert in
  let* created_at := isoformat (Alert.created_at alert) in
  let* id := required (Alert.id alert) in
  let* detection_id := required (Alert.detection_id alert) in
  Ok {| id := id;
        detection_id := detection_id;
        alert_type := Alert.alert_type alert;
        status := Alert.status alert;
        message := Alert.message alert;
        sent_at := sent_at;
        created_at := created_at |}.

(** [get_alert] *)
Definition get_alert (alert_id : Z) : M AlertResponse :=
  let! db := pending_database in
  match Db.alert_row alert_id db with
  | None => raise (HTTPException 404 "Alert not found")
  | Some alert => lift (alert_response alert)
  end.

(** [resend_alert] *)
Definition resend_alert (E : Env) (detection_id : Z) : M string :=
  let! db := pending_database in
  match Db.detection_row detection_id db with
  | None => raise (HTTPException 404 "Detection not found")
  | Some detection =>
      if negb (Detection.is_threat detection)
      then raise (HTTPException 400 "Detection is not a threat")
      else
        try_except
          (AlertService.send_alert E detection ;;;
           ret "Alert resent successfully")
          (fun e =>
             raise (HTTPException 500 ("Error resending alert: " +:+ str e)))
  end.

End Notifications.

(** ** backend/routers/detections.py *)

Module Detections.

Record DetectionResponse := {
  id : Z;
  event_type : string;
  confidence : Q;
  timestamp : Z;
  is_threat : bool;
  latitude : option Q;
  longitude : option Q;
  hydrophone_id : option Z;
  hydrophone_name : option string
}.

(** [det.hydrophone]: the row the foreign key points to, if any. *)
Definition hydrophone_of (det : Detection.t) (db : Db.Database)
  : option Hydrophone.t :=
  match Detection.hydrophone_id det with
  | Some h => Db.hydrophone_row h db
  | None => None
  end.

(** [get_detection] *)
Definition get_detection (detection_id : Z) : M DetectionResponse :=
  let! db := pending_database in
  match Db.detection_row detection_id db with
  | None => raise (HTTPException 404 "Detection not found")
  | Some detection =>
      let hydrophone_name :=
        match hydrophone_of detection db with
        | Some h => Some (Hydrophone.name h)
        | None => None
        end in
      let! id := lift (Notifications.required (Detection.id detection)) in
      let! timestamp :=
        lift (Notifications.required (Detection.timestamp detection)) in
      ret {| id := id;
             event_type := Detection.event_type detection;
             confidence := Detection.confidence detection;
             timestamp := timestamp;
             is_threat := Detection.is_threat detection;
             latitude := Detection.latitude detection;
             longitude := Detection.longitude detection;
             hydrophone_id := Detection.hydrophone_id detection;
             hydrophone_name := hydrophone_name |}
  end.

End Detections.

(** ** A concrete process, for running the embedding *)

Module Examples.

(** Frame count of a hop-512, centred short-time transform. *)
Definition frames (y : list Q) : nat := S (length y / 512).

(** A librosa whose features are all zero but have the shapes of the
    real ones, and whose decoder reads one sample per byte. *)
Definition librosa0 : AudioProcessor.Librosa :=
  {| AudioProcessor.melspectrogram := fun y _ => replicate 128 (replicate (frames y) 0%Q);
     AudioProcessor.power_to_db := fun m => m;
     AudioProcessor.mfcc := fun y _ => replicate 13 (replicate (frames y) 0%Q);
     AudioProcessor.spectral_centroid := fun y _ => [replicate (frames y) 0%Q];
     AudioProcessor.spectral_rolloff := fun y _ => [replicate (frames y) 0%Q];
     AudioProcessor.zero_crossing_rate := fun y => [replicate (frames y) 0%Q];
     AudioProcessor.load := fun b _ _ =>
       Ok ((fun x => inject_Z (Z.of_N (Byte.to_N x))) <$> b) |}.

Definition processor0 : AudioProcessor.t := AudioProcessor.init 22050 5.

(** A scorer with a tie between vessel and blast_fishing. *)
Definition tied_scores : list Q := [ 1 # 10; 2 # 5; 4 # 10; 1 # 20; 1 # 20 ].

Definition model0 : EchoGuardModel.t :=
  {| EchoGuardModel.model_path := "./models/echoguard_model.h5";
     EchoGuardModel.model := Some (fun batch => (fun _ => tied_scores) <$> batch) |}.

(** A scorer that hears ambient noise. *)
Definition model_ambient : EchoGuardModel.t :=
  {| EchoGuardModel.model_path := "./models/echoguard_model.h5";
     EchoGuardModel.model :=
       Some (fun batch => (fun _ => [ 0; 0; 0; 0; 1 ]%Q) <$> batch) |}.

(** A transport on which exactly the sends to websocket 2 raise. *)
Definition transport_2_down : Websocket.Transport :=
  {| Websocket.accept_raises := fun _ => false;
     Websocket.send_json_raises := fun c _ => bool_decide (c = 2%nat) |}.

(** A transport on which nothing raises. *)
Definition transport_up : Websocket.Transport :=
  {| Websocket.accept_raises := fun _ => false;
     Websocket.send_json_raises := fun _ _ => false |}.

Definition meta (name : string) : Websocket.Metadata :=
  {| Websocket.client_id := name; Websocket.connected_at := 0 |}.

(** Three registered subscribers. *)
Definition manager3 : Websocket.ConnectionManager :=
  {| Websocket.active_connections := [1; 2; 3]%nat;
     Websocket.connection_metadata :=
       <[ 1%nat := meta "client_1" ]>
         (<[ 2%nat := meta "client_2" ]>
            (<[ 3%nat := meta "client_3" ]> ∅)) |}.

Definition hello : Websocket.Message := [ ("type", JStr "new_detection") ].

(** Two clients connect, the first leaves, a third connects. *)
Definition churn : list Websocket.op :=
  [ Websocket.Connect 1%nat None;
    Websocket.Connect 2%nat None;
    Websocket.Disconnect 1%nat;
    Websocket.Connect 3%nat None ].

Definition settings0 : Settings.t :=
  {| Settings.MODEL_PATH := "./models/echoguard_model.h5";
     Settings.AUDIO_CHUNK_DURATION := 5;
     Settings.SAMPLE_RATE := 22050;
     Settings.ALERT_WEBHOOK_URL := "https://hooks.example/alert";
     Settings.ENABLE_ALERTS := true |}.

(** Everything works, except the sends to websocket 2. *)
Definition env0 : Env :=
  {| settings := settings0;
     librosa := librosa0;
     ml_model := model0;
     commit_raises := fun _ => false;
     post_raises := fun _ _ => false;
     transport := transport_2_down;
     write_raises := fun _ => false;
     format_2f := fun _ => "0.40" |}.

(** The same process with the webhook endpoint down. *)
Definition env_webhook_down : Env :=
  {| settings := settings0;
     librosa := librosa0;
     ml_model := model0;
     commit_raises := fun _ => false;
     post_raises := fun _ _ => true;
     transport := transport_2_down;
     write_raises := fun _ => false;
     format_2f := fun _ => "0.40" |}.

(** The webhook endpoint is down and the database stops accepting
    commits after the second one. *)
Definition env_database_lost : Env :=
  {| settings := settings0;
     librosa := librosa0;
     ml_model := model0;
     commit_raises := fun n => bool_decide (2 <= n)%nat;
     post_raises := fun _ _ => true;
     transport := transport_2_down;
     write_raises := fun _ => false;
     format_2f := fun _ => "0.40" |}.

Definition hydrophone7 : Hydrophone.t :=
  {| Hydrophone.id := 7;
     Hydrophone.name := "reef-7";
     Hydrophone.latitude := Some 10%Q;
     Hydrophone.longitude := Some 20%Q;
     Hydrophone.depth := Some 35%Q;
     Hydrophone.status := "active";
     Hydrophone.created_at := 0 |}.

Definition world0 : World :=
  {| session :=
       {| Db.database :=
            {| Db.hydrophones := [hydrophone7];
               Db.detections := [];
               Db.alerts := [] |};
          Db.commits := 0;
          Db.history := [] |};
     manager := manager3;
     wire := [];
     outbox := [];
     files := [];
     clock := 1000 |}.

(** A persisted vessel detection. *)
Definition detection1 : Detection.t :=
  {| Detection.id := Some 1;
     Detection.hydrophone_id := Some 7;
     Detection.event_type := "vessel";
     Detection.confidence := (2 # 5)%Q;
     Detection.timestamp := Some 999;
     Detection.audio_file_path := Some "./uploads/998_clip.wav";
     Detection.duration := None;
     Detection.frequency_range := None;
     Detection.metadata := None;
     Detection.is_threat := true;
     Detection.latitude := Some 10%Q;
     Detection.longitude := Some 20%Q;
     Detection.processed := false |}.

Definition clip : Audio.UploadFile :=
  {| Audio.filename := "Clip.WAV";
     Audio.content := [Byte.x01; Byte.x02; Byte.x03] |}.

(** What the zero-feature librosa and the tied scorer make of [clip]. *)
Definition features0 : list (list Q) := [replicate (Z.to_nat 12528) 0%Q].

Definition prediction_vessel : EchoGuardModel.Prediction :=
  {| EchoGuardModel.event_type := "vessel";
     EchoGuardModel.confidence := (2 # 5)%Q;
     EchoGuardModel.is_threat := true;
     EchoGuardModel.class_probabilities :=
       [ ("marine_life", 1 # 10); ("vessel", 2 # 5);
         ("blast_fishing", 4 # 10); ("seismic", 1 # 20);
         ("ambient", 1 # 20) ]%Q |}.

End Examples.

(** More concrete processes. *)

Module Examples2.

Definition settings_alerts_off : Settings.t :=
  {| Settings.MODEL_PATH := "./models/echoguard_model.h5";
     Settings.AUDIO_CHUNK_DURATION := 5;
     Settings.SAMPLE_RATE := 22050;
     Settings.ALERT_WEBHOOK_URL := "https://hooks.example/alert";
     Settings.ENABLE_ALERTS := false |}.

(** Alerts are switched off; the scorer still says vessel. *)
Definition env_alerts_off : Env :=
  {| settings := settings_alerts_off;
     librosa := Examples.librosa0;
     ml_model := Examples.model0;
     commit_raises := fun _ => false;
     post_raises := fun _ _ => false;
     transport := Examples.transport_2_down;
     write_raises := fun _ => false;
     format_2f := fun _ => "0.40" |}.

(** The scorer hears ambient noise. *)
Definition env_ambient : Env :=
  {| settings := Examples.settings0;
     librosa := Examples.librosa0;
     ml_model := Examples.model_ambient;
     commit_raises := fun _ => false;
     post_raises := fun _ _ => false;
     transport := Examples.transport_2_down;
     write_raises := fun _ => false;
     format_2f := fun _ => "1.00" |}.

Definition prediction_ambient : EchoGuardModel.Prediction :=
  {| EchoGuardModel.event_type := "ambient";
     EchoGuardModel.confidence := 1%Q;
     EchoGuardModel.is_threat := false;
     EchoGuardModel.class_probabilities :=
       [ ("marine_life", 0); ("vessel", 0); ("blast_fishing", 0);
         ("seismic", 0); ("ambient", 1) ]%Q |}.

(** A server disk that holds no file named like the uploads. *)
Definition fs_empty : AudioUtils.Fs :=
  {| AudioUtils.path_exists := fun _ => false;
     AudioUtils.load_path := fun _ => Raise OSError |}.

(** A server disk on which every name exists and decodes to one sample. *)
Definition fs_full : AudioUtils.Fs :=
  {| AudioUtils.path_exists := fun _ => true;
     AudioUtils.load_path := fun _ => Ok [1%Q] |}.

Definition clip2 : Audio.UploadFile :=
  {| Audio.filename := "second.flac";
     Audio.content := [Byte.x04; Byte.x05] |}.

Definition notes : Audio.UploadFile :=
  {| Audio.filename := "notes.txt";
     Audio.content := [Byte.x06] |}.

End Examples2.

(** ** Vocabulary of the statements *)

(** Position [k] holds the value [m], no value of [a] exceeds [m], and
    every value before position [k] is strictly below [m]. *)
Definition first_max (a : list Q) (k : nat) (m : Q) : Prop :=
  a !! k = Some m
  /\ (forall j x, a !! j = Some x -> (x <= m)%Q)
  /\ (forall j x, (j < k)%nat -> a !! j = Some x -> (x < m)%Q).

(** The successive statuses of alert [i] along a list of committed
    database states; states in which the row does not exist are skipped. *)
Definition status_trace (i : Z) (dbs : list Db.Database) : list string :=
  omap (fun db => Alert.status <$> Db.alert_row i db) dbs.

(** The changes of value along a list of statuses. *)
Fixpoint transitions (h : list string) : list (string * string) :=
  match h with
  | a :: t =>
      match t with
      | b :: _ => if String.eqb a b then transitions t else (a, b) :: transitions t
      | [] => []
      end
  | [] => []
  end.

(** The registry is consistent: no websocket is listed twice, and the
    listed websockets are exactly those that have metadata. *)
Definition consistent (self : Websocket.ConnectionManager) : Prop :=
  NoDup (Websocket.active_connections self)
  /\ forall c, c ∈ Websocket.active_connections self
               <-> is_Some (Websocket.connection_metadata self !! c).

(** The payloads of the two events [analyze_audio] broadcasts. *)
Definition detection_data (prediction : EchoGuardModel.Prediction)
    (detection : Detection.t) (timestamp : Z) : Websocket.Message :=
  [ ("detection_id", json_opt_int (Detection.id detection));
    ("event_type", JStr (EchoGuardModel.event_type prediction));
    ("confidence", JNum (EchoGuardModel.confidence prediction));
    ("is_threat", JBool (EchoGuardModel.is_threat prediction));
    ("timestamp", JInt timestamp);
    ("latitude", json_opt_num (Detection.latitude detection));
    ("longitude", json_opt_num (Detection.longitude detection)) ].

Definition alert_data (prediction : EchoGuardModel.Prediction)
    (detection : Detection.t) : Websocket.Message :=
  [ ("detection_id", json_opt_int (Detection.id detection));
    ("event_type", JStr (EchoGuardModel.event_type prediction));
    ("confidence", JNum (EchoGuardModel.confidence prediction));
    ("message",
     JStr ("Threat detected: " +:+ EchoGuardModel.event_type prediction)) ].

(** The part of [Audio.analyze_audio] that follows
    [db.refresh(detection)], as a function of the prediction and of the
    refreshed detection. *)
Definition analyze_tail (E : Env) (prediction : EchoGuardModel.Prediction)
    (detection : Detection.t) : M Audio.Response :=
  ((if EchoGuardModel.is_threat prediction
       && Settings.ENABLE_ALERTS (settings E)
    then AlertService.send_alert E detection
    else ret ()) ;;;
   let! timestamp := lift (isoformat (Detection.timestamp detection)) in
   Audio.manager_broadcast E "new_detection"
     (detection_data prediction detection timestamp) ;;;
   (if EchoGuardModel.is_threat prediction
    then Audio.manager_broadcast E "alert" (alert_data prediction detection)
    else ret ()) ;;;
   let! timestamp := lift (isoformat (Detection.timestamp detection)) in
   ret {| Audio.r_detection_id := Detection.id detection;
          Audio.r_event_type := EchoGuardModel.event_type prediction;
          Audio.r_confidence := EchoGuardModel.confidence prediction;
          Audio.r_is_threat := EchoGuardModel.is_threat prediction;
          Audio.r_class_probabilities :=
            EchoGuardModel.class_probabilities prediction;
          Audio.r_timestamp := timestamp |})%world.

(** The [except] branch of [Audio.analyze_audio]. *)
Definition analyze_handler (e : exn) : M Audio.Response :=
  raise (HTTPException 500 ("Error processing audio: " +:+ str e)).

(** The world right after the detection has been committed: the upload
    is on disk, the clock has been read twice. *)
Definition committed_world (w : World) (file : Audio.UploadFile)
    (detection : Detection.t) : World :=
  {| session :=
       {| Db.database :=
            Db.insert_detection detection (Db.database (session w));
          Db.commits := S (Db.commits (session w));
          Db.history :=
            Db.history (session w)
              ++ [Db.insert_detection detection (Db.database (session w))] |};
     manager := manager w;
     wire := wire w;
     outbox := outbox w;
     files := files w ++ [(Audio.upload_path (clock w) (Audio.filename file),
                           Audio.content file)];
     clock := clock w + 1 + 1 |}.

(** The deliveries of one broadcast of [message] on registry [m]. *)
Definition deliveries (T : Websocket.Transport) (m : Websocket.ConnectionManager)
    (message : Websocket.Message) : Websocket.Wire :=
  (fun c => (c, message))
    <$> filter (fun c => Websocket.send_json_raises T c message = false)
          (Websocket.active_connections m).

(** * Verification *)

(** ** Python helpers *)

Section PyFacts.

Context {A : Type}.

Lemma len_nonneg (l : list A) : 0 <= len l.
Proof. unfold len. lia. Qed.

Lemma len_app (l k : list A) : len (l ++ k) = len l + len k.
Proof. unfold len. rewrite length_app. lia. Qed.

Lemma slice_to_take (n : Z) (l : list A) :
  0 <= n -> slice_to n l = take (Z.to_nat n) l.
Proof.
  intros Hn. unfold slice_to.
  destruct (Z.leb_spec 0 n); [reflexivity | lia].
Qed.

Lemma len_slice_to (n : Z) (l : list A) :
  0 <= n -> len (slice_to n l) = Z.min n (len l).
Proof.
  intros Hn. rewrite slice_to_take by assumption.
  unfold len. rewrite length_take. lia.
Qed.

End PyFacts.

Lemma len_np_zeros (n : Z) : 0 <= n -> len (np_zeros n) = n.
Proof.
  intros Hn. unfold len, np_zeros. rewrite length_replicate. lia.
Qed.

Lemma bind_Ok {A B} (m : result A) (k : A -> result B) (b : B) :
  Py.bind m k = Ok b -> exists a, m = Ok a /\ k a = Ok b.
Proof.
  destruct m as [a | e]; simpl; [eauto | discriminate].
Qed.

(** ** Feature extraction *)

Section AudioProcessorFacts.

Import AudioProcessor.

Variable L : Librosa.
Variable self : AudioProcessor.t.

Lemma target_size_value : target_size = 12528.
Proof. reflexivity. Qed.

Lemma len_pad_or_trim (v : list Q) : len (pad_or_trim v) = target_size.
Proof.
  unfold pad_or_trim.
  pose proof (len_nonneg v) as Hv.
  destruct (Z.ltb_spec (len v) target_size) as [Hlt | Hge].
  - unfold np_pad_right. rewrite len_app, len_np_zeros; lia.
  - rewrite len_slice_to by (rewrite target_size_value; lia). lia.
Qed.

(** Short concatenations get zeros on the right. *)
Lemma pad_or_trim_short (v : list Q) :
  len v <= target_size ->
  pad_or_trim v = v ++ replicate (Z.to_nat (target_size - len v)) 0%Q.
Proof.
  intros Hle. unfold pad_or_trim.
  destruct (Z.ltb_spec (len v) target_size) as [Hlt | Hge].
  - reflexivity.
  - assert (len v = target_size) as Heq by lia.
    rewrite slice_to_take by (rewrite target_size_value; lia).
    rewrite Heq, Z.sub_diag. simpl.
    rewrite app_nil_r. apply take_ge. unfold len in Heq. lia.
Qed.

(** Long concatenations lose their tail. *)
Lemma pad_or_trim_long (v : list Q) :
  target_size <= len v ->
  pad_or_trim v = take (Z.to_nat target_size) v.
Proof.
  intros Hge. unfold pad_or_trim.
  destruct (Z.ltb_spec (len v) target_size) as [Hlt | _]; [lia |].
  apply slice_to_take. rewrite target_size_value. lia.
Qed.

Lemma extract_features_shape (audio : list Q) (out : list (list Q)) :
  extract_features L self audio = Ok out ->
  exists comb, combined_features L self audio = Ok comb
               /\ out = [pad_or_trim comb].
Proof.
  unfold extract_features. intros H.
  apply bind_Ok in H as (comb & Hcomb & Hout).
  exists comb. split; [assumption |].
  unfold reshape_row in Hout. congruence.
Qed.

(** The concatenation exists as soon as the three per-frame series
    have a row to take. *)
Lemma combined_features_ok (audio : list Q) (c r z : list Q) :
  index (spectral_centroid L audio (sample_rate self)) 0 = Ok c ->
  index (spectral_rolloff L audio (sample_rate self)) 0 = Ok r ->
  index (zero_crossing_rate L audio) 0 = Ok z ->
  exists comb, combined_features L self audio = Ok comb.
Proof.
  intros Hc Hr Hz. unfold combined_features.
  rewrite Hc, Hr, Hz. simpl. eauto.
Qed.

End AudioProcessorFacts.

(** C2: for every waveform of length between 0 and ten times the target
    length, feature extraction returns one row of exactly
    128*87 + 13*87 + 3*87 = 12528 values: a shorter concatenation of the
    sub-features is zero-padded on the right, a longer one is truncated. *)
Theorem extract_features_fixed_length
    (L : AudioProcessor.Librosa) (self : AudioProcessor.t)
    (audio comb : list Q) :
  0 <= len audio <= 10 * AudioProcessor.target_length self ->
  AudioProcessor.combined_features L self audio = Ok comb ->
  exists v,
    AudioProcessor.extract_features L self audio = Ok [v]
    /\ len v = 12528
    /\ 12528 = 128 * 87 + 13 * 87 + 3 * 87
    /\ (len comb <= 12528 ->
        v = comb ++ replicate (Z.to_nat (12528 - len comb)) 0%Q)
    /\ (12528 <= len comb -> v = take (Z.to_nat 12528) comb).
Proof.
  intros _ Hcomb.
  exists (AudioProcessor.pad_or_trim comb). repeat split.
  - unfold AudioProcessor.extract_features. rewrite Hcomb. reflexivity.
  - apply len_pad_or_trim.
  - intros Hle. apply pad_or_trim_short. rewrite target_size_value. exact Hle.
  - intros Hge. apply pad_or_trim_long. rewrite target_size_value. exact Hge.
Qed.

Lemma extract_features_fixed_length_witness :
  exists v,
    AudioProcessor.extract_features
      Examples.librosa0 Examples.processor0 [1; 2; 3]%Q = Ok [v]
    /\ len v = 12528
    /\ 12528 = 128 * 87 + 13 * 87 + 3 * 87
    /\ (len (replicate 144 0%Q) <= 12528 ->
        v = replicate 144 0%Q
              ++ replicate (Z.to_nat (12528 - len (replicate 144 0%Q))) 0%Q)
    /\ (12528 <= len (replicate 144 0%Q) ->
        v = take (Z.to_nat 12528) (replicate 144 0%Q)).
Proof.
  apply (extract_features_fixed_length
           Examples.librosa0 Examples.processor0 [1; 2; 3]%Q
           (replicate 144 0%Q)).
  - vm_compute. split; discriminate.
  - vm_compute. reflexivity.
Defined.

(** ** The classifier's length normalisation *)

Section EnsureLengthFacts.

Import EchoGuardModel.

Lemma ensure_length_exact (v : list Q) : len v = 12000 -> ensure_length v = v.
Proof.
  intros Hlen. unfold ensure_length.
  rewrite Hlen. reflexivity.
Qed.

Lemma ensure_length_long (v : list Q) :
  12000 < len v -> ensure_length v = take (Z.to_nat 12000) v.
Proof.
  intros Hlen. unfold ensure_length.
  destruct (Z.eqb_spec (len v) 12000) as [Heq | Hne]; [lia |].
  destruct (Z.ltb_spec (len v) 12000) as [Hlt | Hge]; [lia |].
  simpl. apply slice_to_take. lia.
Qed.

Lemma ensure_length_short (v : list Q) :
  len v < 12000 ->
  ensure_length v = v ++ replicate (Z.to_nat (12000 - len v)) 0%Q.
Proof.
  intros Hlen. unfold ensure_length.
  destruct (Z.eqb_spec (len v) 12000) as [Heq | Hne]; [lia |].
  destruct (Z.ltb_spec (len v) 12000) as [Hlt | Hge]; [| lia].
  reflexivity.
Qed.

Lemma len_ensure_length (v : list Q) : len (ensure_length v) = 12000.
Proof.
  pose proof (len_nonneg v) as Hv.
  destruct (Z.lt_trichotomy (len v) 12000) as [Hlt | [Heq | Hgt]].
  - rewrite ensure_length_short by assumption.
    rewrite len_app. unfold len at 2. rewrite length_replicate. lia.
  - rewrite ensure_length_exact; assumption.
  - rewrite ensure_length_long by assumption.
    unfold len in *. rewrite length_take. lia.
Qed.

End EnsureLengthFacts.

(** C8: on a feature vector that already has the expected input length
    12000, the classifier's pad-or-truncate step is the identity. *)
Theorem ensure_length_identity (v : list Q) :
  len v = 12000 ->
  EchoGuardModel.ensure_length
    (EchoGuardModel.ensure_flat (EchoGuardModel.Vec v)) = v.
Proof.
  intros Hlen. simpl. apply ensure_length_exact. exact Hlen.
Qed.

Lemma ensure_length_identity_witness :
  EchoGuardModel.ensure_length
    (EchoGuardModel.ensure_flat
       (EchoGuardModel.Vec (replicate (Z.to_nat 12000) (1 # 2)%Q)))
  = replicate (Z.to_nat 12000) (1 # 2)%Q.
Proof.
  apply (ensure_length_identity (replicate (Z.to_nat 12000) (1 # 2)%Q)).
  vm_compute. reflexivity.
Defined.

(** C9: whatever the waveform, the extractor's row has 12528 values,
    which is more than the 12000 the classifier expects; so the
    classifier always truncates it, dropping the last 528 values, and
    never pads it or leaves it as it is. *)
Theorem extractor_output_always_truncated
    (L : AudioProcessor.Librosa) (self : AudioProcessor.t)
    (audio : list Q) (out : list (list Q)) :
  AudioProcessor.extract_features L self audio = Ok out ->
  let flat := EchoGuardModel.ensure_flat (EchoGuardModel.Mat out) in
  len flat = 12528
  /\ 12000 < len flat
  /\ EchoGuardModel.ensure_length flat = take (Z.to_nat 12000) flat
  /\ flat = EchoGuardModel.ensure_length flat ++ drop (Z.to_nat 12000) flat
  /\ len (drop (Z.to_nat 12000) flat) = 528
  /\ EchoGuardModel.ensure_length flat <> flat
  /\ (forall k, EchoGuardModel.ensure_length flat <> flat ++ np_zeros k).
Proof.
  intros Hout.
  apply extract_features_shape in Hout as (comb & _ & ->).
  simpl. unfold flatten. simpl. rewrite app_nil_r.
  pose proof (len_pad_or_trim comb) as Hlen.
  rewrite target_size_value in Hlen.
  set (flat := AudioProcessor.pad_or_trim comb) in *.
  assert (EchoGuardModel.ensure_length flat = take (Z.to_nat 12000) flat) as Htr
    by (apply ensure_length_long; lia).
  assert (len (EchoGuardModel.ensure_length flat) = 12000) as Hlen'
    by apply len_ensure_length.
  repeat split.
  - exact Hlen.
  - lia.
  - exact Htr.
  - rewrite Htr. symmetry. apply take_drop.
  - unfold len in *. rewrite length_drop. lia.
  - intros Heq. rewrite Heq in Hlen'. lia.
  - intros k Heq. rewrite Heq, len_app in Hlen'.
    pose proof (len_nonneg (np_zeros k)). lia.
Qed.

Lemma extractor_output_always_truncated_witness :
  let flat :=
    EchoGuardModel.ensure_flat
      (EchoGuardModel.Mat
         [AudioProcessor.pad_or_trim (replicate 144 0%Q)]) in
  len flat = 12528
  /\ 12000 < len flat
  /\ EchoGuardModel.ensure_length flat = take (Z.to_nat 12000) flat
  /\ flat = EchoGuardModel.ensure_length flat ++ drop (Z.to_nat 12000) flat
  /\ len (drop (Z.to_nat 12000) flat) = 528
  /\ EchoGuardModel.ensure_length flat <> flat
  /\ (forall k, EchoGuardModel.ensure_length flat <> flat ++ np_zeros k).
Proof.
  apply (extractor_output_always_truncated
           Examples.librosa0 Examples.processor0 [1; 2; 3]%Q).
  vm_compute. reflexivity.
Defined.

(** ** Selecting the label *)

Section ArgmaxFacts.

Import EchoGuardModel.

Lemma first_max_snoc_keep (pre : list Q) (k : nat) (mp x : Q) :
  first_max pre k mp -> (x <= mp)%Q -> first_max (pre ++ [x]) k mp.
Proof.
  intros (Hk & Hmax & Hbefore) Hx. repeat split.
  - apply lookup_app_l_Some. exact Hk.
  - intros j y Hj. apply lookup_app_Some in Hj as [Hj | [_ Hj]].
    + eapply Hmax; eassumption.
    + apply list_lookup_singleton_Some in Hj as [_ <-]. exact Hx.
  - intros j y Hjk Hj.
    apply lookup_lt_Some in Hk.
    rewrite lookup_app_l in Hj by lia.
    eapply Hbefore; eassumption.
Qed.

Lemma first_max_snoc_move (pre : list Q) (k : nat) (mp x : Q) :
  first_max pre k mp -> (mp < x)%Q -> first_max (pre ++ [x]) (length pre) x.
Proof.
  intros (Hk & Hmax & Hbefore) Hx. repeat split.
  - rewrite lookup_app_r by lia. rewrite Nat.sub_diag. reflexivity.
  - intros j y Hj. apply lookup_app_Some in Hj as [Hj | [_ Hj]].
    + apply Qlt_le_weak. eapply Qle_lt_trans; [eapply Hmax; eassumption | exact Hx].
    + apply list_lookup_singleton_Some in Hj as [_ <-]. apply Qle_refl.
  - intros j y Hjk Hj.
    rewrite lookup_app_l in Hj by lia.
    eapply Qle_lt_trans; [eapply Hmax; eassumption | exact Hx].
Qed.

Lemma argmax_scan_first_max (rest : list Q) :
  forall (pre : list Q) (mp : Q) (k : nat),
    first_max pre k mp ->
    exists m, first_max (pre ++ rest) (argmax_scan mp k (length pre) rest) m.
Proof.
  induction rest as [| x rest IH]; intros pre mp k Hfm.
  - simpl. rewrite app_nil_r. eauto.
  - simpl.
    replace (pre ++ x :: rest) with ((pre ++ [x]) ++ rest)
      by (rewrite <- app_assoc; reflexivity).
    replace (S (length pre)) with (length (pre ++ [x]))
      by (rewrite length_app; simpl; lia).
    destruct (Qle_bool x mp) eqn:Hle; simpl.
    + apply IH. apply first_max_snoc_keep; [exact Hfm |].
      apply Qle_bool_iff. exact Hle.
    + apply IH. eapply first_max_snoc_move; [exact Hfm |].
      apply Qnot_le_lt. intros Hc. apply Qle_bool_iff in Hc. congruence.
Qed.

Lemma np_argmax_first_max (a : list Q) (k : nat) :
  np_argmax a = Ok k -> exists m, first_max a k m.
Proof.
  destruct a as [| x rest]; simpl; [discriminate |].
  intros [= <-].
  apply (argmax_scan_first_max rest [x] x 0%nat).
  repeat split.
  - intros j y Hj. apply list_lookup_singleton_Some in Hj as [_ <-]. apply Qle_refl.
  - intros j y Hj. lia.
Qed.

Lemma np_argmax_nonempty (a : list Q) :
  a <> [] -> exists k, np_argmax a = Ok k.
Proof.
  destruct a as [| x rest]; [congruence |]. simpl. eauto.
Qed.

(** Among equal maxima the first one is selected. *)
Lemma first_max_lowest (a : list Q) (k j : nat) (m p : Q) :
  first_max a k m -> a !! j = Some p -> (p == m)%Q -> (k <= j)%nat.
Proof.
  intros (_ & _ & Hbefore) Hj Heq.
  destruct (Nat.le_gt_cases k j) as [Hle | Hlt]; [exact Hle |].
  specialize (Hbefore j p Hlt Hj).
  rewrite Heq in Hbefore. exfalso. eapply Qlt_irrefl. exact Hbefore.
Qed.

Lemma class_probs_five (a b c d e : Q) :
  class_probs [a; b; c; d; e]
  = Ok [ ("marine_life", a); ("vessel", b); ("blast_fishing", c);
         ("seismic", d); ("ambient", e) ].
Proof. reflexivity. Qed.

Lemma index_Ok {A} (l : list A) (i : nat) (x : A) :
  index l i = Ok x <-> l !! i = Some x.
Proof.
  unfold index. destruct (l !! i); split; congruence.
Qed.

(** What a successful [predict] went through. *)
Lemma predict_Ok (self : t) (features : ndarray) (r : Prediction) :
  predict self features = Ok r ->
  exists m row idx probs,
    model self = Some m
    /\ index (m (reshape_row (ensure_length (ensure_flat features)))) 0 = Ok row
    /\ np_argmax row = Ok idx
    /\ row !! idx = Some (confidence r)
    /\ CLASSES !! idx = Some (event_type r)
    /\ class_probs row = Ok probs
    /\ class_probabilities r = probs
    /\ is_threat r = bool_decide (event_type r ∈ THREAT_CLASSES).
Proof.
  unfold predict. destruct (model self) as [m |]; [| discriminate].
  intros H.
  apply bind_Ok in H as (row & Hrow & H).
  apply bind_Ok in H as (idx & Hidx & H).
  apply bind_Ok in H as (conf & Hconf & H).
  apply bind_Ok in H as (name & Hname & H).
  apply bind_Ok in H as (probs & Hprobs & H).
  injection H as <-. simpl.
  exists m, row, idx, probs.
  apply index_Ok in Hconf. apply index_Ok in Hname. tauto.
Qed.

End ArgmaxFacts.

(** C7: whenever [predict] returns, the label it returns sits at the
    lowest index among the labels whose probability is numerically
    maximal, in the order marine_life, vessel, blast_fishing, seismic,
    ambient, and the confidence is that maximal probability; and it does
    return on every five-way score row. *)
Theorem predict_tie_break
    (self : EchoGuardModel.t) (features : EchoGuardModel.ndarray)
    (m : EchoGuardModel.keras_model) (row : list Q) :
  EchoGuardModel.model self = Some m ->
  index (m (reshape_row
              (EchoGuardModel.ensure_length
                 (EchoGuardModel.ensure_flat features)))) 0 = Ok row ->
  (length row = 5%nat ->
   exists r, EchoGuardModel.predict self features = Ok r)
  /\ (forall r,
        EchoGuardModel.predict self features = Ok r ->
        exists idx,
          EchoGuardModel.CLASSES !! idx = Some (EchoGuardModel.event_type r)
          /\ row !! idx = Some (EchoGuardModel.confidence r)
          /\ (forall j p, row !! j = Some p ->
                          (p <= EchoGuardModel.confidence r)%Q)
          /\ (forall j p, row !! j = Some p ->
                          (p == EchoGuardModel.confidence r)%Q ->
                          (idx <= j)%nat)).
Proof.
  intros Hm Hrow. split.
  - intros Hlen.
    destruct row as [| a [| b [| c [| d [| e [| ? ?]]]]]]; try discriminate.
    destruct (np_argmax_nonempty [a; b; c; d; e]) as [k Hk]; [discriminate |].
    destruct (np_argmax_first_max _ _ Hk) as (mx & Hmx & _).
    assert (k < 5)%nat as Hlt by (apply lookup_lt_Some in Hmx; simpl in Hmx; lia).
    assert (exists name, EchoGuardModel.CLASSES !! k = Some name) as [name Hname].
    { apply lookup_lt_is_Some. simpl. lia. }
    unfold EchoGuardModel.predict. rewrite Hm, Hrow. cbn [Py.bind].
    rewrite Hk. cbn [Py.bind].
    apply index_Ok in Hmx. rewrite Hmx. cbn [Py.bind].
    apply index_Ok in Hname. rewrite Hname. cbn [Py.bind].
    rewrite class_probs_five. cbn [Py.bind]. eauto.
  - intros r Hr.
    apply predict_Ok in Hr
      as (m' & row' & idx & probs & Hm' & Hrow' & Hidx & Hconf & Hname & _).
    assert (row' = row) as -> by congruence.
    destruct (np_argmax_first_max _ _ Hidx) as (mx & Hfm).
    assert (mx = EchoGuardModel.confidence r) as ->.
    { destruct Hfm as (Hk & _). congruence. }
    exists idx. repeat split.
    + exact Hname.
    + exact Hconf.
    + intros j p Hj. destruct Hfm as (_ & Hmax & _). eapply Hmax. exact Hj.
    + intros j p Hj Heq. eapply first_max_lowest; eassumption.
Qed.

Lemma predict_tie_break_witness :
  (length Examples.tied_scores = 5%nat ->
   exists r,
     EchoGuardModel.predict Examples.model0 (EchoGuardModel.Vec []) = Ok r)
  /\ (forall r,
        EchoGuardModel.predict Examples.model0 (EchoGuardModel.Vec []) = Ok r ->
        exists idx,
          EchoGuardModel.CLASSES !! idx = Some (EchoGuardModel.event_type r)
          /\ Examples.tied_scores !! idx = Some (EchoGuardModel.confidence r)
          /\ (forall j p, Examples.tied_scores !! j = Some p ->
                          (p <= EchoGuardModel.confidence r)%Q)
          /\ (forall j p, Examples.tied_scores !! j = Some p ->
                          (p == EchoGuardModel.confidence r)%Q ->
                          (idx <= j)%nat)).
Proof.
  apply (predict_tie_break
           Examples.model0 (EchoGuardModel.Vec [])
           (fun batch => (fun _ => Examples.tied_scores) <$> batch)
           Examples.tied_scores).
  - reflexivity.
  - reflexivity.
Defined.

(** On the tied scores 1/10, 2/5, 4/10, 1/20, 1/20 the label is vessel
    (index 1), not blast_fishing (index 2). *)
Example predict_tied_scores :
  EchoGuardModel.predict Examples.model0 (EchoGuardModel.Vec [])
  = Ok {| EchoGuardModel.event_type := "vessel";
          EchoGuardModel.confidence := (2 # 5)%Q;
          EchoGuardModel.is_threat := true;
          EchoGuardModel.class_probabilities :=
            [ ("marine_life", 1 # 10); ("vessel", 2 # 5);
              ("blast_fishing", 4 # 10); ("seismic", 1 # 20);
              ("ambient", 1 # 20) ]%Q |}.
Proof. vm_compute. reflexivity. Qed.

(** C3: the threat flag is decided for each of the five labels, it is
    set exactly for vessel, blast_fishing and seismic, the flag that
    [predict] returns is the membership of its label in THREAT_CLASSES,
    and so it does not depend on the confidence. *)
Theorem threat_policy_total :
  (forall label,
     label ∈ EchoGuardModel.CLASSES ->
     (bool_decide (label ∈ EchoGuardModel.THREAT_CLASSES) = true
      <-> label = "vessel" \/ label = "blast_fishing" \/ label = "seismic")
     /\ (bool_decide (label ∈ EchoGuardModel.THREAT_CLASSES) = false
         <-> label = "marine_life" \/ label = "ambient"))
  /\ (forall self features r,
        EchoGuardModel.predict self features = Ok r ->
        EchoGuardModel.event_type r ∈ EchoGuardModel.CLASSES
        /\ EchoGuardModel.is_threat r
           = bool_decide (EchoGuardModel.event_type r ∈ EchoGuardModel.THREAT_CLASSES))
  /\ (forall self1 features1 r1 self2 features2 r2,
        EchoGuardModel.predict self1 features1 = Ok r1 ->
        EchoGuardModel.predict self2 features2 = Ok r2 ->
        EchoGuardModel.event_type r1 = EchoGuardModel.event_type r2 ->
        EchoGuardModel.is_threat r1 = EchoGuardModel.is_threat r2).
Proof.
  split; [| split].
  - intros label Hin. unfold EchoGuardModel.CLASSES in Hin.
    repeat (apply elem_of_cons in Hin as [-> | Hin]);
      [ .. | apply elem_of_nil in Hin; contradiction ];
      (split; split; intros H;
       first
         [ solve [vm_compute in H; discriminate H]
         | solve [vm_compute; reflexivity]
         | solve [destruct H as [H | H]; [| try destruct H as [H | H]];
                  discriminate H]
         | solve [auto 6] ]).
  - intros self features r Hr.
    apply predict_Ok in Hr
      as (m & row & idx & probs & _ & _ & _ & _ & Hname & _ & _ & Hthreat).
    split; [| exact Hthreat].
    eapply list_elem_of_lookup_2. exact Hname.
  - intros self1 features1 r1 self2 features2 r2 Hr1 Hr2 Heq.
    apply predict_Ok in Hr1 as (? & ? & ? & ? & _ & _ & _ & _ & _ & _ & _ & ->).
    apply predict_Ok in Hr2 as (? & ? & ? & ? & _ & _ & _ & _ & _ & _ & _ & ->).
    rewrite Heq. reflexivity.
Qed.

(** ** The broadcast hub *)

Section WebsocketFacts.

Import Websocket.

Variable T : Transport.
Variable message : Message.

Lemma filter_agree {A} (P R : A -> Prop)
    `{!forall x, Decision (P x)} `{!forall x, Decision (R x)} (l : list A) :
  (forall x, x ∈ l -> (P x <-> R x)) -> filter P l = filter R l.
Proof.
  induction l as [| x l IH]; intros Hagree; [reflexivity |].
  rewrite !filter_cons.
  assert (filter P l = filter R l) as ->.
  { apply IH. intros y Hy. apply Hagree. apply elem_of_cons. auto. }
  assert (P x <-> R x) as Hx by (apply Hagree; apply elem_of_cons; auto).
  destruct (decide (P x)), (decide (R x)); tauto.
Qed.

Lemma broadcast_send_fold (l : list WebSocket) :
  forall (w : Wire) (d : list WebSocket),
    fold_left (broadcast_send T message) l (w, d)
    = (w ++ ((fun c => (c, message))
               <$> filter (fun c => send_json_raises T c message = false) l),
       d ++ filter (fun c => send_json_raises T c message = true) l).
Proof.
  induction l as [| c l IH]; intros w d.
  - simpl. rewrite !app_nil_r. reflexivity.
  - cbn [fold_left]. rewrite !filter_cons.
    unfold broadcast_send at 2.
    destruct (send_json_raises T c message) eqn:Hc.
    + rewrite IH.
      destruct (decide (true = false)) as [Hf | _]; [discriminate |].
      destruct (decide (true = true)) as [_ | Hf]; [| congruence].
      rewrite <- app_assoc. reflexivity.
    + rewrite IH.
      destruct (decide (false = false)) as [_ | Hf]; [| congruence].
      destruct (decide (false = true)) as [Hf | _]; [discriminate |].
      rewrite fmap_cons, <- app_assoc. reflexivity.
Qed.

Lemma list_remove_first_absent (x : WebSocket) (l : list WebSocket) :
  x ∉ l -> list_remove_first x l = l.
Proof.
  induction l as [| y l IH]; intros Hx; [reflexivity |].
  apply not_elem_of_cons in Hx as [Hne Hx]. simpl.
  destruct (decide (x = y)); [contradiction |].
  rewrite IH by assumption. reflexivity.
Qed.

Lemma list_remove_first_middle (x : WebSocket) (pre l : list WebSocket) :
  x ∉ pre -> list_remove_first x (pre ++ x :: l) = pre ++ l.
Proof.
  induction pre as [| y pre IH]; intros Hx; simpl.
  - destruct (decide (x = x)); [reflexivity | contradiction].
  - apply not_elem_of_cons in Hx as [Hne Hx].
    destruct (decide (x = y)); [contradiction |].
    rewrite IH by assumption. reflexivity.
Qed.

Lemma disconnect_active (self : ConnectionManager) (c : WebSocket) :
  active_connections (disconnect self c)
  = list_remove_first c (active_connections self).
Proof.
  unfold disconnect. simpl.
  destruct (bool_decide (c ∈ active_connections self)) eqn:Hc; [reflexivity |].
  apply bool_decide_eq_false in Hc.
  symmetry. apply list_remove_first_absent. exact Hc.
Qed.

Lemma disconnect_metadata (self : ConnectionManager) (c : WebSocket) :
  connection_metadata (disconnect self c) = delete c (connection_metadata self).
Proof.
  unfold disconnect. simpl.
  destruct (connection_metadata self !! c) eqn:Hc; [reflexivity |].
  symmetry. apply delete_id. exact Hc.
Qed.

Lemma disconnect_all_active (ds : list WebSocket) :
  forall self,
    active_connections (fold_left disconnect ds self)
    = fold_left (fun l c => list_remove_first c l) ds (active_connections self).
Proof.
  induction ds as [| c ds IH]; intros self; [reflexivity |].
  simpl. rewrite IH, disconnect_active. reflexivity.
Qed.

Lemma disconnect_all_metadata (ds : list WebSocket) :
  forall self c,
    connection_metadata (fold_left disconnect ds self) !! c
    = if bool_decide (c ∈ ds) then None else connection_metadata self !! c.
Proof.
  induction ds as [| d ds IH]; intros self c; [reflexivity |].
  simpl. rewrite IH, disconnect_metadata.
  destruct (bool_decide (c ∈ ds)) eqn:Hds.
  - apply bool_decide_eq_true in Hds.
    rewrite bool_decide_eq_true_2; [reflexivity |].
    apply elem_of_cons. auto.
  - apply bool_decide_eq_false in Hds.
    destruct (decide (c = d)) as [-> | Hne].
    + rewrite lookup_delete_eq.
      rewrite bool_decide_eq_true_2; [reflexivity |].
      apply elem_of_cons. auto.
    + rewrite lookup_delete_ne by congruence.
      rewrite bool_decide_eq_false_2; [reflexivity |].
      intros Hin. apply elem_of_cons in Hin as [? | ?]; contradiction.
Qed.

(** Removing the failed connections one by one, first occurrence
    first, leaves exactly the connections whose send went through. *)
Lemma remove_failed (l : list WebSocket) :
  forall pre,
    (forall c, c ∈ pre -> send_json_raises T c message = false) ->
    fold_left (fun l c => list_remove_first c l)
      (filter (fun c => send_json_raises T c message = true) l) (pre ++ l)
    = pre ++ filter (fun c => send_json_raises T c message = false) l.
Proof.
  induction l as [| x l IH]; intros pre Hpre; [reflexivity |].
  rewrite !filter_cons.
  destruct (send_json_raises T x message) eqn:Hx.
  - destruct (decide (true = true)) as [_ | Hf]; [| congruence].
    destruct (decide (true = false)) as [Hf | _]; [discriminate |].
    cbn [fold_left].
    rewrite list_remove_first_middle.
    + apply IH. exact Hpre.
    + intros Hin. apply Hpre in Hin. congruence.
  - destruct (decide (false = true)) as [Hf | _]; [discriminate |].
    destruct (decide (false = false)) as [_ | Hf]; [| congruence].
    replace (pre ++ x :: l) with ((pre ++ [x]) ++ l)
      by (rewrite <- app_assoc; reflexivity).
    rewrite IH.
    + rewrite <- app_assoc. reflexivity.
    + intros c Hc. apply elem_of_app in Hc as [Hc | Hc]; [auto |].
      apply list_elem_of_singleton in Hc as ->. exact Hx.
Qed.

(** One [broadcast]: every connection whose send does not raise gets
    the message once, in registry order, and stays; every connection
    whose send raises is gone from the list and from the metadata. *)
Lemma broadcast_spec (self : ConnectionManager) (wire : Wire) :
  (broadcast T self message wire).2
  = wire ++ ((fun c => (c, message))
               <$> filter (fun c => send_json_raises T c message = false)
                     (active_connections self))
  /\ active_connections (broadcast T self message wire).1
     = filter (fun c => send_json_raises T c message = false)
         (active_connections self)
  /\ forall c,
       connection_metadata (broadcast T self message wire).1 !! c
       = if bool_decide
              (c ∈ filter (fun c => send_json_raises T c message = true)
                     (active_connections self))
         then None
         else connection_metadata self !! c.
Proof.
  unfold broadcast. rewrite broadcast_send_fold. cbn [fst snd app].
  repeat split.
  - rewrite disconnect_all_active.
    apply (remove_failed (active_connections self) []).
    intros c Hc. apply elem_of_nil in Hc. contradiction.
  - intros c. apply disconnect_all_metadata.
Qed.

Lemma filter_ne_absent (k : WebSocket) (l : list WebSocket) :
  k ∉ l -> filter (fun c => c <> k) l = l.
Proof.
  induction l as [| y l IH]; intros Hk; [reflexivity |].
  apply not_elem_of_cons in Hk as [Hne Hk].
  rewrite filter_cons_True by congruence.
  rewrite IH by assumption. reflexivity.
Qed.

Lemma length_filter_ne (k : WebSocket) (l : list WebSocket) :
  NoDup l -> k ∈ l ->
  length l = S (length (filter (fun c => c <> k) l)).
Proof.
  induction 1 as [| x l Hx Hnd IH]; intros Hk.
  - apply elem_of_nil in Hk. contradiction.
  - rewrite filter_cons.
    destruct (decide (x <> k)) as [Hne | Heq].
    + apply elem_of_cons in Hk as [-> | Hk]; [congruence |].
      simpl. rewrite <- IH by assumption. reflexivity.
    + assert (x = k) as -> by (destruct (decide (x = k)); tauto).
      simpl. rewrite filter_ne_absent by assumption. reflexivity.
Qed.

End WebsocketFacts.

(** C4: in a registry of N distinct subscribers where the send to
    subscriber [k], and to no other, raises, one [broadcast] delivers the
    message to each of the N-1 others, removes [k] from the registry and
    keeps the N-1 others registered. *)
Theorem broadcast_isolation
    (T : Websocket.Transport) (self : Websocket.ConnectionManager)
    (message : Websocket.Message) (wire : Websocket.Wire)
    (k : Websocket.WebSocket) :
  NoDup (Websocket.active_connections self) ->
  k ∈ Websocket.active_connections self ->
  (forall c, c ∈ Websocket.active_connections self ->
             (Websocket.send_json_raises T c message = true <-> c = k)) ->
  let after := Websocket.broadcast T self message wire in
  let others := filter (fun c => c <> k) (Websocket.active_connections self) in
  after.2 = wire ++ ((fun c => (c, message)) <$> others)
  /\ (forall c, c ∈ Websocket.active_connections self -> c <> k ->
                (c, message) ∈ after.2)
  /\ Websocket.active_connections after.1 = others
  /\ length (Websocket.active_connections after.1)
     = (length (Websocket.active_connections self) - 1)%nat
  /\ (k ∉ Websocket.active_connections after.1)
  /\ (forall c, c <> k ->
                (c ∈ Websocket.active_connections after.1
                 <-> c ∈ Websocket.active_connections self))
  /\ Websocket.connection_metadata after.1
     = delete k (Websocket.connection_metadata self).
Proof.
  intros Hnd Hk Honly after others.
  destruct (broadcast_spec T message self wire) as (Hwire & Hactive & Hmeta).
  fold after in Hwire, Hactive, Hmeta.
  assert (filter (fun c => Websocket.send_json_raises T c message = false)
            (Websocket.active_connections self) = others) as Hgood.
  { apply filter_agree. intros c Hc. specialize (Honly c Hc).
    destruct (Websocket.send_json_raises T c message); split; intros H.
    - discriminate.
    - exfalso. apply H. apply Honly. reflexivity.
    - intros ->. destruct Honly as [_ Hf]. specialize (Hf eq_refl). discriminate.
    - reflexivity. }
  rewrite Hgood in Hwire, Hactive.
  assert (forall c, c ∈ others <-> (c <> k) /\ (c ∈ Websocket.active_connections self))
    as Hothers
    by (intros c; exact (list_elem_of_filter (fun c => c <> k) _ c)).
  split; [exact Hwire |].
  split.
  { intros c Hc Hne. rewrite Hwire. apply elem_of_app. right.
    apply list_elem_of_fmap. exists c. split; [reflexivity |].
    apply Hothers. auto. }
  split; [exact Hactive |].
  split.
  { rewrite Hactive. pose proof (length_filter_ne k _ Hnd Hk) as Hlen.
    fold others in Hlen. lia. }
  split.
  { rewrite Hactive. intros Hin. apply Hothers in Hin as [Hne _]. congruence. }
  split.
  { intros c Hne. rewrite Hactive, Hothers. tauto. }
  apply map_eq. intros c. rewrite Hmeta.
  destruct (decide (c = k)) as [-> | Hne].
  - rewrite lookup_delete_eq. rewrite bool_decide_eq_true_2; [reflexivity |].
    apply list_elem_of_filter. split; [| exact Hk].
    apply Honly; [exact Hk | reflexivity].
  - rewrite lookup_delete_ne by congruence.
    rewrite bool_decide_eq_false_2; [reflexivity |].
    intros Hin. apply list_elem_of_filter in Hin as [Hbad Hin].
    apply Honly in Hbad; [congruence | exact Hin].
Qed.

Lemma broadcast_isolation_witness :
  let after :=
    Websocket.broadcast Examples.transport_2_down Examples.manager3
      Examples.hello [] in
  let others :=
    filter (fun c => c <> 2%nat)
      (Websocket.active_connections Examples.manager3) in
  after.2 = [] ++ ((fun c => (c, Examples.hello)) <$> others)
  /\ (forall c, c ∈ Websocket.active_connections Examples.manager3 ->
                c <> 2%nat -> (c, Examples.hello) ∈ after.2)
  /\ Websocket.active_connections after.1 = others
  /\ length (Websocket.active_connections after.1)
     = (length (Websocket.active_connections Examples.manager3) - 1)%nat
  /\ (2%nat ∉ Websocket.active_connections after.1)
  /\ (forall c, c <> 2%nat ->
                (c ∈ Websocket.active_connections after.1
                 <-> c ∈ Websocket.active_connections Examples.manager3))
  /\ Websocket.connection_metadata after.1
     = delete 2%nat (Websocket.connection_metadata Examples.manager3).
Proof.
  apply (broadcast_isolation
           Examples.transport_2_down Examples.manager3 Examples.hello [] 2%nat).
  - apply (bool_decide_unpack _). vm_compute. exact I.
  - apply (bool_decide_unpack _). vm_compute. exact I.
  - intros c _. simpl. apply bool_decide_eq_true.
Defined.

(** A concrete run: subscribers 1 and 3 got the message,
    subscriber 2 is gone. *)
Example broadcast_three_subscribers :
  let after :=
    Websocket.broadcast Examples.transport_2_down Examples.manager3
      Examples.hello [] in
  after.2 = [ (1%nat, Examples.hello); (3%nat, Examples.hello) ]
  /\ Websocket.active_connections after.1 = [1; 3]%nat
  /\ Websocket.connection_metadata after.1 !! 2%nat = None
  /\ Websocket.connection_metadata after.1 !! 1%nat
     = Some (Examples.meta "client_1")
  /\ Websocket.connection_metadata after.1 !! 3%nat
     = Some (Examples.meta "client_3").
Proof. vm_compute. repeat split; reflexivity. Qed.

(** C10: a connection made without a client identifier is named
    "client_" followed by the size of the registry after the insertion;
    so the assigned names are not unique: after some connects and
    disconnects two subscribers registered at the same time carry the
    same assigned name. *)
Theorem assigned_client_id_not_unique :
  (forall T self websocket utcnow self',
     Websocket.connect T self websocket None utcnow = Ok self' ->
     exists md,
       Websocket.connection_metadata self' !! websocket = Some md
       /\ Websocket.client_id md
          = "client_" +:+ str_of_Z (len (Websocket.active_connections self'))
       /\ Websocket.active_connections self'
          = Websocket.active_connections self ++ [websocket])
  /\ (exists T ops self a b ma mb,
        Websocket.run T ops Websocket.init = Ok self
        /\ (forall o, o ∈ ops ->
                      forall w cid, o = Websocket.Connect w cid -> cid = None)
        /\ a <> b
        /\ a ∈ Websocket.active_connections self
        /\ b ∈ Websocket.active_connections self
        /\ Websocket.connection_metadata self !! a = Some ma
        /\ Websocket.connection_metadata self !! b = Some mb
        /\ Websocket.client_id ma = Websocket.client_id mb).
Proof.
  split.
  - intros T self websocket utcnow self'. unfold Websocket.connect.
    destruct (Websocket.accept_raises T websocket); [discriminate |].
    intros [= <-]. cbn [Websocket.connection_metadata Websocket.active_connections].
    rewrite lookup_insert_eq. eexists. split; [reflexivity |].
    split; reflexivity.
  - exists Examples.transport_up, Examples.churn.
    destruct (Websocket.run Examples.transport_up Examples.churn Websocket.init)
      as [self | e] eqn:Hrun; [| vm_compute in Hrun; discriminate Hrun].
    exists self, 2%nat, 3%nat,
      (Examples.meta "client_2"), (Examples.meta "client_2").
    assert (Websocket.active_connections self = [2; 3]%nat) as Hact.
    { vm_compute in Hrun. injection Hrun as <-. reflexivity. }
    assert (Websocket.connection_metadata self !! 2%nat
            = Some (Examples.meta "client_2")) as H2.
    { vm_compute in Hrun. injection Hrun as <-. vm_compute. reflexivity. }
    assert (Websocket.connection_metadata self !! 3%nat
            = Some (Examples.meta "client_2")) as H3.
    { vm_compute in Hrun. injection Hrun as <-. vm_compute. reflexivity. }
    rewrite Hact.
    split; [reflexivity |].
    split.
    { intros o Ho w cid ->. unfold Examples.churn in Ho.
      repeat (apply elem_of_cons in Ho as [Ho | Ho]; [congruence |]).
      apply elem_of_nil in Ho. contradiction. }
    split; [lia |].
    split; [apply elem_of_cons; auto |].
    split; [apply elem_of_cons; right; apply elem_of_cons; auto |].
    split; [exact H2 |].
    split; [exact H3 | reflexivity].
Qed.

(** The registry after the churn: websockets 2 and 3 are both
    "client_2". *)
Example churn_registry :
  exists self,
    Websocket.run Examples.transport_up Examples.churn Websocket.init = Ok self
    /\ Websocket.active_connections self = [2; 3]%nat
    /\ Websocket.client_id <$> (Websocket.connection_metadata self !! 2%nat)
       = Some "client_2"
    /\ Websocket.client_id <$> (Websocket.connection_metadata self !! 3%nat)
       = Some "client_2".
Proof.
  eexists. split; [reflexivity |]. vm_compute. repeat split; reflexivity.
Qed.

(** ** The tables *)

Section DbFacts.

Import Db.

Lemma max_id_bound (ids : list (option Z)) (i : Z) :
  Some i ∈ ids -> i <= max_id ids.
Proof.
  induction ids as [| o ids IH]; intros Hin.
  - apply elem_of_nil in Hin. contradiction.
  - apply elem_of_cons in Hin as [<- | Hin]; simpl.
    + lia.
    + specialize (IH Hin). destruct o; lia.
Qed.

Lemma alert_ids_below_next (db : Database) (a : Alert.t) (i : Z) :
  a ∈ alerts db -> Alert.id a = Some i -> i < next_alert_id db.
Proof.
  intros Hin Hid. unfold next_alert_id.
  assert (i <= max_id (Alert.id <$> alerts db)); [| lia].
  apply max_id_bound. rewrite <- Hid.
  apply list_elem_of_fmap. eauto.
Qed.

Lemma detection_ids_below_next (db : Database) (d : Detection.t) (i : Z) :
  d ∈ detections db -> Detection.id d = Some i -> i < next_detection_id db.
Proof.
  intros Hin Hid. unfold next_detection_id.
  assert (i <= max_id (Detection.id <$> detections db)); [| lia].
  apply max_id_bound. rewrite <- Hid.
  apply list_elem_of_fmap. eauto.
Qed.

Lemma find_snoc_miss {A} (p : A -> bool) (l : list A) (x : A) :
  p x = false -> find p (l ++ [x]) = find p l.
Proof.
  intros Hx. induction l as [| y l IH]; simpl.
  - rewrite Hx. reflexivity.
  - destruct (p y); [reflexivity | exact IH].
Qed.

Lemma find_snoc_hit {A} (p : A -> bool) (l : list A) (x : A) :
  (forall y, y ∈ l -> p y = false) -> p x = true -> find p (l ++ [x]) = Some x.
Proof.
  intros Hl Hx. induction l as [| y l IH]; simpl.
  - rewrite Hx. reflexivity.
  - rewrite (Hl y) by (apply elem_of_cons; auto).
    apply IH. intros z Hz. apply Hl. apply elem_of_cons. auto.
Qed.

Lemma find_Some_elem {A} (p : A -> bool) (l : list A) (x : A) :
  find p l = Some x -> x ∈ l /\ p x = true.
Proof.
  induction l as [| y l IH]; simpl; [discriminate |].
  destruct (p y) eqn:Hy.
  - intros [= <-]. split; [apply elem_of_cons; auto | exact Hy].
  - intros H. destruct (IH H) as [Hin Hp].
    split; [apply elem_of_cons; auto | exact Hp].
Qed.

(** A freshly inserted alert is found under its key. *)
Lemma alert_row_insert_same (db : Database) (a : Alert.t) :
  Alert.id a = Some (next_alert_id db) ->
  alert_row (next_alert_id db) (insert_alert a db) = Some a.
Proof.
  intros Hid. unfold alert_row, insert_alert. simpl.
  apply find_snoc_hit.
  - intros y Hy. apply bool_decide_eq_false. intros Hyid.
    pose proof (alert_ids_below_next db y _ Hy Hyid). lia.
  - apply bool_decide_eq_true. exact Hid.
Qed.

Lemma alert_row_insert_other (db : Database) (a : Alert.t) (i j : Z) :
  Alert.id a = Some i -> j <> i ->
  alert_row j (insert_alert a db) = alert_row j db.
Proof.
  intros Hid Hne. unfold alert_row, insert_alert. simpl.
  apply find_snoc_miss. apply bool_decide_eq_false. congruence.
Qed.

Lemma find_update {A} (p q : A -> bool) (a : A) (l : list A) :
  (forall y, q y = true -> p y = p a) ->
  find p ((fun r => if q r then a else r) <$> l)
  = (fun r => if q r then a else r) <$> find p l.
Proof.
  intros Hq. induction l as [| y l IH]; [reflexivity |].
  rewrite fmap_cons. simpl.
  destruct (q y) eqn:Hy.
  - rewrite <- (Hq y Hy). destruct (p y) eqn:Hp.
    + simpl. rewrite Hy. reflexivity.
    + exact IH.
  - destruct (p y) eqn:Hp.
    + simpl. rewrite Hy. reflexivity.
    + exact IH.
Qed.

Lemma alert_row_update (db : Database) (a : Alert.t) (j : Z) :
  alert_row j (update_alert a db)
  = (fun r => if bool_decide (Alert.id r = Alert.id a) then a else r)
      <$> alert_row j db.
Proof.
  unfold alert_row, update_alert. simpl.
  apply (find_update
           (fun r => bool_decide (Alert.id r = Some j))
           (fun r => bool_decide (Alert.id r = Alert.id a))).
  intros y Hy. apply bool_decide_eq_true in Hy. rewrite Hy. reflexivity.
Qed.

Lemma alert_row_update_same (db : Database) (a old : Alert.t) (i : Z) :
  Alert.id a = Some i -> alert_row i db = Some old ->
  alert_row i (update_alert a db) = Some a.
Proof.
  intros Hid Hold. rewrite alert_row_update, Hold. simpl.
  apply find_Some_elem in Hold as [_ Hold].
  apply bool_decide_eq_true in Hold.
  rewrite bool_decide_eq_true_2 by congruence. reflexivity.
Qed.

Lemma alert_row_update_other (db : Database) (a : Alert.t) (i j : Z) :
  Alert.id a = Some i -> j <> i ->
  alert_row j (update_alert a db) = alert_row j db.
Proof.
  intros Hid Hne. rewrite alert_row_update.
  destruct (alert_row j db) as [r |] eqn:Hr; [| reflexivity]. simpl.
  apply find_Some_elem in Hr as [_ Hr].
  apply bool_decide_eq_true in Hr.
  rewrite bool_decide_eq_false_2 by congruence. reflexivity.
Qed.

(** A freshly inserted detection is found under its key. *)
Lemma detection_row_insert_same (db : Database) (d : Detection.t) :
  Detection.id d = Some (next_detection_id db) ->
  detection_row (next_detection_id db) (insert_detection d db) = Some d.
Proof.
  intros Hid. unfold detection_row, insert_detection. simpl.
  apply find_snoc_hit.
  - intros y Hy. apply bool_decide_eq_false. intros Hyid.
    pose proof (detection_ids_below_next db y _ Hy Hyid). lia.
  - apply bool_decide_eq_true. exact Hid.
Qed.

(** Writing alerts never touches the other tables. *)
Lemma flush_alert_tables (a : Alert.t) (now : Z) (db : Database) :
  detections (flush_alert a now db).2 = detections db
  /\ hydrophones (flush_alert a now db).2 = hydrophones db.
Proof.
  unfold flush_alert. destruct (Alert.id a); split; reflexivity.
Qed.

End DbFacts.

(** ** The alert dispatcher *)

Ltac run_world :=
  cbn -[Db.insert_alert Db.update_alert Db.insert_detection
        Db.next_alert_id Db.next_detection_id AlertService.payload
        String.append str_truthy] in *.

(** One case split on what the environment answers next. *)
Ltac alert_step :=
  run_world;
  match goal with
  | |- context [commit_raises ?E ?n] =>
      let H := fresh "Hcommit" in destruct (commit_raises E n) eqn:H
  | |- context [str_truthy ?a] =>
      let H := fresh "Hurl" in destruct (str_truthy a) eqn:H
  | |- context [isoformat ?t] =>
      let H := fresh "Hts" in destruct t eqn:H
  | |- context [post_raises ?E ?u ?p] =>
      let H := fresh "Hpost" in destruct (post_raises E u p) eqn:H
  end.

Ltac alert_shape :=
  split_and!; try reflexivity;
  first
    [ exists []; split_and!;
      [ symmetry; apply app_nil_r | reflexivity | left; reflexivity ]
    | eexists [_]; split_and!;
      [ reflexivity | reflexivity
      | right; left; eexists; split_and!;
        first [ reflexivity | left; reflexivity | right; reflexivity ] ]
    | eexists [_; _]; split_and!;
      [ rewrite <- app_assoc; reflexivity | reflexivity
      | right; right; eexists _, _; split_and!;
        first [ reflexivity | left; reflexivity | right; reflexivity ] ] ].

Ltac unfold_send_alert :=
  unfold AlertService.send_alert, AlertService.on_error,
    AlertService.commit_alert, AlertService._send_webhook,
    db_commit, Db.commit, utcnow, pending_database, mbind', ret, raise, lift,
    set_session.

(** Every run of [send_alert] commits nothing, or one insert of the new
    alert, or that insert followed by one update of the same row; it
    leaves the registry, the wire and the files alone. *)
Lemma send_alert_shapes (E : Env) (detection : Detection.t) (w : World) :
  let w' := (AlertService.send_alert E detection w).2 in
  let db := Db.database (session w) in
  let i := Db.next_alert_id db in
  manager w' = manager w
  /\ wire w' = wire w
  /\ files w' = files w
  /\ exists new,
       Db.history (session w') = Db.history (session w) ++ new
       /\ Db.database (session w') = default db (last new)
       /\ (new = []
           \/ (exists a,
                 new = [Db.insert_alert a db]
                 /\ Alert.id a = Some i
                 /\ (Alert.status a = "pending" \/ Alert.status a = "failed")
                 /\ Alert.sent_at a = None)
           \/ (exists a a',
                 new = [Db.insert_alert a db;
                        Db.update_alert a' (Db.insert_alert a db)]
                 /\ Alert.id a = Some i
                 /\ Alert.id a' = Some i
                 /\ Alert.status a = "pending"
                 /\ (Alert.status a' = "sent" \/ Alert.status a' = "failed")
                 /\ Alert.sent_at a = None
                 /\ Alert.sent_at a' = None)).
Proof.
  unfold_send_alert.
  repeat alert_step; run_world.
  all: alert_shape.
Qed.

Lemma transitions_pair (a b : string) :
  a <> b -> transitions [a; b] = [(a, b)].
Proof.
  intros Hne. simpl. destruct (String.eqb_spec a b); [contradiction | reflexivity].
Qed.

Lemma status_trace_cons (i : Z) (db : Db.Database) (dbs : list Db.Database)
    (a : Alert.t) :
  Db.alert_row i db = Some a ->
  status_trace i (db :: dbs) = Alert.status a :: status_trace i dbs.
Proof.
  intros Hrow. unfold status_trace. simpl. rewrite Hrow. reflexivity.
Qed.

(** C1, as the code has it: the persisted status of the alert that a
    dispatch creates changes at most once, and only from pending to sent
    or from pending to failed; no other alert row is touched, so nothing
    leaves sent or failed; and the dispatcher never writes [sent_at]: it
    is unset at every point, whatever the status (so a set [sent_at]
    would imply status sent, but status sent does not imply a set
    [sent_at]). *)
Theorem alert_status_monotone
    (E : Env) (detection : Detection.t) (w : World) :
  let w' := (AlertService.send_alert E detection w).2 in
  let i := Db.next_alert_id (Db.database (session w)) in
  exists new,
    Db.history (session w') = Db.history (session w) ++ new
    /\ (length (transitions (status_trace i new)) <= 1)%nat
    /\ (forall a b, (a, b) ∈ transitions (status_trace i new) ->
                    a = "pending" /\ (b = "sent" \/ b = "failed"))
    /\ (forall db j, db ∈ new -> j <> i ->
                     Db.alert_row j db = Db.alert_row j (Db.database (session w)))
    /\ (forall db a, db ∈ new -> Db.alert_row i db = Some a ->
                     Alert.sent_at a = None
                     /\ (is_Some (Alert.sent_at a) -> Alert.status a = "sent")).
Proof.
  intros w' i.
  destruct (send_alert_shapes E detection w)
    as (_ & _ & _ & new & Hhist & _ & Hshape).
  fold w' in Hhist. exists new. split; [exact Hhist |].
  set (db0 := Db.database (session w)) in *. fold i in Hshape.
  assert (forall a, Alert.sent_at a = None ->
                    Alert.sent_at a = None
                    /\ (is_Some (Alert.sent_at a) -> Alert.status a = "sent"))
    as Hunset.
  { intros a Ha. split; [exact Ha |]. rewrite Ha. intros [x Hx]. discriminate. }
  destruct Hshape as [-> | [(a & -> & Hid & Hst & Hsent)
                          | (a & a' & -> & Hid & Hid' & Hst & Hst' & Hsent & Hsent')]].
  - simpl. split_and!.
    + lia.
    + intros a b Hin. apply elem_of_nil in Hin. contradiction.
    + intros db j Hin. apply elem_of_nil in Hin. contradiction.
    + intros db a Hin. apply elem_of_nil in Hin. contradiction.
  - assert (Db.alert_row i (Db.insert_alert a db0) = Some a) as Hrow
      by (apply alert_row_insert_same; exact Hid).
    rewrite (status_trace_cons _ _ _ _ Hrow). simpl. split_and!.
    + lia.
    + intros x y Hin. apply elem_of_nil in Hin. contradiction.
    + intros db j Hin Hne. apply list_elem_of_singleton in Hin as ->.
      eapply alert_row_insert_other; eassumption.
    + intros db r Hin Hr. apply list_elem_of_singleton in Hin as ->.
      rewrite Hrow in Hr. injection Hr as <-. apply Hunset. exact Hsent.
  - assert (Db.alert_row i (Db.insert_alert a db0) = Some a) as Hrow
      by (apply alert_row_insert_same; exact Hid).
    assert (Db.alert_row i (Db.update_alert a' (Db.insert_alert a db0)) = Some a')
      as Hrow' by (eapply alert_row_update_same; eassumption).
    rewrite (status_trace_cons _ _ _ _ Hrow), (status_trace_cons _ _ _ _ Hrow').
    change (status_trace i []) with (@nil string).
    rewrite Hst.
    assert ("pending" <> Alert.status a') as Hne
      by (destruct Hst' as [-> | ->]; discriminate).
    rewrite (transitions_pair _ _ Hne). split_and!.
    + simpl. lia.
    + intros x y Hin. apply list_elem_of_singleton in Hin.
      injection Hin as -> ->. split; [reflexivity | exact Hst'].
    + intros db j Hin Hj.
      apply elem_of_cons in Hin as [-> | Hin].
      * eapply alert_row_insert_other; eassumption.
      * apply list_elem_of_singleton in Hin as ->.
        rewrite (alert_row_update_other _ _ i j Hid' Hj).
        eapply alert_row_insert_other; eassumption.
    + intros db r Hin Hr.
      apply elem_of_cons in Hin as [-> | Hin].
      * rewrite Hrow in Hr. injection Hr as <-. apply Hunset. exact Hsent.
      * apply list_elem_of_singleton in Hin as ->.
        rewrite Hrow' in Hr. injection Hr as <-. apply Hunset. exact Hsent'.
Qed.

(** C1 with "sent_at is set if and only if status equals sent" fails on
    a delivered alert: after a dispatch whose webhook call succeeds the
    row has status sent and no [sent_at]. *)
Lemma alert_sent_without_sent_at :
  let w' := (AlertService.send_alert Examples.env0 Examples.detection1
               Examples.world0).2 in
  exists a,
    Db.alert_row 1 (Db.database (session w')) = Some a
    /\ Alert.status a = "sent"
    /\ Alert.sent_at a = None
    /\ ~ (is_Some (Alert.sent_at a) <-> Alert.status a = "sent").
Proof.
  eexists. split; [vm_compute; reflexivity |].
  split; [reflexivity |]. split; [reflexivity |].
  intros [_ H]. destruct (H eq_refl) as [x Hx]. discriminate Hx.
Qed.

(** Dispatching an alert never touches the detections. *)
Lemma send_alert_detections (E : Env) (detection : Detection.t) (w : World) :
  Db.detections (Db.database (session (AlertService.send_alert E detection w).2))
  = Db.detections (Db.database (session w)).
Proof.
  destruct (send_alert_shapes E detection w)
    as (_ & _ & _ & new & _ & -> & Hshape).
  destruct Hshape as [-> | [(a & -> & _) | (a & a' & -> & _)]]; reflexivity.
Qed.

(** With a database that accepts every commit, [send_alert] returns
    normally whatever the webhook does, and the outcome of the delivery is
    what the alert row records. *)
Lemma send_alert_healthy (E : Env) (detection : Detection.t) (w : World) :
  (forall n, commit_raises E n = false) ->
  let run := AlertService.send_alert E detection w in
  let url := Settings.ALERT_WEBHOOK_URL (settings E) in
  run.1 = Ok ()
  /\ exists a,
       Db.alert_row (Db.next_alert_id (Db.database (session w)))
         (Db.database (session run.2)) = Some a
       /\ Alert.detection_id a = Detection.id detection
       /\ Alert.sent_at a = None
       /\ (str_truthy url = true ->
           (forall p, post_raises E url p = true) ->
           Alert.status a = "failed")
       /\ (str_truthy url = false -> Alert.status a = "sent")
       /\ (is_Some (Detection.timestamp detection) ->
           (forall p, post_raises E url p = false) ->
           Alert.status a = "sent").
Proof.
  intros Hc. unfold_send_alert.
  repeat alert_step; run_world.
  all: try match goal with
           | H : commit_raises _ _ = true |- _ => rewrite Hc in H; discriminate H
           end.
  all: split; [reflexivity |].
  all: eexists; split;
    [ eapply alert_row_update_same;
      [ reflexivity | apply alert_row_insert_same; reflexivity ] |].
  all: split_and!; try reflexivity; intros; try congruence.
  all: try match goal with
           | H : forall p, post_raises _ _ p = _,
             H' : post_raises _ _ ?q = _ |- _ =>
               specialize (H q); congruence
           end.
  all: match goal with
       | H : is_Some None |- _ => destruct H as [x Hx]; discriminate Hx
       end.
Qed.

(** A broadcast on the process-wide manager cannot fail and leaves the
    session alone. *)
Lemma manager_broadcast_total (E : Env) (type : string)
    (data : Websocket.Message) (w : World) :
  (Audio.manager_broadcast E type data w).1 = Ok ()
  /\ session (Audio.manager_broadcast E type data w).2 = session w.
Proof.
  unfold Audio.manager_broadcast, mbind', utcnow. cbn [fst snd].
  destruct (Websocket.broadcast _ _ _ _) as [m wi]. split; reflexivity.
Qed.

(** ** The analyze endpoint *)

Ltac run_analyze :=
  cbn -[Db.insert_detection Db.next_detection_id Db.detection_row
        Db.next_alert_id Db.alert_row
        AlertService.send_alert Websocket.broadcast Websocket.envelope
        Audio.new_detection Audio.upload_path Audio.supported_format
        AudioProcessor.preprocess_audio EchoGuardModel.predict
        Audio.get_hydrophone Audio.audio_processor
        String.append Z.add] in *.

Lemma flush_new_detection
    (hydrophone_id : option Z) (prediction : EchoGuardModel.Prediction)
    (path : string) (latitude longitude : option Q)
    (hydrophone : option Hydrophone.t) (now : Z) (db : Db.Database) :
  Db.flush_detection
    (Audio.new_detection hydrophone_id prediction path latitude longitude hydrophone)
    now db
  = (Detection.with_row
       (Audio.new_detection hydrophone_id prediction path latitude longitude hydrophone)
       (Db.next_detection_id db) now,
     Db.insert_detection
       (Detection.with_row
          (Audio.new_detection hydrophone_id prediction path latitude longitude hydrophone)
          (Db.next_detection_id db) now) db).
Proof. reflexivity. Qed.

Lemma detection_row_same_table (i : Z) (db1 db2 : Db.Database) :
  Db.detections db1 = Db.detections db2 ->
  Db.detection_row i db1 = Db.detection_row i db2.
Proof. unfold Db.detection_row. intros ->. reflexivity. Qed.

(** X23: when the upload has been classified and its Detection committed,
    the Detection row stays retrievable with the fields it was created
    with, whatever the webhook, the subscribers and the later commits do;
    and as long as the database keeps accepting commits, no failure of the
    webhook or of a subscriber makes [analyze_audio] fail: it returns the
    detection, and a failed delivery is recorded as an alert row with
    status failed. *)
Theorem notification_failures_not_surfaced
    (E : Env) (file : Audio.UploadFile) (hydrophone_id : option Z)
    (latitude longitude : option Q) (w : World)
    (features : list (list Q)) (prediction : EchoGuardModel.Prediction)
    (hydrophone : option Hydrophone.t) :
  let db := Db.database (session w) in
  let i := Db.next_detection_id db in
  let path := Audio.upload_path (clock w) (Audio.filename file) in
  let detection :=
    Detection.with_row
      (Audio.new_detection hydrophone_id prediction path
         latitude longitude hydrophone)
      i (clock w + 1) in
  let url := Settings.ALERT_WEBHOOK_URL (settings E) in
  Audio.supported_format (Audio.filename file) = true ->
  write_raises E path = false ->
  AudioProcessor.preprocess_audio (librosa E) (Audio.audio_processor E)
    (Audio.content file) = Ok features ->
  EchoGuardModel.predict (ml_model E) (EchoGuardModel.Mat features)
    = Ok prediction ->
  Audio.get_hydrophone hydrophone_id db = Ok hydrophone ->
  commit_raises E (Db.commits (session w)) = false ->
  let run := Audio.analyze_audio E file hydrophone_id latitude longitude w in
  Db.detection_row i (Db.database (session run.2)) = Some detection
  /\ ((forall n, commit_raises E n = false) ->
      (exists resp,
         run.1 = Ok resp
         /\ Audio.r_detection_id resp = Some i
         /\ Audio.r_event_type resp = EchoGuardModel.event_type prediction
         /\ Audio.r_is_threat resp = EchoGuardModel.is_threat prediction)
      /\ (EchoGuardModel.is_threat prediction = true ->
          Settings.ENABLE_ALERTS (settings E) = true ->
          str_truthy url = true ->
          (forall p, post_raises E url p = true) ->
          exists a,
            Db.alert_row (Db.next_alert_id db) (Db.database (session run.2))
              = Some a
            /\ Alert.detection_id a = Some i
            /\ Alert.status a = "failed")).
Proof.
  intros db i path detection url Hfmt Hwrite Hfeat Hpred Hhyd Hcommit run.
  subst run db i path detection url.
  unfold Audio.analyze_audio, Audio.commit_detection, Audio.save_upload,
    try_except, mbind', utcnow, lift, pending_database, db_commit, Db.commit,
    set_session, ret, raise.
  rewrite Hfmt. run_analyze. rewrite Hwrite. run_analyze.
  rewrite Hfeat. run_analyze. rewrite Hpred. run_analyze. rewrite Hhyd.
  rewrite flush_new_detection. run_analyze. rewrite Hcommit. run_analyze.
  set (db := Db.database (session w)).
  set (detection := Detection.with_row _ _ _).
  set (w1 := {| session := _ |}).
  assert (Db.detection_row (Db.next_detection_id db)
            (Db.database (session w1)) = Some detection) as Hrow
    by (apply detection_row_insert_same; reflexivity).
  assert (exists r0 w2,
            (if EchoGuardModel.is_threat prediction
                && Settings.ENABLE_ALERTS (settings E)
             then AlertService.send_alert E detection
             else fun w0 => (Ok (), w0)) w1 = (r0, w2)
            /\ Db.detections (Db.database (session w2))
               = Db.detections (Db.database (session w1))
            /\ ((forall n, commit_raises E n = false) ->
                r0 = Ok ()
                /\ (EchoGuardModel.is_threat prediction = true ->
                    Settings.ENABLE_ALERTS (settings E) = true ->
                    str_truthy (Settings.ALERT_WEBHOOK_URL (settings E)) = true ->
                    (forall p, post_raises E (Settings.ALERT_WEBHOOK_URL (settings E)) p = true) ->
                    exists a,
                      Db.alert_row (Db.next_alert_id db) (Db.database (session w2)) = Some a
                      /\ Alert.detection_id a = Some (Db.next_detection_id db)
                      /\ Alert.status a = "failed")))
    as (r0 & w2 & -> & Hdet & Hhealthy).
  { destruct (EchoGuardModel.is_threat prediction
              && Settings.ENABLE_ALERTS (settings E)) eqn:Hthreat.
    - exists (AlertService.send_alert E detection w1).1,
             (AlertService.send_alert E detection w1).2.
      split; [destruct (AlertService.send_alert E detection w1); reflexivity |].
      split; [apply send_alert_detections |].
      intros Hc. destruct (send_alert_healthy E detection w1 Hc)
        as (Hok & a & Ha & Hdid & _ & Hfailed & _).
      split; [exact Hok |].
      intros _ _ Hurl Hpost. exists a. split; [exact Ha |].
      split; [exact Hdid |]. apply Hfailed; assumption.
    - exists (Ok ()), w1. split; [reflexivity |]. split; [reflexivity |].
      intros _. split; [reflexivity |].
      intros Ht He. rewrite Ht, He in Hthreat. discriminate Hthreat. }
  rewrite <- (detection_row_same_table (Db.next_detection_id db) _ _ Hdet) in Hrow.
  destruct r0 as [[] | e]; run_analyze.
  - destruct (Websocket.broadcast _ _ _ _) as [m1 wi1]. run_analyze.
    destruct (EchoGuardModel.is_threat prediction) eqn:Hthreat; run_analyze.
    + unfold Audio.manager_broadcast, mbind', utcnow. run_analyze.
      destruct (Websocket.broadcast _ _ _ _) as [m2 wi2]. run_analyze.
      split; [exact Hrow |]. intros Hc. destruct (Hhealthy Hc) as [_ Halert].
      split; [eexists; split_and!; reflexivity |].
      intros _. exact (Halert eq_refl).
    + split; [exact Hrow |]. intros Hc. destruct (Hhealthy Hc) as [_ Halert].
      split; [eexists; split_and!; reflexivity |].
      intros Hf. discriminate Hf.
  - split; [exact Hrow |]. intros Hc. destruct (Hhealthy Hc) as [Hf _].
    discriminate Hf.
Qed.

Lemma notification_failures_not_surfaced_witness :
  let E := Examples.env_webhook_down in
  let w := Examples.world0 in
  let db := Db.database (session w) in
  let i := Db.next_detection_id db in
  let path := Audio.upload_path (clock w) (Audio.filename Examples.clip) in
  let detection :=
    Detection.with_row
      (Audio.new_detection (Some 7) Examples.prediction_vessel path
         None None (Some Examples.hydrophone7))
      i (clock w + 1) in
  let url := Settings.ALERT_WEBHOOK_URL (settings E) in
  let run := Audio.analyze_audio E Examples.clip (Some 7) None None w in
  Db.detection_row i (Db.database (session run.2)) = Some detection
  /\ ((forall n, commit_raises E n = false) ->
      (exists resp,
         run.1 = Ok resp
         /\ Audio.r_detection_id resp = Some i
         /\ Audio.r_event_type resp
            = EchoGuardModel.event_type Examples.prediction_vessel
         /\ Audio.r_is_threat resp
            = EchoGuardModel.is_threat Examples.prediction_vessel)
      /\ (EchoGuardModel.is_threat Examples.prediction_vessel = true ->
          Settings.ENABLE_ALERTS (settings E) = true ->
          str_truthy url = true ->
          (forall p, post_raises E url p = true) ->
          exists a,
            Db.alert_row (Db.next_alert_id db) (Db.database (session run.2))
              = Some a
            /\ Alert.detection_id a = Some i
            /\ Alert.status a = "failed")).
Proof.
  apply (notification_failures_not_surfaced
           Examples.env_webhook_down Examples.clip (Some 7) None None
           Examples.world0 Examples.features0 Examples.prediction_vessel
           (Some Examples.hydrophone7)).
  - vm_compute. reflexivity.
  - reflexivity.
  - vm_compute. reflexivity.
  - vm_compute. reflexivity.
  - vm_compute. reflexivity.
  - reflexivity.
Defined.

(** A concrete run: the webhook is down and subscriber 2 is
    dead, yet the call returns detection 1, the row is there, the alert
    is recorded as failed, and subscribers 1 and 3 got both events. *)
Example analyze_with_notifications_down :
  let run :=
    Audio.analyze_audio Examples.env_webhook_down Examples.clip
      (Some 7) None None Examples.world0 in
  Audio.r_detection_id <$> (match run.1 with Ok r => Some r | Raise _ => None end)
    = Some (Some 1)
  /\ Detection.event_type <$> Db.detection_row 1 (Db.database (session run.2))
     = Some "vessel"
  /\ Alert.status <$> Db.alert_row 1 (Db.database (session run.2))
     = Some "failed"
  /\ Websocket.active_connections (manager run.2) = [1; 3]%nat
  /\ fst <$> wire run.2 = [1; 3; 1; 3]%nat
  /\ outbox run.2 = [].
Proof. vm_compute. repeat split; reflexivity. Qed.

(** C5, at the failing input: the webhook endpoint is down and the
    database stops accepting commits once the alert row has been inserted.
    The upload is classified and its Detection committed; then the
    delivery fails inside [send_alert], whose handler sets status failed
    and commits without a guard of its own; that commit raises, the
    dispatcher raises, and [analyze_audio] answers 500.  The detection
    row is there, but the call has failed, the alert row still says
    pending, and no subscriber has been told of the detection. *)
Theorem alert_commit_failure_surfaced :
  let E := Examples.env_database_lost in
  let w := Examples.world0 in
  let run := Audio.analyze_audio E Examples.clip (Some 7) None None w in
  AudioProcessor.preprocess_audio (librosa E) (Audio.audio_processor E)
    (Audio.content Examples.clip) = Ok Examples.features0
  /\ EchoGuardModel.predict (ml_model E) (EchoGuardModel.Mat Examples.features0)
     = Ok Examples.prediction_vessel
  /\ commit_raises E (Db.commits (session w)) = false
  /\ (exists d,
        Db.detection_row 1 (Db.database (session run.2)) = Some d
        /\ Detection.event_type d = "vessel"
        /\ Detection.is_threat d = true
        /\ (AlertService.send_alert E d (committed_world w Examples.clip d)).1
           = Raise DatabaseError)
  /\ run.1 = Raise (HTTPException 500 "Error processing audio: database error")
  /\ (forall resp, run.1 <> Ok resp)
  /\ Alert.status <$> Db.alert_row 1 (Db.database (session run.2))
     = Some "pending"
  /\ outbox run.2 = []
  /\ wire run.2 = [].
Proof.
  cbv zeta.
  split; [vm_compute; reflexivity |].
  split; [vm_compute; reflexivity |].
  split; [reflexivity |].
  split.
  { eexists. split; [vm_compute; reflexivity |].
    split; [reflexivity |]. split; [reflexivity |].
    vm_compute. reflexivity. }
  split; [vm_compute; reflexivity |].
  split; [intros resp; vm_compute; discriminate |].
  split; [vm_compute; reflexivity |].
  split; vm_compute; reflexivity.
Qed.

(** ** Position precedence *)

(** What [x or y] does on optional coordinates: a non-zero explicit value
    wins, a missing one falls through. *)
Lemma or_else_explicit (q : Q) (y : option Q) :
  Qeq_bool q 0 = false -> or_else (Some q) y = Some q.
Proof. intros Hq. unfold or_else, truthy. rewrite Hq. reflexivity. Qed.

Lemma or_else_missing (y : option Q) : or_else None y = y.
Proof. reflexivity. Qed.

(** C6, at the failing input: a request that states the position
    (0.0, 0.0) and names hydrophone 7, which sits at (10, 20), is stored
    at (10, 20): the explicit zero coordinates are treated as missing. *)
Lemma explicit_zero_position_ignored :
  let run :=
    Audio.analyze_audio Examples.env0 Examples.clip
      (Some 7) (Some 0%Q) (Some 0%Q) Examples.world0 in
  exists d,
    Db.detection_row 1 (Db.database (session run.2)) = Some d
    /\ Detection.latitude d = Some 10%Q
    /\ Detection.longitude d = Some 20%Q
    /\ Detection.latitude d <> Some 0%Q.
Proof.
  eexists. split; [vm_compute; reflexivity |].
  split; [reflexivity |]. split; [reflexivity |]. discriminate.
Qed.

(** * Further properties *)

(** ** The registry *)

Lemma manager_eq (a b : Websocket.ConnectionManager) :
  Websocket.active_connections a = Websocket.active_connections b ->
  Websocket.connection_metadata a = Websocket.connection_metadata b ->
  a = b.
Proof. destruct a, b. simpl. intros -> ->. reflexivity. Qed.

Lemma list_remove_first_NoDup (c : Websocket.WebSocket)
    (l : list Websocket.WebSocket) :
  NoDup l -> Websocket.list_remove_first c l = filter (fun x => x <> c) l.
Proof.
  induction 1 as [| y l Hy Hnd IH]; [reflexivity |].
  simpl. rewrite filter_cons.
  destruct (decide (c = y)) as [-> | Hne].
  - destruct (decide (y <> y)) as [Hf | _]; [congruence |].
    symmetry. apply filter_ne_absent. exact Hy.
  - destruct (decide (y <> c)) as [_ | Hf]; [| exfalso; apply Hf; congruence].
    rewrite IH. reflexivity.
Qed.

(** X1: [disconnect] on a websocket that is not registered changes
    nothing, and on a registry without duplicates a second [disconnect]
    of the same websocket changes nothing more. *)
Theorem disconnect_idempotent
    (self : Websocket.ConnectionManager) (c : Websocket.WebSocket) :
  (c ∉ Websocket.active_connections self ->
   Websocket.connection_metadata self !! c = None ->
   Websocket.disconnect self c = self)
  /\ (NoDup (Websocket.active_connections self) ->
      Websocket.disconnect (Websocket.disconnect self c) c
      = Websocket.disconnect self c).
Proof.
  split.
  - intros Hc Hm. apply manager_eq.
    + rewrite disconnect_active. apply list_remove_first_absent. exact Hc.
    + rewrite disconnect_metadata. apply delete_id. exact Hm.
  - intros Hnd. apply manager_eq.
    + rewrite !disconnect_active.
      apply list_remove_first_absent.
      rewrite list_remove_first_NoDup by exact Hnd.
      intros Hin. apply list_elem_of_filter in Hin as [Hne _]. congruence.
    + rewrite !disconnect_metadata. apply delete_delete_eq.
Qed.

(** X2: connecting a websocket that is not yet registered and then
    disconnecting it gives back the registry as it was. *)
Theorem connect_disconnect_round_trip
    (T : Websocket.Transport) (self self' : Websocket.ConnectionManager)
    (c : Websocket.WebSocket) (client_id : option string) (utcnow : Z) :
  c ∉ Websocket.active_connections self ->
  Websocket.connection_metadata self !! c = None ->
  Websocket.connect T self c client_id utcnow = Ok self' ->
  c ∈ Websocket.active_connections self'
  /\ is_Some (Websocket.connection_metadata self' !! c)
  /\ Websocket.disconnect self' c = self.
Proof.
  intros Hc Hm. unfold Websocket.connect.
  destruct (Websocket.accept_raises T c); [discriminate |].
  intros [= <-]. split_and!.
  - simpl. apply elem_of_app. right. apply list_elem_of_singleton. reflexivity.
  - simpl. rewrite lookup_insert_eq. eauto.
  - apply manager_eq.
    + rewrite disconnect_active. simpl.
      rewrite (list_remove_first_middle c (Websocket.active_connections self) [])
        by exact Hc.
      apply app_nil_r.
    + rewrite disconnect_metadata. simpl.
      rewrite delete_insert_eq. apply delete_id. exact Hm.
Qed.

Lemma connect_disconnect_round_trip_witness :
  4%nat ∈ Websocket.active_connections
            {| Websocket.active_connections := [1; 2; 3; 4]%nat;
               Websocket.connection_metadata :=
                 <[ 4%nat := Examples.meta "diver" ]>
                   (Websocket.connection_metadata Examples.manager3) |}
  /\ is_Some
       (Websocket.connection_metadata
          {| Websocket.active_connections := [1; 2; 3; 4]%nat;
             Websocket.connection_metadata :=
               <[ 4%nat := Examples.meta "diver" ]>
                 (Websocket.connection_metadata Examples.manager3) |}
          !! 4%nat)
  /\ Websocket.disconnect
       {| Websocket.active_connections := [1; 2; 3; 4]%nat;
          Websocket.connection_metadata :=
            <[ 4%nat := Examples.meta "diver" ]>
              (Websocket.connection_metadata Examples.manager3) |} 4%nat
     = Examples.manager3.
Proof.
  apply (connect_disconnect_round_trip
           Examples.transport_up Examples.manager3 _ 4%nat (Some "diver") 0).
  - apply (bool_decide_unpack _). vm_compute. exact I.
  - vm_compute. reflexivity.
  - reflexivity.
Defined.

Lemma consistent_disconnect
    (self : Websocket.ConnectionManager) (c : Websocket.WebSocket) :
  consistent self -> consistent (Websocket.disconnect self c).
Proof.
  intros [Hnd Hdom]. unfold consistent.
  rewrite disconnect_active, disconnect_metadata.
  rewrite list_remove_first_NoDup by exact Hnd.
  split; [apply NoDup_filter; exact Hnd |].
  intros x. rewrite list_elem_of_filter.
  destruct (decide (x = c)) as [-> | Hne].
  - rewrite lookup_delete_eq. split.
    + intros [Hf _]. congruence.
    + intros [y Hy]. discriminate Hy.
  - rewrite lookup_delete_ne by congruence. rewrite <- Hdom. tauto.
Qed.

Lemma consistent_broadcast
    (T : Websocket.Transport) (self : Websocket.ConnectionManager)
    (message : Websocket.Message) (wire : Websocket.Wire) :
  consistent self -> consistent (Websocket.broadcast T self message wire).1.
Proof.
  intros [Hnd Hdom].
  destruct (broadcast_spec T message self wire) as (_ & Hactive & Hmeta).
  unfold consistent. rewrite Hactive.
  split; [apply NoDup_filter; exact Hnd |].
  intros x. rewrite Hmeta, list_elem_of_filter.
  destruct (bool_decide _) eqn:Hbad.
  - apply bool_decide_eq_true in Hbad.
    apply list_elem_of_filter in Hbad as [Hbad _]. split.
    + intros [Hgood _]. congruence.
    + intros [y Hy]. discriminate Hy.
  - apply bool_decide_eq_false in Hbad. rewrite <- Hdom. split.
    + tauto.
    + intros Hin. split; [| exact Hin].
      destruct (Websocket.send_json_raises T x message) eqn:Hx; [| reflexivity].
      exfalso. apply Hbad. apply list_elem_of_filter. auto.
Qed.

(** X3: the registry stays consistent (no websocket listed twice, listed
    websockets exactly those with metadata) under every operation of the
    manager: connecting a websocket that is not registered,
    disconnecting any websocket, a personal message and a broadcast,
    whichever sends fail. *)
Theorem registry_consistency
    (T : Websocket.Transport) (self : Websocket.ConnectionManager) :
  consistent self ->
  (forall c client_id utcnow self',
     c ∉ Websocket.active_connections self ->
     Websocket.connect T self c client_id utcnow = Ok self' ->
     consistent self')
  /\ (forall c, consistent (Websocket.disconnect self c))
  /\ (forall message c wire,
        consistent (Websocket.send_personal_message T self message c wire).1)
  /\ (forall message wire,
        consistent (Websocket.broadcast T self message wire).1)
  /\ consistent Websocket.init.
Proof.
  intros Hcons. split_and!.
  - intros c client_id utcnow self' Hc. unfold Websocket.connect.
    destruct (Websocket.accept_raises T c); [discriminate |].
    intros [= <-]. destruct Hcons as [Hnd Hdom]. unfold consistent. simpl.
    split.
    + apply NoDup_app. split_and!.
      * exact Hnd.
      * intros x Hx Hx'. apply list_elem_of_singleton in Hx' as ->. contradiction.
      * apply NoDup_singleton.
    + intros x. rewrite elem_of_app, list_elem_of_singleton.
      destruct (decide (x = c)) as [-> | Hne].
      * rewrite lookup_insert_eq. split; [eauto | auto].
      * rewrite lookup_insert_ne by congruence. rewrite <- Hdom. tauto.
  - intros c. apply consistent_disconnect. exact Hcons.
  - intros message c wire. unfold Websocket.send_personal_message.
    destruct (Websocket.send_json_raises T c message); simpl.
    + apply consistent_disconnect. exact Hcons.
    + exact Hcons.
  - intros message wire. apply consistent_broadcast. exact Hcons.
  - split; simpl.
    + apply NoDup_nil. exact I.
    + intros c. rewrite lookup_empty. split.
      * intros Hin. apply elem_of_nil in Hin. contradiction.
      * intros [y Hy]. discriminate Hy.
Qed.

Lemma registry_consistency_witness :
  (forall c client_id utcnow self',
     c ∉ Websocket.active_connections Examples.manager3 ->
     Websocket.connect Examples.transport_2_down Examples.manager3
       c client_id utcnow = Ok self' ->
     consistent self')
  /\ (forall c, consistent (Websocket.disconnect Examples.manager3 c))
  /\ (forall message c wire,
        consistent (Websocket.send_personal_message
                      Examples.transport_2_down Examples.manager3
                      message c wire).1)
  /\ (forall message wire,
        consistent (Websocket.broadcast
                      Examples.transport_2_down Examples.manager3
                      message wire).1)
  /\ consistent Websocket.init.
Proof.
  apply (registry_consistency Examples.transport_2_down Examples.manager3).
  split.
  - apply (bool_decide_unpack _). vm_compute. exact I.
  - intros c. simpl. unfold Examples.manager3. simpl.
    rewrite !elem_of_cons, elem_of_nil.
    destruct (decide (c = 1%nat)) as [-> | H1].
    { rewrite lookup_insert_eq. split; [eauto | auto]. }
    rewrite lookup_insert_ne by congruence.
    destruct (decide (c = 2%nat)) as [-> | H2].
    { rewrite lookup_insert_eq. split; [eauto | auto]. }
    rewrite lookup_insert_ne by congruence.
    destruct (decide (c = 3%nat)) as [-> | H3].
    { rewrite lookup_insert_eq. split; [eauto | auto]. }
    rewrite lookup_insert_ne by congruence. rewrite lookup_empty.
    split; [intuition congruence | intros [y Hy]; discriminate Hy].
Defined.

(** X4: for any registry and any set of failing subscribers, one
    [broadcast] delivers the message, in registration order, to exactly
    the connections whose send does not raise, removes every connection
    whose send raises, keeps all the others, and so never lets the
    connection count grow; when no send raises the registry is left as
    it was. *)
Theorem broadcast_removes_exactly_failed
    (T : Websocket.Transport) (self : Websocket.ConnectionManager)
    (message : Websocket.Message) (wire : Websocket.Wire) :
  let after := Websocket.broadcast T self message wire in
  let ok c := Websocket.send_json_raises T c message = false in
  after.2 = wire ++ ((fun c => (c, message))
                       <$> filter ok (Websocket.active_connections self))
  /\ Websocket.active_connections after.1
     = filter ok (Websocket.active_connections self)
  /\ (forall c, c ∈ Websocket.active_connections after.1
                <-> c ∈ Websocket.active_connections self /\ ok c)
  /\ Websocket.get_connection_count after.1
     <= Websocket.get_connection_count self
  /\ ((forall c, c ∈ Websocket.active_connections self -> ok c) ->
      after.1 = self).
Proof.
  intros after ok.
  destruct (broadcast_spec T message self wire) as (Hwire & Hactive & Hmeta).
  fold after in Hwire, Hactive, Hmeta.
  split_and!.
  - exact Hwire.
  - exact Hactive.
  - intros c. rewrite Hactive, list_elem_of_filter. unfold ok. tauto.
  - unfold Websocket.get_connection_count, len. rewrite Hactive.
    apply Nat2Z.inj_le. apply length_filter.
  - intros Hall. apply manager_eq.
    + rewrite Hactive.
      clear -Hall. induction (Websocket.active_connections self) as [| x l IH];
        [reflexivity |].
      rewrite filter_cons_True by (apply Hall; apply elem_of_cons; auto).
      rewrite IH; [reflexivity |].
      intros c Hc. apply Hall. apply elem_of_cons. auto.
    + apply map_eq. intros c. rewrite Hmeta.
      rewrite bool_decide_eq_false_2; [reflexivity |].
      intros Hin. apply list_elem_of_filter in Hin as [Hbad Hin].
      specialize (Hall c Hin). unfold ok in Hall. congruence.
Qed.

(** ** The classifier *)

(** X5: the classifier's length step always hands exactly 12000 values
    to the model: the input's own values on every position they both
    have, zeros on the positions the input lacks; applying it twice is
    the same as applying it once. *)
Theorem ensure_length_normalises (v : list Q) :
  len (EchoGuardModel.ensure_length v) = 12000
  /\ (forall i x, Z.of_nat i < 12000 -> v !! i = Some x ->
                  EchoGuardModel.ensure_length v !! i = Some x)
  /\ (forall i, len v <= Z.of_nat i < 12000 ->
                EchoGuardModel.ensure_length v !! i = Some 0%Q)
  /\ EchoGuardModel.ensure_length (EchoGuardModel.ensure_length v)
     = EchoGuardModel.ensure_length v.
Proof.
  split; [apply len_ensure_length |].
  split; [| split].
  - intros i x Hi Hx.
    destruct (Z.lt_trichotomy (len v) 12000) as [Hlt | [Heq | Hgt]].
    + rewrite ensure_length_short by assumption.
      apply lookup_app_l_Some. exact Hx.
    + rewrite ensure_length_exact by assumption. exact Hx.
    + rewrite ensure_length_long by assumption.
      rewrite lookup_take_lt by lia. exact Hx.
  - intros i [Hlo Hhi]. unfold len in Hlo.
    rewrite ensure_length_short by (unfold len; lia).
    rewrite lookup_app_r by lia.
    apply lookup_replicate_2. unfold len. lia.
  - apply ensure_length_exact. apply len_ensure_length.
Qed.

Lemma class_probs_at_least_five (a b c d e : Q) (rest : list Q) :
  EchoGuardModel.class_probs (a :: b :: c :: d :: e :: rest)
  = Ok [ ("marine_life", a); ("vessel", b); ("blast_fishing", c);
         ("seismic", d); ("ambient", e) ].
Proof. reflexivity. Qed.

Lemma class_probs_short (row : list Q) :
  (length row < 5)%nat -> EchoGuardModel.class_probs row = Raise IndexError.
Proof.
  intros Hlen.
  destruct row as [| a [| b [| c [| d [| e rest]]]]];
    try reflexivity.
  simpl in Hlen. lia.
Qed.

(** X6: what [predict] needs in order to return.  Without a loaded
    model it raises ValueError for every input.  With a model, and given
    the output its call returned, [predict] returns exactly when that
    output has a first row of at least five scores whose first maximum is
    among the first five. *)
Theorem predict_outcome
    (self : EchoGuardModel.t) (features : EchoGuardModel.ndarray) :
  (EchoGuardModel.model self = None ->
   EchoGuardModel.predict self features
   = Raise (ValueError "Model not initialized"))
  /\ (forall m,
        EchoGuardModel.model self = Some m ->
        let out :=
          m (reshape_row
               (EchoGuardModel.ensure_length
                  (EchoGuardModel.ensure_flat features))) in
        (exists r, EchoGuardModel.predict self features = Ok r)
        <-> (exists row idx,
               out !! 0%nat = Some row
               /\ (5 <= length row)%nat
               /\ EchoGuardModel.np_argmax row = Ok idx
               /\ (idx < 5)%nat)).
Proof.
  split.
  - intros Hm. unfold EchoGuardModel.predict. rewrite Hm. reflexivity.
  - intros m Hm out. split.
    + intros [r Hr].
      apply predict_Ok in Hr
        as (m' & row & idx & probs & Hm' & Hrow & Hidx & Hconf & Hname
            & Hprobs & _).
      assert (m' = m) as -> by congruence.
      apply index_Ok in Hrow. exists row, idx. split; [exact Hrow |].
      split.
      * destruct (Nat.le_gt_cases 5 (length row)) as [Hle | Hlt]; [exact Hle |].
        rewrite class_probs_short in Hprobs by exact Hlt. discriminate Hprobs.
      * split; [exact Hidx |].
        apply lookup_lt_Some in Hname. simpl in Hname. exact Hname.
    + intros (row & idx & Hrow & Hlen & Hidx & Hlt).
      destruct (np_argmax_first_max _ _ Hidx) as (mx & Hmx & _).
      assert (exists name, EchoGuardModel.CLASSES !! idx = Some name)
        as [name Hname] by (apply lookup_lt_is_Some; simpl; lia).
      destruct row as [| a [| b [| c [| d [| e rest]]]]];
        try (simpl in Hlen; lia).
      unfold EchoGuardModel.predict. rewrite Hm.
      apply index_Ok in Hrow. fold out. rewrite Hrow. cbn [Py.bind].
      rewrite Hidx. cbn [Py.bind].
      apply index_Ok in Hmx. rewrite Hmx. cbn [Py.bind].
      apply index_Ok in Hname. rewrite Hname. cbn [Py.bind].
      rewrite class_probs_at_least_five. cbn [Py.bind]. eauto.
Qed.

(** X7: in every result of [predict] the probability mapping lists the
    five labels in their fixed order, the returned label appears in it
    with the returned confidence, and no listed probability exceeds the
    confidence. *)
Theorem class_probabilities_consistent
    (self : EchoGuardModel.t) (features : EchoGuardModel.ndarray)
    (r : EchoGuardModel.Prediction) :
  EchoGuardModel.predict self features = Ok r ->
  fst <$> EchoGuardModel.class_probabilities r = EchoGuardModel.CLASSES
  /\ (EchoGuardModel.event_type r, EchoGuardModel.confidence r)
     ∈ EchoGuardModel.class_probabilities r
  /\ (forall name p,
        (name, p) ∈ EchoGuardModel.class_probabilities r ->
        (p <= EchoGuardModel.confidence r)%Q).
Proof.
  intros Hr.
  apply predict_Ok in Hr
    as (m & row & idx & probs & _ & _ & Hidx & Hconf & Hname & Hprobs & Hcp & _).
  destruct (np_argmax_first_max _ _ Hidx) as (mx & Hmx & Hmax & _).
  assert (mx = EchoGuardModel.confidence r) as -> by congruence.
  destruct (Nat.le_gt_cases 5 (length row)) as [Hle | Hlt];
    [| rewrite class_probs_short in Hprobs by exact Hlt; discriminate Hprobs].
  destruct row as [| a [| b [| c [| d [| e rest]]]]];
    try (simpl in Hle; lia).
  rewrite class_probs_at_least_five in Hprobs. injection Hprobs as <-.
  rewrite Hcp. split_and!.
  - reflexivity.
  - assert (idx < 5)%nat as Hlt
      by (apply lookup_lt_Some in Hname; simpl in Hname; exact Hname).
    destruct idx as [| [| [| [| [| idx]]]]]; [.. | lia];
      simpl in Hname, Hconf;
      injection Hname as <-; injection Hconf as <-;
      repeat first [ apply list_elem_of_here | apply list_elem_of_further ].
  - intros name p Hin.
    repeat (apply elem_of_cons in Hin as [Hin | Hin];
            [ injection Hin as _ ->;
              first [ apply (Hmax 0%nat); reflexivity
                    | apply (Hmax 1%nat); reflexivity
                    | apply (Hmax 2%nat); reflexivity
                    | apply (Hmax 3%nat); reflexivity
                    | apply (Hmax 4%nat); reflexivity ] |]).
    apply elem_of_nil in Hin. contradiction.
Qed.

Lemma class_probabilities_consistent_witness :
  fst <$> EchoGuardModel.class_probabilities Examples.prediction_vessel
  = EchoGuardModel.CLASSES
  /\ (EchoGuardModel.event_type Examples.prediction_vessel,
      EchoGuardModel.confidence Examples.prediction_vessel)
     ∈ EchoGuardModel.class_probabilities Examples.prediction_vessel
  /\ (forall name p,
        (name, p) ∈ EchoGuardModel.class_probabilities Examples.prediction_vessel ->
        (p <= EchoGuardModel.confidence Examples.prediction_vessel)%Q).
Proof.
  apply (class_probabilities_consistent
           Examples.model0 (EchoGuardModel.Vec [])).
  vm_compute. reflexivity.
Defined.

Lemma comprehension_Ok {A B} (f : A -> result B) (l : list A) (bs : list B) :
  EchoGuardModel.comprehension f l = Ok bs
  <-> Forall2 (fun a b => f a = Ok b) l bs.
Proof.
  revert bs. induction l as [| a l IH]; intros bs; simpl.
  - split.
    + intros [= <-]. constructor.
    + intros H. inversion H. reflexivity.
  - split.
    + intros H. apply bind_Ok in H as (b & Hb & H).
      apply bind_Ok in H as (bs' & Hbs & H). injection H as <-.
      constructor; [exact Hb | apply IH; exact Hbs].
    + intros H. inversion H as [| a' b l' bs' Hb Hrest]; subst.
      rewrite Hb. simpl. apply IH in Hrest. rewrite Hrest. reflexivity.
Qed.

Lemma comprehension_Raise {A B} (f : A -> result B) (l : list A) (e : exn) :
  EchoGuardModel.comprehension f l = Raise e
  <-> exists i a,
        l !! i = Some a
        /\ f a = Raise e
        /\ forall j a', (j < i)%nat -> l !! j = Some a' -> exists b, f a' = Ok b.
Proof.
  induction l as [| a l IH]; simpl.
  - split; [discriminate |]. intros (i & a & Hi & _). discriminate Hi.
  - destruct (f a) as [b | e0] eqn:Hfa; simpl.
    + destruct (EchoGuardModel.comprehension f l) as [bs | e1] eqn:Hl; simpl.
      * split; [discriminate |].
        intros (i & a' & Hi & Hfa' & Hbefore).
        destruct i as [| i]; simpl in Hi.
        -- injection Hi as <-. congruence.
        -- assert (@Ok (list B) bs = Raise e); [| discriminate].
           apply IH. exists i, a'. split; [exact Hi |]. split; [exact Hfa' |].
           intros j x Hj Hx. apply (Hbefore (S j)); [lia | exact Hx].
      * split.
        -- intros [= <-].
           destruct (proj1 IH eq_refl) as (i & a' & Hi & Hfa' & Hbefore).
           exists (S i), a'. split; [exact Hi |]. split; [exact Hfa' |].
           intros [| j] x Hj Hx; simpl in Hx.
           ++ injection Hx as <-. eauto.
           ++ apply (Hbefore j); [lia | exact Hx].
        -- intros (i & a' & Hi & Hfa' & Hbefore).
           destruct i as [| i]; simpl in Hi.
           ++ injection Hi as <-. congruence.
           ++ apply IH. exists i, a'. split; [exact Hi |]. split; [exact Hfa' |].
              intros j x Hj Hx. apply (Hbefore (S j)); [lia | exact Hx].
    + split.
      * intros [= <-]. exists 0%nat, a. split; [reflexivity |].
        split; [exact Hfa |]. intros j x Hj. lia.
      * intros (i & a' & Hi & Hfa' & Hbefore).
        destruct i as [| i]; simpl in Hi.
        -- injection Hi as <-. congruence.
        -- destruct (Hbefore 0%nat a) as [b Hb]; [lia | reflexivity |].
           congruence.
Qed.

(** X8: [predict_batch] returns exactly when [predict] returns on every
    input, and then gives the results of [predict] one for one, in
    order; otherwise it raises what [predict] raises on the first input
    on which it fails. *)
Theorem predict_batch_pointwise
    (self : EchoGuardModel.t) (features_list : list EchoGuardModel.ndarray) :
  (forall results,
     EchoGuardModel.predict_batch self features_list = Ok results
     <-> Forall2 (fun f r => EchoGuardModel.predict self f = Ok r)
           features_list results)
  /\ (forall results,
        EchoGuardModel.predict_batch self features_list = Ok results ->
        length results = length features_list)
  /\ (forall e,
        EchoGuardModel.predict_batch self features_list = Raise e
        <-> exists i f,
              features_list !! i = Some f
              /\ EchoGuardModel.predict self f = Raise e
              /\ forall j f', (j < i)%nat -> features_list !! j = Some f' ->
                              exists r, EchoGuardModel.predict self f' = Ok r).
Proof.
  unfold EchoGuardModel.predict_batch. split_and!.
  - intros results. apply comprehension_Ok.
  - intros results H. apply comprehension_Ok in H.
    symmetry. eapply Forall2_length. exact H.
  - intros e. apply comprehension_Raise.
Qed.

(** ** Feature extraction *)

Lemma len_slice_to_le {A} (n : Z) (l : list A) :
  0 <= n -> len (slice_to n l) <= n.
Proof. intros Hn. rewrite len_slice_to by exact Hn. lia. Qed.

(** X9: the five sub-features are each cut before they are joined
    (11136, 1131, 87, 87 and 87 values at most), so their concatenation
    never exceeds 12528 values: the final step of [extract_features]
    only ever pads, it never cuts anything off. *)
Theorem extract_features_only_pads
    (L : AudioProcessor.Librosa) (self : AudioProcessor.t)
    (audio comb : list Q) :
  AudioProcessor.combined_features L self audio = Ok comb ->
  len comb <= 12528
  /\ AudioProcessor.extract_features L self audio
     = Ok [comb ++ replicate (Z.to_nat (12528 - len comb)) 0%Q]
  /\ (forall i x, comb !! i = Some x ->
        exists v, AudioProcessor.extract_features L self audio = Ok [v]
                  /\ v !! i = Some x).
Proof.
  intros Hcomb.
  assert (len comb <= 12528) as Hlen.
  { unfold AudioProcessor.combined_features in Hcomb.
    apply bind_Ok in Hcomb as (c & _ & Hcomb).
    apply bind_Ok in Hcomb as (r & _ & Hcomb).
    apply bind_Ok in Hcomb as (z & _ & Hcomb).
    injection Hcomb as <-.
    cbn [concat]. rewrite !len_app. change (len (@nil Q)) with 0.
    pose proof (len_slice_to_le (128 * 87)
                  (flatten (AudioProcessor.power_to_db L
                     (AudioProcessor.melspectrogram L audio
                        (AudioProcessor.sample_rate self))))).
    pose proof (len_slice_to_le (13 * 87)
                  (flatten (AudioProcessor.mfcc L audio
                     (AudioProcessor.sample_rate self)))).
    pose proof (len_slice_to_le 87 c).
    pose proof (len_slice_to_le 87 r).
    pose proof (len_slice_to_le 87 z).
    lia. }
  assert (AudioProcessor.extract_features L self audio
          = Ok [comb ++ replicate (Z.to_nat (12528 - len comb)) 0%Q]) as Hout.
  { unfold AudioProcessor.extract_features. rewrite Hcomb. cbn [Py.bind].
    unfold reshape_row. rewrite pad_or_trim_short
      by (rewrite target_size_value; exact Hlen).
    rewrite target_size_value. reflexivity. }
  split; [exact Hlen |]. split; [exact Hout |].
  intros i x Hx. eexists. split; [exact Hout |].
  apply lookup_app_l_Some. exact Hx.
Qed.

Lemma extract_features_only_pads_witness :
  len (replicate 144 0%Q) <= 12528
  /\ AudioProcessor.extract_features
       Examples.librosa0 Examples.processor0 [1; 2; 3]%Q
     = Ok [replicate 144 0%Q
             ++ replicate (Z.to_nat (12528 - len (replicate 144 0%Q))) 0%Q]
  /\ (forall i x, replicate 144 0%Q !! i = Some x ->
        exists v,
          AudioProcessor.extract_features
            Examples.librosa0 Examples.processor0 [1; 2; 3]%Q = Ok [v]
          /\ v !! i = Some x).
Proof.
  apply (extract_features_only_pads
           Examples.librosa0 Examples.processor0 [1; 2; 3]%Q).
  vm_compute. reflexivity.
Defined.

(** X10: [preprocess_audio] on bytes.  Empty bytes are refused with a
    ValueError before any decoding; a decoding error comes back as a
    ValueError that carries the decoder's message; decoded audio is cut
    or zero-padded on the right to exactly [target_length] samples
    before the features are extracted; and every result is one row of
    12528 values. *)
Theorem preprocess_audio_contract
    (L : AudioProcessor.Librosa) (self : AudioProcessor.t)
    (audio_bytes : list Byte.byte) :
  0 <= AudioProcessor.target_length self ->
  (audio_bytes = [] ->
   AudioProcessor.preprocess_audio L self audio_bytes
   = Raise (ValueError "Either audio_path or audio_bytes must be provided"))
  /\ (forall e,
        audio_bytes <> [] ->
        AudioProcessor.load L audio_bytes (AudioProcessor.sample_rate self)
          (AudioProcessor.duration self) = Raise e ->
        AudioProcessor.preprocess_audio L self audio_bytes
        = Raise (ValueError ("Error loading audio from bytes: " +:+ str e)))
  /\ (forall y,
        audio_bytes <> [] ->
        AudioProcessor.load L audio_bytes (AudioProcessor.sample_rate self)
          (AudioProcessor.duration self) = Ok y ->
        exists audio,
          AudioProcessor.preprocess_audio L self audio_bytes
          = AudioProcessor.extract_features L self audio
          /\ len audio = AudioProcessor.target_length self
          /\ (forall i x, Z.of_nat i < AudioProcessor.target_length self ->
                          y !! i = Some x -> audio !! i = Some x)
          /\ (forall i, len y <= Z.of_nat i < AudioProcessor.target_length self ->
                        audio !! i = Some 0%Q))
  /\ (forall out,
        AudioProcessor.preprocess_audio L self audio_bytes = Ok out ->
        exists v, out = [v] /\ len v = 12528).
Proof.
  intros Htl. split_and!.
  - intros ->. reflexivity.
  - intros e Hne Hload. destruct audio_bytes as [| b bs]; [congruence |].
    unfold AudioProcessor.preprocess_audio,
      AudioProcessor.load_audio_from_bytes.
    rewrite Hload. reflexivity.
  - intros y Hne Hload. destruct audio_bytes as [| b bs]; [congruence |].
    unfold AudioProcessor.preprocess_audio,
      AudioProcessor.load_audio_from_bytes.
    rewrite Hload. cbn [Py.bind].
    eexists. split; [reflexivity |].
    pose proof (len_nonneg y) as Hy.
    destruct (Z.ltb_spec (len y) (AudioProcessor.target_length self))
      as [Hlt | Hge].
    + unfold np_pad_right. split_and!.
      * rewrite len_app, len_np_zeros; lia.
      * intros i x Hi Hx. apply lookup_app_l_Some. exact Hx.
      * intros i [Hlo Hhi]. unfold len in Hlo.
        rewrite lookup_app_r by lia. unfold np_zeros.
        apply lookup_replicate_2. unfold len. lia.
    + rewrite slice_to_take by exact Htl. split_and!.
      * unfold len in *. rewrite length_take. lia.
      * intros i x Hi Hx. rewrite lookup_take_lt by lia. exact Hx.
      * intros i [Hlo Hhi]. lia.
  - intros out Hout. destruct audio_bytes as [| b bs]; [discriminate |].
    unfold AudioProcessor.preprocess_audio in Hout.
    apply bind_Ok in Hout as ([audio sr] & _ & Hout).
    apply extract_features_shape in Hout as (comb & _ & ->).
    eexists. split; [reflexivity |].
    rewrite len_pad_or_trim. apply target_size_value.
Qed.

Lemma preprocess_audio_contract_witness :
  let L := Examples.librosa0 in
  let self := Examples.processor0 in
  let audio_bytes := Audio.content Examples.clip in
  (audio_bytes = [] ->
   AudioProcessor.preprocess_audio L self audio_bytes
   = Raise (ValueError "Either audio_path or audio_bytes must be provided"))
  /\ (forall e,
        audio_bytes <> [] ->
        AudioProcessor.load L audio_bytes (AudioProcessor.sample_rate self)
          (AudioProcessor.duration self) = Raise e ->
        AudioProcessor.preprocess_audio L self audio_bytes
        = Raise (ValueError ("Error loading audio from bytes: " +:+ str e)))
  /\ (forall y,
        audio_bytes <> [] ->
        AudioProcessor.load L audio_bytes (AudioProcessor.sample_rate self)
          (AudioProcessor.duration self) = Ok y ->
        exists audio,
          AudioProcessor.preprocess_audio L self audio_bytes
          = AudioProcessor.extract_features L self audio
          /\ len audio = AudioProcessor.target_length self
          /\ (forall i x, Z.of_nat i < AudioProcessor.target_length self ->
                          y !! i = Some x -> audio !! i = Some x)
          /\ (forall i, len y <= Z.of_nat i < AudioProcessor.target_length self ->
                        audio !! i = Some 0%Q))
  /\ (forall out,
        AudioProcessor.preprocess_audio L self audio_bytes = Ok out ->
        exists v, out = [v] /\ len v = 12528).
Proof.
  apply (preprocess_audio_contract
           Examples.librosa0 Examples.processor0 (Audio.content Examples.clip)).
  vm_compute. discriminate.
Defined.

(** ** The alert dispatcher, continued *)

(** X11: with a database that accepts every commit, [send_alert] returns
    normally, adds one alert row for the detection and leaves every
    other alert row alone, and the row records how the delivery went:
    sent when the post to the configured URL goes through (and then
    exactly that post is in the outbox), sent as well when no URL is
    configured (and then nothing is posted), failed when the post raises
    or the detection has no timestamp to put in the payload. *)
Theorem send_alert_records_delivery
    (E : Env) (detection : Detection.t) (w : World) :
  (forall n, commit_raises E n = false) ->
  let run := AlertService.send_alert E detection w in
  let url := Settings.ALERT_WEBHOOK_URL (settings E) in
  let i := Db.next_alert_id (Db.database (session w)) in
  run.1 = Ok ()
  /\ exists a,
       Db.alert_row i (Db.database (session run.2)) = Some a
       /\ Alert.detection_id a = Detection.id detection
       /\ Alert.alert_type a = "webhook"
       /\ (forall j, j <> i ->
             Db.alert_row j (Db.database (session run.2))
             = Db.alert_row j (Db.database (session w)))
       /\ match Detection.timestamp detection with
          | Some ts =>
              if str_truthy url
                 && negb (post_raises E url (AlertService.payload detection a ts))
              then Alert.status a = "sent"
                   /\ outbox run.2
                      = outbox w ++ [(url, AlertService.payload detection a ts)]
              else Alert.status a = (if str_truthy url then "failed" else "sent")
                   /\ outbox run.2 = outbox w
          | None =>
              Alert.status a = (if str_truthy url then "failed" else "sent")
              /\ outbox run.2 = outbox w
          end.
Proof.
  intros Hc. unfold_send_alert.
  repeat alert_step; run_world.
  all: try match goal with
           | H : commit_raises _ _ = true |- _ => rewrite Hc in H; discriminate H
           end.
  all: split; [reflexivity |].
  all: eexists; split;
    [ eapply alert_row_update_same;
      [ reflexivity | apply alert_row_insert_same; reflexivity ] |].
  all: split; [reflexivity |]; split; [reflexivity |].
  all: split;
    [ intros j Hj; etransitivity;
      [ eapply alert_row_update_other; [reflexivity | exact Hj]
      | eapply alert_row_insert_other; [reflexivity | exact Hj] ] |].
  all: run_world.
  all: try match goal with
           | H : post_raises _ _ ?p = _ |- context [post_raises _ _ ?q] =>
               change q with p; rewrite H
           end.
  all: try destruct (Detection.timestamp detection).
  all: cbn [negb andb]; split; reflexivity.
Qed.

Lemma send_alert_records_delivery_witness :
  let E := Examples.env0 in
  let detection := Examples.detection1 in
  let w := Examples.world0 in
  let run := AlertService.send_alert E detection w in
  let url := Settings.ALERT_WEBHOOK_URL (settings E) in
  let i := Db.next_alert_id (Db.database (session w)) in
  run.1 = Ok ()
  /\ exists a,
       Db.alert_row i (Db.database (session run.2)) = Some a
       /\ Alert.detection_id a = Detection.id detection
       /\ Alert.alert_type a = "webhook"
       /\ (forall j, j <> i ->
             Db.alert_row j (Db.database (session run.2))
             = Db.alert_row j (Db.database (session w)))
       /\ match Detection.timestamp detection with
          | Some ts =>
              if str_truthy url
                 && negb (post_raises E url (AlertService.payload detection a ts))
              then Alert.status a = "sent"
                   /\ outbox run.2
                      = outbox w ++ [(url, AlertService.payload detection a ts)]
              else Alert.status a = (if str_truthy url then "failed" else "sent")
                   /\ outbox run.2 = outbox w
          | None =>
              Alert.status a = (if str_truthy url then "failed" else "sent")
              /\ outbox run.2 = outbox w
          end.
Proof.
  apply (send_alert_records_delivery
           Examples.env0 Examples.detection1 Examples.world0).
  intros n. reflexivity.
Defined.

(** X12: whatever the environment does, [send_alert] raises nothing but
    a database error (a webhook error never escapes it), posts nothing
    when no URL is configured, and posts at most once, to the configured
    URL, and only after the alert has been committed as pending. *)
Theorem send_alert_webhook_discipline
    (E : Env) (detection : Detection.t) (w : World) :
  let run := AlertService.send_alert E detection w in
  let url := Settings.ALERT_WEBHOOK_URL (settings E) in
  let i := Db.next_alert_id (Db.database (session w)) in
  (run.1 = Ok () \/ run.1 = Raise DatabaseError)
  /\ (str_truthy url = false -> outbox run.2 = outbox w)
  /\ (outbox run.2 = outbox w
      \/ exists ts a db1 rest,
           Detection.timestamp detection = Some ts
           /\ outbox run.2
              = outbox w ++ [(url, AlertService.payload detection a ts)]
           /\ post_raises E url (AlertService.payload detection a ts) = false
           /\ Db.history (session run.2)
              = Db.history (session w) ++ db1 :: rest
           /\ Db.alert_row i db1 = Some a
           /\ Alert.status a = "pending").
Proof.
  unfold_send_alert.
  repeat alert_step; run_world.
  all: split_and!;
    try solve [left; reflexivity]; try solve [right; reflexivity];
    try solve [intros; congruence].
  all: right; eexists _, _, _, _; split_and!;
    [ reflexivity | reflexivity | eassumption
    | rewrite <- ?app_assoc; reflexivity
    | apply alert_row_insert_same; reflexivity
    | reflexivity ].
Qed.

(** ** The analyze endpoint, continued *)

(** Once the upload has been classified and the detection committed,
    [analyze_audio] is its tail run under its handler. *)
Lemma analyze_audio_after_commit
    (E : Env) (file : Audio.UploadFile) (hydrophone_id : option Z)
    (latitude longitude : option Q) (w : World)
    (features : list (list Q)) (prediction : EchoGuardModel.Prediction)
    (hydrophone : option Hydrophone.t) :
  let db := Db.database (session w) in
  let path := Audio.upload_path (clock w) (Audio.filename file) in
  let detection :=
    Detection.with_row
      (Audio.new_detection hydrophone_id prediction path
         latitude longitude hydrophone)
      (Db.next_detection_id db) (clock w + 1) in
  Audio.supported_format (Audio.filename file) = true ->
  write_raises E path = false ->
  AudioProcessor.preprocess_audio (librosa E) (Audio.audio_processor E)
    (Audio.content file) = Ok features ->
  EchoGuardModel.predict (ml_model E) (EchoGuardModel.Mat features)
    = Ok prediction ->
  Audio.get_hydrophone hydrophone_id db = Ok hydrophone ->
  commit_raises E (Db.commits (session w)) = false ->
  Audio.analyze_audio E file hydrophone_id latitude longitude w
  = try_except (analyze_tail E prediction detection) analyze_handler
      (committed_world w file detection).
Proof.
  intros db path detection Hfmt Hwrite Hfeat Hpred Hhyd Hcommit.
  subst db path detection.
  unfold Audio.analyze_audio, Audio.commit_detection, Audio.save_upload.
  unfold try_except at 1.
  rewrite Hfmt. cbn [negb].
  unfold mbind' at 1. unfold utcnow at 1.
  unfold mbind' at 1. cbn [clock]. rewrite Hwrite.
  unfold mbind' at 1. unfold lift at 1. rewrite Hfeat.
  unfold mbind' at 1. unfold lift at 1. rewrite Hpred.
  unfold mbind' at 1. unfold pending_database at 1.
  unfold mbind' at 1. unfold lift at 1. cbn [session]. rewrite Hhyd.
  unfold mbind' at 1. unfold mbind' at 1. unfold utcnow at 1.
  unfold mbind' at 1. unfold pending_database at 1. cbn [session clock].
  rewrite flush_new_detection.
  unfold mbind' at 1. unfold db_commit, Db.commit, set_session.
  cbn [session]. rewrite Hcommit.
  reflexivity.
Qed.

Lemma send_alert_hydrophones (E : Env) (detection : Detection.t) (w : World) :
  Db.hydrophones (Db.database (session (AlertService.send_alert E detection w).2))
  = Db.hydrophones (Db.database (session w)).
Proof.
  destruct (send_alert_shapes E detection w)
    as (_ & _ & _ & new & _ & -> & Hshape).
  destruct Hshape as [-> | [(a & -> & _) | (a & a' & -> & _)]]; reflexivity.
Qed.

(** The tail of [analyze_audio], step by step: the alert step, then the
    two broadcasts, which cannot fail. *)
Lemma analyze_tail_run
    (E : Env) (prediction : EchoGuardModel.Prediction)
    (detection : Detection.t) (ts : Z) (w : World) :
  Detection.timestamp detection = Some ts ->
  let step :=
    (if EchoGuardModel.is_threat prediction
        && Settings.ENABLE_ALERTS (settings E)
     then AlertService.send_alert E detection
     else ret ()) w in
  let w2 := step.2 in
  let run := analyze_tail E prediction detection w in
  session run.2 = session w2
  /\ outbox run.2 = outbox w2
  /\ files run.2 = files w2
  /\ match step.1 with
     | Raise e =>
         run.1 = Raise e /\ manager run.2 = manager w2 /\ wire run.2 = wire w2
     | Ok _ =>
         run.1 = Ok {| Audio.r_detection_id := Detection.id detection;
                       Audio.r_event_type := EchoGuardModel.event_type prediction;
                       Audio.r_confidence := EchoGuardModel.confidence prediction;
                       Audio.r_is_threat := EchoGuardModel.is_threat prediction;
                       Audio.r_class_probabilities :=
                         EchoGuardModel.class_probabilities prediction;
                       Audio.r_timestamp := ts |}
         /\ let b1 :=
              Websocket.broadcast (transport E) (manager w2)
                (Websocket.envelope "new_detection" (clock w2)
                   (detection_data prediction detection ts))
                (wire w2) in
            if EchoGuardModel.is_threat prediction
            then
              let b2 :=
                Websocket.broadcast (transport E) b1.1
                  (Websocket.envelope "alert" (clock w2 + 1)
                     (alert_data prediction detection))
                  b1.2 in
              manager run.2 = b2.1 /\ wire run.2 = b2.2
            else manager run.2 = b1.1 /\ wire run.2 = b1.2
     end.
Proof.
  intros Hts step w2 run. subst w2.
  assert (run = analyze_tail E prediction detection w) as Hrun by reflexivity.
  clearbody run.
  unfold analyze_tail in Hrun. unfold mbind' at 1 in Hrun. fold step in Hrun.
  clearbody step. revert Hrun.
  destruct step as [[[] | e] w2]; cbn [fst snd];
    [| intros ->; repeat split; reflexivity].
  rewrite Hts.
  unfold Audio.manager_broadcast, mbind', utcnow, lift, ret, isoformat.
  cbn [clock manager wire session outbox files].
  destruct (Websocket.broadcast (transport E) (manager w2) _ (wire w2))
    as [m1 wi1].
  cbn [fst snd clock manager wire session outbox files].
  destruct (EchoGuardModel.is_threat prediction).
  - cbn [fst snd clock manager wire session outbox files].
    destruct (Websocket.broadcast (transport E) m1 _ wi1) as [m2 wi2].
    cbn [fst snd clock manager wire session outbox files].
    intros ->. repeat split; reflexivity.
  - cbn [fst snd clock manager wire session outbox files].
    intros ->. repeat split; reflexivity.
Qed.

Lemma try_except_handler {A : Type} (body : M A) (f : exn -> exn) (w : World) :
  (try_except body (fun e => raise (f e)) w).2 = (body w).2
  /\ (try_except body (fun e => raise (f e)) w).1
     = match (body w).1 with
       | Ok a => Ok a
       | Raise e => Raise (f e)
       end.
Proof.
  unfold try_except, raise. destruct (body w) as [[a | e] w']; split; reflexivity.
Qed.

(** X13: every error [analyze_audio] reports has status 500 and a detail
    that starts with "Error processing audio: ".  In particular a file
    name with an unsupported extension, which the code raises as a 400,
    reaches the caller as a 500; in that case nothing at all has been
    done: no file saved, no row written, nothing broadcast, the clock
    not even read. *)
Theorem analyze_audio_errors_are_500
    (E : Env) (file : Audio.UploadFile) (hydrophone_id : option Z)
    (latitude longitude : option Q) (w : World) :
  let run := Audio.analyze_audio E file hydrophone_id latitude longitude w in
  (forall e, run.1 = Raise e ->
             exists detail,
               e = HTTPException 500 ("Error processing audio: " +:+ detail))
  /\ (Audio.supported_format (Audio.filename file) = false ->
      run.1 = Raise (HTTPException 500
                       ("Error processing audio: "
                          +:+ str (HTTPException 400 "Unsupported audio format")))
      /\ run.2 = w).
Proof.
  intros run. split.
  - intros e. subst run. unfold Audio.analyze_audio.
    match goal with
    | |- (try_except ?body ?h w).1 = _ -> _ =>
        destruct (try_except_handler body
                    (fun e => HTTPException 500
                                ("Error processing audio: " +:+ str e)) w)
          as [_ Hres];
        change ((try_except body h w).1) with
          ((try_except body
              (fun e => raise (HTTPException 500
                                 ("Error processing audio: " +:+ str e))) w).1);
        rewrite Hres; destruct (body w).1 as [a | e0]
    end.
    + discriminate.
    + intros [= <-]. eauto.
  - intros Hfmt. subst run. unfold Audio.analyze_audio, try_except.
    rewrite Hfmt. cbn [negb]. unfold raise. split; reflexivity.
Qed.

(** X14: a request that names a hydrophone that does not exist is
    answered 500 (the 404 raised inside is wrapped), after the upload
    has already been saved: the file is on disk, but no detection and
    no alert is recorded and nothing is broadcast. *)
Theorem analyze_audio_unknown_hydrophone
    (E : Env) (file : Audio.UploadFile) (hydrophone_id : Z)
    (latitude longitude : option Q) (w : World)
    (features : list (list Q)) (prediction : EchoGuardModel.Prediction) :
  let db := Db.database (session w) in
  let path := Audio.upload_path (clock w) (Audio.filename file) in
  Audio.supported_format (Audio.filename file) = true ->
  write_raises E path = false ->
  AudioProcessor.preprocess_audio (librosa E) (Audio.audio_processor E)
    (Audio.content file) = Ok features ->
  EchoGuardModel.predict (ml_model E) (EchoGuardModel.Mat features)
    = Ok prediction ->
  hydrophone_id <> 0 ->
  Db.hydrophone_row hydrophone_id db = None ->
  let run :=
    Audio.analyze_audio E file (Some hydrophone_id) latitude longitude w in
  run.1 = Raise (HTTPException 500
                   ("Error processing audio: "
                      +:+ str (HTTPException 404 "Hydrophone not found")))
  /\ session run.2 = session w
  /\ files run.2 = files w ++ [(path, Audio.content file)]
  /\ wire run.2 = wire w
  /\ manager run.2 = manager w
  /\ outbox run.2 = outbox w.
Proof.
  intros db path Hfmt Hwrite Hfeat Hpred Hne Hrow run.
  subst run db path.
  unfold Audio.analyze_audio, Audio.save_upload, Audio.get_hydrophone,
    try_except, mbind', utcnow, lift, pending_database, raise.
  rewrite Hfmt. cbn [negb clock session]. rewrite Hwrite, Hfeat, Hpred.
  cbn [session].
  destruct (Z.eqb_spec hydrophone_id 0) as [Heq | _]; [contradiction |].
  rewrite Hrow. repeat split; reflexivity.
Qed.

Lemma analyze_audio_unknown_hydrophone_witness :
  let E := Examples.env0 in
  let w := Examples.world0 in
  let path := Audio.upload_path (clock w) (Audio.filename Examples.clip) in
  let run :=
    Audio.analyze_audio E Examples.clip (Some 8) None None w in
  run.1 = Raise (HTTPException 500
                   ("Error processing audio: "
                      +:+ str (HTTPException 404 "Hydrophone not found")))
  /\ session run.2 = session w
  /\ files run.2 = files w ++ [(path, Audio.content Examples.clip)]
  /\ wire run.2 = wire w
  /\ manager run.2 = manager w
  /\ outbox run.2 = outbox w.
Proof.
  apply (analyze_audio_unknown_hydrophone
           Examples.env0 Examples.clip 8 None None Examples.world0
           Examples.features0 Examples.prediction_vessel).
  - vm_compute. reflexivity.
  - reflexivity.
  - vm_compute. reflexivity.
  - vm_compute. reflexivity.
  - discriminate.
  - vm_compute. reflexivity.
Defined.

Lemma analyze_audio_from_tail
    (E : Env) (prediction : EchoGuardModel.Prediction)
    (detection : Detection.t) (w1 : World) :
  let run := try_except (analyze_tail E prediction detection) analyze_handler w1 in
  run.2 = (analyze_tail E prediction detection w1).2
  /\ run.1 = match (analyze_tail E prediction detection w1).1 with
             | Ok a => Ok a
             | Raise e =>
                 Raise (HTTPException 500
                          ("Error processing audio: " +:+ str e))
             end.
Proof.
  apply (try_except_handler (analyze_tail E prediction detection)
           (fun e => HTTPException 500 ("Error processing audio: " +:+ str e))).
Qed.

(** X15: when the clip is not a threat, or alerts are switched off,
    [analyze_audio] always returns the detection, writes no alert row
    and posts nothing to the webhook; the committed history grows by
    the detection insert alone.  The [new_detection] event goes to every
    subscriber whose send works; and for a threat the [alert] event is
    broadcast as well, even though alerts are switched off. *)
Theorem analyze_audio_without_alert
    (E : Env) (file : Audio.UploadFile) (hydrophone_id : option Z)
    (latitude longitude : option Q) (w : World)
    (features : list (list Q)) (prediction : EchoGuardModel.Prediction)
    (hydrophone : option Hydrophone.t) :
  let db := Db.database (session w) in
  let path := Audio.upload_path (clock w) (Audio.filename file) in
  let detection :=
    Detection.with_row
      (Audio.new_detection hydrophone_id prediction path
         latitude longitude hydrophone)
      (Db.next_detection_id db) (clock w + 1) in
  Audio.supported_format (Audio.filename file) = true ->
  write_raises E path = false ->
  AudioProcessor.preprocess_audio (librosa E) (Audio.audio_processor E)
    (Audio.content file) = Ok features ->
  EchoGuardModel.predict (ml_model E) (EchoGuardModel.Mat features)
    = Ok prediction ->
  Audio.get_hydrophone hydrophone_id db = Ok hydrophone ->
  commit_raises E (Db.commits (session w)) = false ->
  EchoGuardModel.is_threat prediction
    && Settings.ENABLE_ALERTS (settings E) = false ->
  let run := Audio.analyze_audio E file hydrophone_id latitude longitude w in
  let event1 :=
    Websocket.envelope "new_detection" (clock w + 2)
      (detection_data prediction detection (clock w + 1)) in
  let event2 :=
    Websocket.envelope "alert" (clock w + 3)
      (alert_data prediction detection) in
  (exists resp,
     run.1 = Ok resp
     /\ Audio.r_detection_id resp = Some (Db.next_detection_id db)
     /\ Audio.r_timestamp resp = clock w + 1)
  /\ Db.alerts (Db.database (session run.2)) = Db.alerts db
  /\ outbox run.2 = outbox w
  /\ Db.history (session run.2)
     = Db.history (session w) ++ [Db.insert_detection detection db]
  /\ wire run.2
     = wire w ++ deliveries (transport E) (manager w) event1
         ++ (if EchoGuardModel.is_threat prediction
             then deliveries (transport E)
                    (Websocket.broadcast (transport E) (manager w) event1
                       (wire w)).1
                    event2
             else []).
Proof.
  intros db path detection Hfmt Hwrite Hfeat Hpred Hhyd Hcommit Hoff
    run event1 event2.
  subst run.
  rewrite (analyze_audio_after_commit E file hydrophone_id latitude longitude
             w features prediction hydrophone Hfmt Hwrite Hfeat Hpred Hhyd
             Hcommit).
  fold db path detection.
  destruct (analyze_audio_from_tail E prediction detection
              (committed_world w file detection)) as [Hw Hr].
  cbv zeta in Hw, Hr. rewrite Hw, Hr. clear Hw Hr.
  pose proof (analyze_tail_run E prediction detection (clock w + 1)
                (committed_world w file detection) eq_refl) as Hrun.
  cbv zeta in Hrun. rewrite Hoff in Hrun.
  unfold ret in Hrun. cbn [fst snd] in Hrun.
  destruct Hrun as (Hsess & Hout & _ & Hres & Hcast).
  rewrite Hres, Hsess, Hout. cbn [committed_world session outbox Db.database
                                   Db.history Db.insert_detection Db.alerts].
  split; [eexists; split_and!; reflexivity |].
  split; [reflexivity |]. split; [reflexivity |]. split; [reflexivity |].
  cbn [committed_world manager wire clock] in Hcast.
  replace (clock w + 1 + 1) with (clock w + 2) in Hcast by lia.
  replace (clock w + 2 + 1) with (clock w + 3) in Hcast by lia.
  fold event1 event2 in Hcast.
  destruct (broadcast_spec (transport E) event1 (manager w) (wire w))
    as (Hw1 & _).
  destruct (EchoGuardModel.is_threat prediction).
  - destruct Hcast as [_ ->].
    destruct (broadcast_spec (transport E) event2
                (Websocket.broadcast (transport E) (manager w) event1 (wire w)).1
                (Websocket.broadcast (transport E) (manager w) event1 (wire w)).2)
      as (Hw2 & _).
    rewrite Hw2, Hw1. unfold deliveries. rewrite <- app_assoc. reflexivity.
  - destruct Hcast as [_ ->]. rewrite Hw1, app_nil_r. reflexivity.
Qed.

Lemma analyze_audio_without_alert_witness :
  let E := Examples2.env_alerts_off in
  let w := Examples.world0 in
  let db := Db.database (session w) in
  let path := Audio.upload_path (clock w) (Audio.filename Examples.clip) in
  let detection :=
    Detection.with_row
      (Audio.new_detection (Some 7) Examples.prediction_vessel path
         None None (Some Examples.hydrophone7))
      (Db.next_detection_id db) (clock w + 1) in
  let run := Audio.analyze_audio E Examples.clip (Some 7) None None w in
  let event1 :=
    Websocket.envelope "new_detection" (clock w + 2)
      (detection_data Examples.prediction_vessel detection (clock w + 1)) in
  let event2 :=
    Websocket.envelope "alert" (clock w + 3)
      (alert_data Examples.prediction_vessel detection) in
  (exists resp,
     run.1 = Ok resp
     /\ Audio.r_detection_id resp = Some (Db.next_detection_id db)
     /\ Audio.r_timestamp resp = clock w + 1)
  /\ Db.alerts (Db.database (session run.2)) = Db.alerts db
  /\ outbox run.2 = outbox w
  /\ Db.history (session run.2)
     = Db.history (session w) ++ [Db.insert_detection detection db]
  /\ wire run.2
     = wire w ++ deliveries (transport E) (manager w) event1
         ++ (if EchoGuardModel.is_threat Examples.prediction_vessel
             then deliveries (transport E)
                    (Websocket.broadcast (transport E) (manager w) event1
                       (wire w)).1
                    event2
             else []).
Proof.
  apply (analyze_audio_without_alert
           Examples2.env_alerts_off Examples.clip (Some 7) None None
           Examples.world0 Examples.features0 Examples.prediction_vessel
           (Some Examples.hydrophone7)).
  - vm_compute. reflexivity.
  - reflexivity.
  - vm_compute. reflexivity.
  - vm_compute. reflexivity.
  - vm_compute. reflexivity.
  - reflexivity.
  - reflexivity.
Defined.

(** After a committed detection the two tables [analyze_audio] does not
    own are as they were, and the detections table has the one new row. *)
Lemma analyze_audio_tables
    (E : Env) (file : Audio.UploadFile) (hydrophone_id : option Z)
    (latitude longitude : option Q) (w : World)
    (features : list (list Q)) (prediction : EchoGuardModel.Prediction)
    (hydrophone : option Hydrophone.t) :
  let db := Db.database (session w) in
  let path := Audio.upload_path (clock w) (Audio.filename file) in
  let detection :=
    Detection.with_row
      (Audio.new_detection hydrophone_id prediction path
         latitude longitude hydrophone)
      (Db.next_detection_id db) (clock w + 1) in
  Audio.supported_format (Audio.filename file) = true ->
  write_raises E path = false ->
  AudioProcessor.preprocess_audio (librosa E) (Audio.audio_processor E)
    (Audio.content file) = Ok features ->
  EchoGuardModel.predict (ml_model E) (EchoGuardModel.Mat features)
    = Ok prediction ->
  Audio.get_hydrophone hydrophone_id db = Ok hydrophone ->
  commit_raises E (Db.commits (session w)) = false ->
  let run := Audio.analyze_audio E file hydrophone_id latitude longitude w in
  Db.detections (Db.database (session run.2)) = Db.detections db ++ [detection]
  /\ Db.hydrophones (Db.database (session run.2)) = Db.hydrophones db
  /\ files run.2 = files w ++ [(path, Audio.content file)].
Proof.
  intros db path detection Hfmt Hwrite Hfeat Hpred Hhyd Hcommit run.
  subst run.
  rewrite (analyze_audio_after_commit E file hydrophone_id latitude longitude
             w features prediction hydrophone Hfmt Hwrite Hfeat Hpred Hhyd
             Hcommit).
  fold db path detection.
  destruct (analyze_audio_from_tail E prediction detection
              (committed_world w file detection)) as [Hw _].
  cbv zeta in Hw. rewrite Hw. clear Hw.
  pose proof (analyze_tail_run E prediction detection (clock w + 1)
                (committed_world w file detection) eq_refl) as Hrun.
  cbv zeta in Hrun. destruct Hrun as (Hsess & _ & Hfiles & _).
  rewrite Hsess, Hfiles.
  destruct (EchoGuardModel.is_threat prediction
            && Settings.ENABLE_ALERTS (settings E)).
  - rewrite send_alert_detections, send_alert_hydrophones.
    destruct (send_alert_shapes E detection (committed_world w file detection))
      as (_ & _ & -> & _).
    repeat split; reflexivity.
  - repeat split; reflexivity.
Qed.

(** X16: a detection that [analyze_audio] has committed can be read back
    with [get_detection] under the id the database gave it, whatever
    happened to the alert and the broadcasts afterwards: label,
    confidence, threat flag and hydrophone reference are the ones
    analysed, the timestamp is the commit's, the position is the resolved
    one, and the hydrophone name is looked up from the reference. *)
Theorem analyze_then_get_detection
    (E : Env) (file : Audio.UploadFile) (hydrophone_id : option Z)
    (latitude longitude : option Q) (w : World)
    (features : list (list Q)) (prediction : EchoGuardModel.Prediction)
    (hydrophone : option Hydrophone.t) :
  let db := Db.database (session w) in
  let path := Audio.upload_path (clock w) (Audio.filename file) in
  Audio.supported_format (Audio.filename file) = true ->
  write_raises E path = false ->
  AudioProcessor.preprocess_audio (librosa E) (Audio.audio_processor E)
    (Audio.content file) = Ok features ->
  EchoGuardModel.predict (ml_model E) (EchoGuardModel.Mat features)
    = Ok prediction ->
  Audio.get_hydrophone hydrophone_id db = Ok hydrophone ->
  commit_raises E (Db.commits (session w)) = false ->
  let run := Audio.analyze_audio E file hydrophone_id latitude longitude w in
  Detections.get_detection (Db.next_detection_id db) run.2
  = (Ok {| Detections.id := Db.next_detection_id db;
           Detections.event_type := EchoGuardModel.event_type prediction;
           Detections.confidence := EchoGuardModel.confidence prediction;
           Detections.timestamp := clock w + 1;
           Detections.is_threat := EchoGuardModel.is_threat prediction;
           Detections.latitude :=
             or_else latitude
               (match hydrophone with
                | Some h => Hydrophone.latitude h
                | None => None
                end);
           Detections.longitude :=
             or_else longitude
               (match hydrophone with
                | Some h => Hydrophone.longitude h
                | None => None
                end);
           Detections.hydrophone_id := hydrophone_id;
           Detections.hydrophone_name :=
             match hydrophone_id with
             | Some h => Hydrophone.name <$> Db.hydrophone_row h db
             | None => None
             end |},
     run.2).
Proof.
  intros db path Hfmt Hwrite Hfeat Hpred Hhyd Hcommit run.
  destruct (analyze_audio_tables E file hydrophone_id latitude longitude w
              features prediction hydrophone Hfmt Hwrite Hfeat Hpred Hhyd
              Hcommit) as (Hdet & Hhydro & _).
  fold db path run in Hdet, Hhydro.
  set (detection :=
         Detection.with_row
           (Audio.new_detection hydrophone_id prediction path
              latitude longitude hydrophone)
           (Db.next_detection_id db) (clock w + 1)) in *.
  assert (Db.detection_row (Db.next_detection_id db)
            (Db.database (session run.2)) = Some detection) as Hrow.
  { rewrite (detection_row_same_table _ _ (Db.insert_detection detection db))
      by exact Hdet.
    apply detection_row_insert_same. reflexivity. }
  unfold Detections.get_detection, mbind', pending_database.
  rewrite Hrow.
  unfold Detections.hydrophone_of, Db.hydrophone_row. rewrite Hhydro.
  cbn [lift Notifications.required detection Detection.with_row Detection.id
       Detection.timestamp Detection.hydrophone_id Audio.new_detection
       Detection.event_type Detection.confidence Detection.is_threat
       Detection.latitude Detection.longitude default ret].
  destruct hydrophone_id as [h |]; [| reflexivity].
  destruct (find _ (Db.hydrophones db)); reflexivity.
Qed.

Lemma analyze_then_get_detection_witness :
  let E := Examples.env_webhook_down in
  let w := Examples.world0 in
  let db := Db.database (session w) in
  let run := Audio.analyze_audio E Examples.clip (Some 7) None None w in
  Detections.get_detection (Db.next_detection_id db) run.2
  = (Ok {| Detections.id := Db.next_detection_id db;
           Detections.event_type :=
             EchoGuardModel.event_type Examples.prediction_vessel;
           Detections.confidence :=
             EchoGuardModel.confidence Examples.prediction_vessel;
           Detections.timestamp := clock w + 1;
           Detections.is_threat :=
             EchoGuardModel.is_threat Examples.prediction_vessel;
           Detections.latitude :=
             or_else None
               (match Some Examples.hydrophone7 with
                | Some h => Hydrophone.latitude h
                | None => None
                end);
           Detections.longitude :=
             or_else None
               (match Some Examples.hydrophone7 with
                | Some h => Hydrophone.longitude h
                | None => None
                end);
           Detections.hydrophone_id := Some 7;
           Detections.hydrophone_name :=
             match Some 7 with
             | Some h => Hydrophone.name <$> Db.hydrophone_row h db
             | None => None
             end |},
     run.2).
Proof.
  apply (analyze_then_get_detection
           Examples.env_webhook_down Examples.clip (Some 7) None None
           Examples.world0 Examples.features0 Examples.prediction_vessel
           (Some Examples.hydrophone7)).
  - vm_compute. reflexivity.
  - reflexivity.
  - vm_compute. reflexivity.
  - vm_compute. reflexivity.
  - vm_compute. reflexivity.
  - reflexivity.
Defined.

(** ** The notification endpoints *)

Lemma send_alert_other_rows
    (E : Env) (detection : Detection.t) (w : World) (j : Z) :
  j <> Db.next_alert_id (Db.database (session w)) ->
  Db.alert_row j (Db.database (session (AlertService.send_alert E detection w).2))
  = Db.alert_row j (Db.database (session w)).
Proof.
  intros Hj.
  destruct (send_alert_shapes E detection w)
    as (_ & _ & _ & new & _ & -> & Hshape).
  destruct Hshape as [-> | [(a & -> & Hid & _)
                          | (a & a' & -> & Hid & Hid' & _)]]; simpl.
  - reflexivity.
  - eapply alert_row_insert_other; eassumption.
  - rewrite (alert_row_update_other _ _ _ j Hid' Hj).
    eapply alert_row_insert_other; eassumption.
Qed.

Lemma send_alert_healthy_row (E : Env) (detection : Detection.t) (w : World) :
  (forall n, commit_raises E n = false) ->
  let run := AlertService.send_alert E detection w in
  let i := Db.next_alert_id (Db.database (session w)) in
  run.1 = Ok ()
  /\ exists a,
       Db.alert_row i (Db.database (session run.2)) = Some a
       /\ Alert.id a = Some i
       /\ Alert.created_at a = Some (clock w)
       /\ Alert.detection_id a = Detection.id detection
       /\ Alert.alert_type a = "webhook"
       /\ Alert.sent_at a = None
       /\ (Alert.status a = "sent" \/ Alert.status a = "failed").
Proof.
  intros Hc. unfold_send_alert.
  repeat alert_step; run_world.
  all: try match goal with
           | H : commit_raises _ _ = true |- _ => rewrite Hc in H; discriminate H
           end.
  all: split; [reflexivity |].
  all: eexists; split;
    [ eapply alert_row_update_same;
      [ reflexivity | apply alert_row_insert_same; reflexivity ] |].
  all: split_and!; first [reflexivity | left; reflexivity | right; reflexivity].
Qed.

Lemma resend_alert_unfold (E : Env) (detection_id : Z) (w : World) :
  Notifications.resend_alert E detection_id w
  = match Db.detection_row detection_id (Db.database (session w)) with
    | None => (Raise (HTTPException 404 "Detection not found"), w)
    | Some detection =>
        if Detection.is_threat detection
        then
          match AlertService.send_alert E detection w with
          | (Ok _, w') => (Ok "Alert resent successfully", w')
          | (Raise e, w') =>
              (Raise (HTTPException 500 ("Error resending alert: " +:+ str e)),
               w')
          end
        else (Raise (HTTPException 400 "Detection is not a threat"), w)
    end.
Proof.
  unfold Notifications.resend_alert, mbind', pending_database, raise,
    try_except, ret.
  destruct (Db.detection_row detection_id (Db.database (session w))) as [d |];
    [| reflexivity].
  destruct (Detection.is_threat d); cbn [negb]; [| reflexivity].
  destruct (AlertService.send_alert E d w) as [[[] | e] w']; reflexivity.
Qed.

(** X17: [resend_alert].  An unknown detection is answered 404 and a
    detection that is not a threat 400, and in both cases nothing is
    changed.  For a threat, whether or not alerts are enabled, and with
    a database that accepts every commit, the call answers "Alert resent
    successfully", also when the webhook delivery fails, adds a new alert
    row for the detection and leaves every earlier alert row as it
    was. *)
Theorem resend_alert_contract (E : Env) (detection_id : Z) (w : World) :
  let db := Db.database (session w) in
  let run := Notifications.resend_alert E detection_id w in
  (Db.detection_row detection_id db = None ->
   run = (Raise (HTTPException 404 "Detection not found"), w))
  /\ (forall d,
        Db.detection_row detection_id db = Some d ->
        Detection.is_threat d = false ->
        run = (Raise (HTTPException 400 "Detection is not a threat"), w))
  /\ (forall d,
        Db.detection_row detection_id db = Some d ->
        Detection.is_threat d = true ->
        (forall n, commit_raises E n = false) ->
        run.1 = Ok "Alert resent successfully"
        /\ (exists a,
              Db.alert_row (Db.next_alert_id db) (Db.database (session run.2))
                = Some a
              /\ Alert.detection_id a = Some detection_id
              /\ Alert.sent_at a = None
              /\ (Alert.status a = "sent" \/ Alert.status a = "failed"))
        /\ (forall j, j <> Db.next_alert_id db ->
              Db.alert_row j (Db.database (session run.2)) = Db.alert_row j db)
        /\ Db.detections (Db.database (session run.2)) = Db.detections db).
Proof.
  intros db run. subst run.
  rewrite resend_alert_unfold. fold db.
  split_and!.
  - intros ->. reflexivity.
  - intros d -> ->. reflexivity.
  - intros d Hd Hthreat Hc. rewrite Hd, Hthreat.
    destruct (send_alert_healthy_row E d w Hc)
      as (Hok & a & Ha & _ & _ & Hdid & _ & Hsent & Hst).
    pose proof (send_alert_detections E d w) as Hdet.
    pose proof (fun j => send_alert_other_rows E d w j) as Hother.
    cbv zeta in Hok, Ha.
    destruct (AlertService.send_alert E d w) as [[[] | e] w'];
      cbn [fst snd] in *; [| discriminate Hok].
    split; [reflexivity |].
    split.
    { exists a. split; [exact Ha |]. split; [| auto].
      rewrite Hdid. apply find_Some_elem in Hd as [_ Hd].
      apply bool_decide_eq_true in Hd. exact Hd. }
    split; [exact Hother | exact Hdet].
Qed.

(** X18: an alert that [send_alert] has just created can be read back
    with [get_alert] under its new id: the answer names the detection,
    has status sent or failed, and its [sent_at] is null in either case;
    an id with no alert row is answered 404. *)
Theorem send_alert_then_get_alert
    (E : Env) (detection : Detection.t) (w : World) (k : Z) :
  (forall n, commit_raises E n = false) ->
  Detection.id detection = Some k ->
  let run := AlertService.send_alert E detection w in
  let i := Db.next_alert_id (Db.database (session w)) in
  (exists resp,
     Notifications.get_alert i run.2 = (Ok resp, run.2)
     /\ Notifications.id resp = i
     /\ Notifications.detection_id resp = k
     /\ Notifications.alert_type resp = "webhook"
     /\ Notifications.sent_at resp = None
     /\ Notifications.created_at resp = clock w
     /\ (Notifications.status resp = "sent"
         \/ Notifications.status resp = "failed"))
  /\ (forall j,
        Db.alert_row j (Db.database (session run.2)) = None ->
        Notifications.get_alert j run.2
        = (Raise (HTTPException 404 "Alert not found"), run.2)).
Proof.
  intros Hc Hk run i.
  destruct (send_alert_healthy_row E detection w Hc)
    as (_ & a & Ha & Hid & Hcreated & Hdid & Htype & Hsent & Hst).
  fold run i in Ha. split.
  - unfold Notifications.get_alert, mbind', pending_database.
    rewrite Ha. unfold lift, Notifications.alert_response.
    rewrite Hcreated, Hid, Hdid, Hk. cbn [isoformat Notifications.required Py.bind].
    eexists. split; [reflexivity |]. cbn.
    split_and!; try reflexivity; assumption.
  - intros j Hj. unfold Notifications.get_alert, mbind', pending_database.
    rewrite Hj. reflexivity.
Qed.

Lemma send_alert_then_get_alert_witness :
  let run :=
    AlertService.send_alert Examples.env_webhook_down Examples.detection1
      Examples.world0 in
  let i := Db.next_alert_id (Db.database (session Examples.world0)) in
  (exists resp,
     Notifications.get_alert i run.2 = (Ok resp, run.2)
     /\ Notifications.id resp = i
     /\ Notifications.detection_id resp = 1
     /\ Notifications.alert_type resp = "webhook"
     /\ Notifications.sent_at resp = None
     /\ Notifications.created_at resp = clock Examples.world0
     /\ (Notifications.status resp = "sent"
         \/ Notifications.status resp = "failed"))
  /\ (forall j,
        Db.alert_row j (Db.database (session run.2)) = None ->
        Notifications.get_alert j run.2
        = (Raise (HTTPException 404 "Alert not found"), run.2)).
Proof.
  apply (send_alert_then_get_alert
           Examples.env_webhook_down Examples.detection1 Examples.world0 1).
  - intros n. reflexivity.
  - reflexivity.
Defined.

(** ** Validation and the batch endpoint *)

(** X19: [validate_audio_file] gives a reason exactly when it refuses.
    It accepts a name exactly when the name ends (case-insensitively) in
    one of its six extensions, a file of that name exists on the server
    and decodes to at least one sample.  Every name the single-file
    endpoint accepts passes its extension check. *)
Theorem validate_audio_file_verdict (F : AudioUtils.Fs) (file_path : string) :
  ((AudioUtils.validate_audio_file F file_path).1 = true
   <-> (AudioUtils.validate_audio_file F file_path).2 = None)
  /\ ((AudioUtils.validate_audio_file F file_path).1 = true
      <-> existsb (endswith (lower file_path)) AudioUtils.valid_extensions = true
          /\ AudioUtils.path_exists F file_path = true
          /\ exists y, AudioUtils.load_path F file_path = Ok y /\ y <> [])
  /\ (Audio.supported_format file_path = true ->
      existsb (endswith (lower file_path)) AudioUtils.valid_extensions = true).
Proof.
  unfold AudioUtils.validate_audio_file. split_and!.
  - destruct (existsb _ AudioUtils.valid_extensions); cbn [negb];
      [| split; discriminate].
    destruct (AudioUtils.path_exists F file_path); cbn [negb];
      [| split; discriminate].
    destruct (AudioUtils.load_path F file_path) as [y | e];
      [| split; discriminate].
    destruct (len y =? 0); split; first [discriminate | reflexivity].
  - destruct (existsb _ AudioUtils.valid_extensions); cbn [negb];
      [| split; [discriminate | intros (Hf & _); discriminate Hf]].
    destruct (AudioUtils.path_exists F file_path); cbn [negb];
      [| split; [discriminate | intros (_ & Hf & _); discriminate Hf]].
    destruct (AudioUtils.load_path F file_path) as [y | e].
    + destruct (Z.eqb_spec (len y) 0) as [Hz | Hnz]; cbn [fst].
      * split; [discriminate |].
        intros (_ & _ & y' & [= <-] & Hne).
        destruct y; [congruence | unfold len in Hz; simpl in Hz; lia].
      * split; [| reflexivity]. intros _. split_and!; try reflexivity.
        exists y. split; [reflexivity |]. intros ->. apply Hnz. reflexivity.
    + split; [discriminate |]. intros (_ & _ & y & Hy & _). discriminate Hy.
  - unfold Audio.supported_format, AudioUtils.valid_extensions. cbn [existsb].
    intros H. repeat (apply orb_prop in H as [H | H]; [rewrite H |]);
      rewrite ?orb_true_r; try reflexivity.
    discriminate H.
Qed.

Lemma batch_process_frame
    (E : Env) (hydrophone_id : option Z) (file : Audio.UploadFile) (w : World) :
  manager (Audio.batch_process E hydrophone_id file w).2 = manager w
  /\ wire (Audio.batch_process E hydrophone_id file w).2 = wire w.
Proof.
  unfold Audio.batch_process, Audio.commit_detection, Audio.save_upload,
    mbind', lift, utcnow, pending_database, db_commit, Db.commit,
    set_session, ret.
  destruct (AudioProcessor.preprocess_audio _ _ _) as [features | e];
    [| split; reflexivity].
  destruct (EchoGuardModel.predict _ _) as [prediction | e];
    [| split; reflexivity].
  cbn [clock]. destruct (write_raises E _); [split; reflexivity |].
  cbn [session clock].
  destruct (Db.flush_detection _ _ _) as [d' db'].
  destruct (commit_raises E _); split; reflexivity.
Qed.

Lemma alert_step_frame
    (E : Env) (b : bool) (detection : Detection.t) (w : World) :
  let step :=
    (if b then AlertService.send_alert E detection else ret ()) w in
  manager step.2 = manager w
  /\ wire step.2 = wire w
  /\ ((forall n, commit_raises E n = false) -> step.1 = Ok ()).
Proof.
  destruct b; cbn zeta.
  - destruct (send_alert_shapes E detection w) as (Hm & Hw & _).
    split; [exact Hm |]. split; [exact Hw |].
    intros Hc. apply (send_alert_healthy E detection w Hc).
  - split_and!; reflexivity.
Qed.

(** One turn of the batch loop. *)
Lemma batch_item_spec
    (E : Env) (F : AudioUtils.Fs) (hydrophone_id : option Z)
    (acc : list Audio.BatchResult * list Audio.BatchError)
    (file : Audio.UploadFile) (w : World) :
  let out := Audio.batch_item E F hydrophone_id acc file w in
  manager out.2 = manager w
  /\ wire out.2 = wire w
  /\ exists dr de,
       out.1.1 = acc.1 ++ dr
       /\ out.1.2 = acc.2 ++ de
       /\ (length dr <= 1)%nat
       /\ (length de <= 1)%nat
       /\ (1 <= length dr + length de)%nat
       /\ ((forall n, commit_raises E n = false) ->
           (length dr + length de = 1)%nat)
       /\ ((AudioUtils.validate_audio_file F (Audio.filename file)).1 = false ->
           out.2 = w /\ dr = []).
Proof.
  destruct acc as [results errors]. unfold Audio.batch_item. cbn zeta.
  destruct (AudioUtils.validate_audio_file F (Audio.filename file))
    as [[|] msg]; cbn [fst snd].
  - pose proof (batch_process_frame E hydrophone_id file w) as [Hm Hw].
    destruct (Audio.batch_process E hydrophone_id file w)
      as [[[detection prediction] | e] w1]; cbn [fst snd] in *.
    + pose proof (alert_step_frame E
                    (EchoGuardModel.is_threat prediction
                     && Settings.ENABLE_ALERTS (settings E))
                    detection w1) as (Hm2 & Hw2 & Hok).
      cbn zeta in Hm2, Hw2, Hok.
      destruct ((if EchoGuardModel.is_threat prediction
                    && Settings.ENABLE_ALERTS (settings E)
                 then AlertService.send_alert E detection
                 else ret ()) w1) as [[[] | e] w2]; cbn [fst snd] in *.
      * split; [congruence |]. split; [congruence |].
        eexists [_], []. rewrite app_nil_r.
        split_and!; try reflexivity; simpl; try lia; discriminate.
      * split; [congruence |]. split; [congruence |].
        eexists [_], [_].
        split_and!; try reflexivity; simpl; try lia; try discriminate.
        intros Hc. specialize (Hok Hc). discriminate Hok.
    + split; [exact Hm |]. split; [exact Hw |].
      eexists [], [_]. rewrite app_nil_r.
      split_and!; try reflexivity; simpl; try lia; discriminate.
  - split; [reflexivity |]. split; [reflexivity |].
    eexists [], [_]. rewrite app_nil_r.
    split_and!; try reflexivity; simpl; try lia.
    intros _. split; reflexivity.
Qed.

Lemma batch_loop_spec
    (E : Env) (F : AudioUtils.Fs) (hydrophone_id : option Z)
    (files : list Audio.UploadFile) :
  forall (acc : list Audio.BatchResult * list Audio.BatchError) (w : World),
    let out := Audio.batch_loop E F hydrophone_id files acc w in
    manager out.2 = manager w
    /\ wire out.2 = wire w
    /\ exists dr de,
         out.1.1 = acc.1 ++ dr
         /\ out.1.2 = acc.2 ++ de
         /\ (length dr <= length files)%nat
         /\ (length de <= length files)%nat
         /\ (length files <= length dr + length de)%nat
         /\ ((forall n, commit_raises E n = false) ->
             (length dr + length de = length files)%nat)
         /\ ((forall file, file ∈ files ->
                (AudioUtils.validate_audio_file F (Audio.filename file)).1
                = false) ->
             out.2 = w /\ dr = []).
Proof.
  induction files as [| file files IH]; intros acc w; cbn zeta.
  - simpl. split; [reflexivity |]. split; [reflexivity |].
    exists [], []. rewrite !app_nil_r.
    split_and!; try reflexivity; simpl; try lia.
    intros _. split; reflexivity.
  - cbn [Audio.batch_loop].
    pose proof (batch_item_spec E F hydrophone_id acc file w) as Hitem.
    cbn zeta in Hitem.
    destruct (Audio.batch_item E F hydrophone_id acc file w) as [acc' w'].
    cbn [fst snd] in Hitem.
    destruct Hitem as (Hm & Hw & dr & de & Hr & He & Hdr & Hde & Hsum
                       & Hhealthy & Hrefused).
    specialize (IH acc' w'). cbn zeta in IH.
    destruct IH as (Hm' & Hw' & dr' & de' & Hr' & He' & Hdr' & Hde' & Hsum'
                    & Hhealthy' & Hrefused').
    split; [congruence |]. split; [congruence |].
    exists (dr ++ dr'), (de ++ de').
    rewrite Hr', He', Hr, He, <- !app_assoc, !length_app. simpl.
    split_and!; try reflexivity; try lia.
    + intros Hc. specialize (Hhealthy Hc). specialize (Hhealthy' Hc). lia.
    + intros Hall.
      destruct Hrefused as [-> ->]; [apply Hall; apply elem_of_cons; auto |].
      destruct Hrefused' as [-> ->];
        [intros f Hf; apply Hall; apply elem_of_cons; auto |].
      split; reflexivity.
Qed.

(** X20: [analyze_audio_batch] never broadcasts: the registry and the
    wire are as before.  Every file is reported: at most once as
    processed, at most once as error, and at least once in all, so the
    two counts add up to between n and 2n for n files (a file is counted
    twice when its alert dispatch raises after the file was recorded as
    processed); with a database that accepts every commit they add up to
    exactly n.  When every file is refused by the validation, nothing at
    all is done and nothing is processed. *)
Theorem analyze_audio_batch_counts
    (E : Env) (F : AudioUtils.Fs) (files : list Audio.UploadFile)
    (hydrophone_id : option Z) (w : World) :
  let run := Audio.analyze_audio_batch E F files hydrophone_id w in
  let n := len files in
  manager run.2 = manager w
  /\ wire run.2 = wire w
  /\ Audio.processed run.1 = len (Audio.results run.1)
  /\ Audio.errors run.1 = len (Audio.error_details run.1)
  /\ 0 <= Audio.processed run.1 <= n
  /\ 0 <= Audio.errors run.1 <= n
  /\ n <= Audio.processed run.1 + Audio.errors run.1 <= 2 * n
  /\ ((forall m, commit_raises E m = false) ->
      Audio.processed run.1 + Audio.errors run.1 = n)
  /\ ((forall file, file ∈ files ->
         (AudioUtils.validate_audio_file F (Audio.filename file)).1 = false) ->
      run.2 = w /\ Audio.processed run.1 = 0 /\ Audio.errors run.1 = n).
Proof.
  intros run n. subst run n. unfold Audio.analyze_audio_batch.
  pose proof (batch_loop_spec E F hydrophone_id files ([], []) w) as Hloop.
  cbn zeta in Hloop.
  destruct (Audio.batch_loop E F hydrophone_id files ([], []) w)
    as [[results errors] w'].
  cbn [fst snd app] in Hloop.
  destruct Hloop as (Hm & Hw & dr & de & -> & -> & Hdr & Hde & Hsum
                     & Hhealthy & Hrefused).
  cbn [fst snd Audio.processed Audio.errors Audio.results Audio.error_details].
  unfold len. split_and!; try reflexivity; try assumption; try lia.
  - intros Hc. specialize (Hhealthy Hc). lia.
  - intros Hall. destruct (Hrefused Hall) as [-> ->].
    split; [reflexivity |]. split; [reflexivity |]. simpl in Hsum. lia.
Qed.

Lemma batch_loop_unknown_names
    (E : Env) (F : AudioUtils.Fs) (hydrophone_id : option Z)
    (files : list Audio.UploadFile) :
  (forall file, file ∈ files ->
     AudioUtils.path_exists F (Audio.filename file) = false) ->
  forall acc w,
    Audio.batch_loop E F hydrophone_id files acc w
    = ((acc.1,
        acc.2 ++
        ((fun f =>
            {| Audio.e_file := Audio.filename f;
               Audio.e_error :=
                 (AudioUtils.validate_audio_file F (Audio.filename f)).2 |})
           <$> files)), w).
Proof.
  induction files as [| file files IH]; intros Hnone [results errors] w.
  - simpl. rewrite app_nil_r. reflexivity.
  - cbn [Audio.batch_loop]. unfold Audio.batch_item at 1.
    assert ((AudioUtils.validate_audio_file F (Audio.filename file)).1 = false)
      as Hrefused.
    { unfold AudioUtils.validate_audio_file.
      destruct (existsb _ AudioUtils.valid_extensions); [| reflexivity].
      rewrite Hnone by (apply elem_of_cons; auto). reflexivity. }
    destruct (AudioUtils.validate_audio_file F (Audio.filename file))
      as [ok msg] eqn:Hv. cbn [fst snd] in *. subst ok.
    rewrite IH by (intros f Hf; apply Hnone; apply elem_of_cons; auto).
    cbn [fst snd]. rewrite fmap_cons, Hv. cbn [snd].
    rewrite <- app_assoc. reflexivity.
Qed.

(** X21: the batch endpoint validates the name of each upload as a path
    on the server's disk before it reads the uploaded bytes.  So when no
    file of those names exists on the server, the whole batch is
    refused, whatever the uploaded bytes are: nothing is processed,
    nothing is saved or recorded, and each file is reported with the
    validation's reason, which is "File does not exist" for every name
    with an accepted extension. *)
Theorem analyze_audio_batch_unknown_names
    (E : Env) (F : AudioUtils.Fs) (files : list Audio.UploadFile)
    (hydrophone_id : option Z) (w : World) :
  (forall file, file ∈ files ->
     AudioUtils.path_exists F (Audio.filename file) = false) ->
  let run := Audio.analyze_audio_batch E F files hydrophone_id w in
  run.2 = w
  /\ Audio.processed run.1 = 0
  /\ Audio.results run.1 = []
  /\ Audio.errors run.1 = len files
  /\ Audio.e_file <$> Audio.error_details run.1 = Audio.filename <$> files
  /\ (forall err,
        err ∈ Audio.error_details run.1 ->
        existsb (endswith (lower (Audio.e_file err)))
          AudioUtils.valid_extensions = true ->
        Audio.e_error err = Some "File does not exist").
Proof.
  intros Hnone run. subst run. unfold Audio.analyze_audio_batch.
  rewrite (batch_loop_unknown_names E F hydrophone_id files Hnone ([], []) w).
  cbn [fst snd app Audio.processed Audio.errors Audio.results
       Audio.error_details].
  split_and!; try reflexivity.
  - unfold len. rewrite length_fmap. reflexivity.
  - rewrite <- list_fmap_compose. reflexivity.
  - intros err Hin Hext.
    apply list_elem_of_fmap in Hin as (f & -> & Hf).
    cbn [Audio.e_file Audio.e_error] in *.
    unfold AudioUtils.validate_audio_file.
    rewrite Hext, (Hnone f Hf). reflexivity.
Qed.

Lemma analyze_audio_batch_unknown_names_witness :
  let run :=
    Audio.analyze_audio_batch Examples.env0 Examples2.fs_empty
      [Examples.clip; Examples2.clip2; Examples2.notes] (Some 7)
      Examples.world0 in
  run.2 = Examples.world0
  /\ Audio.processed run.1 = 0
  /\ Audio.results run.1 = []
  /\ Audio.errors run.1
     = len [Examples.clip; Examples2.clip2; Examples2.notes]
  /\ Audio.e_file <$> Audio.error_details run.1
     = Audio.filename <$> [Examples.clip; Examples2.clip2; Examples2.notes]
  /\ (forall err,
        err ∈ Audio.error_details run.1 ->
        existsb (endswith (lower (Audio.e_file err)))
          AudioUtils.valid_extensions = true ->
        Audio.e_error err = Some "File does not exist").
Proof.
  apply (analyze_audio_batch_unknown_names
           Examples.env0 Examples2.fs_empty
           [Examples.clip; Examples2.clip2; Examples2.notes] (Some 7)
           Examples.world0).
  intros file _. reflexivity.
Defined.

(** X22: a file that the batch endpoint processes is stored without a
    position: unlike the single-file endpoint, the batch never looks the
    hydrophone up, so the reference goes to the database as given and
    the hydrophone's position is not taken over.  The detection is
    committed before the alert is dispatched and stays retrievable
    whatever the alert does. *)
Theorem analyze_audio_batch_single
    (E : Env) (F : AudioUtils.Fs) (file : Audio.UploadFile)
    (hydrophone_id : option Z) (w : World)
    (features : list (list Q)) (prediction : EchoGuardModel.Prediction) :
  let db := Db.database (session w) in
  let i := Db.next_detection_id db in
  let path := Audio.upload_path (clock w) (Audio.filename file) in
  let detection :=
    Detection.with_row
      (Audio.batch_detection hydrophone_id prediction path) i (clock w + 1) in
  (AudioUtils.validate_audio_file F (Audio.filename file)).1 = true ->
  AudioProcessor.preprocess_audio (librosa E) (Audio.audio_processor E)
    (Audio.content file) = Ok features ->
  EchoGuardModel.predict (ml_model E) (EchoGuardModel.Mat features)
    = Ok prediction ->
  write_raises E path = false ->
  commit_raises E (Db.commits (session w)) = false ->
  let run := Audio.analyze_audio_batch E F [file] hydrophone_id w in
  Audio.results run.1
  = [ {| Audio.b_file := Audio.filename file;
         Audio.b_detection_id := Some i;
         Audio.b_event_type := EchoGuardModel.event_type prediction;
         Audio.b_confidence := EchoGuardModel.confidence prediction;
         Audio.b_is_threat := EchoGuardModel.is_threat prediction |} ]
  /\ Db.detection_row i (Db.database (session run.2)) = Some detection
  /\ Detection.hydrophone_id detection = hydrophone_id
  /\ Detection.latitude detection = None
  /\ Detection.longitude detection = None
  /\ files run.2 = files w ++ [(path, Audio.content file)].
Proof.
  intros db i path detection Hvalid Hfeat Hpred Hwrite Hcommit run.
  subst run. unfold Audio.analyze_audio_batch. cbn [Audio.batch_loop].
  unfold Audio.batch_item.
  destruct (AudioUtils.validate_audio_file F (Audio.filename file))
    as [ok msg]. cbn [fst] in Hvalid. subst ok.
  assert (Audio.batch_process E hydrophone_id file w
          = (Ok (detection, prediction),
             committed_world w file detection)) as Hproc.
  { unfold Audio.batch_process, Audio.commit_detection, Audio.save_upload,
      mbind', lift, utcnow, pending_database, db_commit, Db.commit,
      set_session, ret.
    rewrite Hfeat, Hpred. cbn [clock]. fold path. rewrite Hwrite.
    cbn [session clock manager wire outbox files].
    change (Db.flush_detection
              (Audio.batch_detection hydrophone_id prediction path)
              (clock w + 1) (Db.database (session w)))
      with (detection, Db.insert_detection detection (Db.database (session w))).
    cbn [session clock manager wire outbox files]. rewrite Hcommit.
    reflexivity. }
  rewrite Hproc.
  pose proof (send_alert_detections E detection
                (committed_world w file detection)) as Hdet.
  destruct (send_alert_shapes E detection (committed_world w file detection))
    as (_ & _ & Hfiles & _).
  assert (Db.detection_row i
            (Db.database (session (committed_world w file detection)))
          = Some detection) as Hrow
    by (apply detection_row_insert_same; reflexivity).
  destruct (EchoGuardModel.is_threat prediction
            && Settings.ENABLE_ALERTS (settings E)).
  - destruct (AlertService.send_alert E detection
                (committed_world w file detection)) as [[[] | e] w2];
      cbn [fst snd] in *;
      (split; [reflexivity |];
       split; [rewrite (detection_row_same_table i _ _ Hdet); exact Hrow |];
       split; [reflexivity |]; split; [reflexivity |];
       split; [reflexivity | exact Hfiles]).
  - unfold ret. cbn [fst snd Audio.results].
    split; [reflexivity |]. split; [exact Hrow |].
    repeat split; reflexivity.
Qed.

Lemma analyze_audio_batch_single_witness :
  let E := Examples.env_webhook_down in
  let w := Examples.world0 in
  let db := Db.database (session w) in
  let i := Db.next_detection_id db in
  let path := Audio.upload_path (clock w) (Audio.filename Examples.clip) in
  let detection :=
    Detection.with_row
      (Audio.batch_detection (Some 7) Examples.prediction_vessel path)
      i (clock w + 1) in
  let run :=
    Audio.analyze_audio_batch E Examples2.fs_full [Examples.clip] (Some 7) w in
  Audio.results run.1
  = [ {| Audio.b_file := Audio.filename Examples.clip;
         Audio.b_detection_id := Some i;
         Audio.b_event_type :=
           EchoGuardModel.event_type Examples.prediction_vessel;
         Audio.b_confidence :=
           EchoGuardModel.confidence Examples.prediction_vessel;
         Audio.b_is_threat :=
           EchoGuardModel.is_threat Examples.prediction_vessel |} ]
  /\ Db.detection_row i (Db.database (session run.2)) = Some detection
  /\ Detection.hydrophone_id detection = Some 7
  /\ Detection.latitude detection = None
  /\ Detection.longitude detection = None
  /\ files run.2 = files w ++ [(path, Audio.content Examples.clip)].
Proof.
  apply (analyze_audio_batch_single
           Examples.env_webhook_down Examples2.fs_full Examples.clip (Some 7)
           Examples.world0 Examples.features0 Examples.prediction_vessel).
  - vm_compute. reflexivity.
  - vm_compute. reflexivity.
  - vm_compute. reflexivity.
  - reflexivity.
  - reflexivity.
Defined.
